(** * Result analysis of the secure-api-system test pipeline

    A shallow embedding of the two analysis scripts

      - [scripts/analyze-performance.py]  (k6 load-test results), and
      - [scripts/analyze-security.py]     (OWASP ZAP scan results),

    followed by the properties of their verdicts.

    Conventions of the embedding.

    - A parsed JSON document is a value of type [json]; it is what
      [json.load] returns.  Python [int] is [Z], Python [float] is a binary64
      primitive float, [dict] is an association list read by its first
      binding for a key.
    - A Python [str] is a [string], read as the UTF-8 bytes of the text.  The
      scripts search and split strings only with the ASCII separator
      [" - "] and compare them with ASCII keys, and for those operations the
      byte view and the code-point view agree.
    - A Python exception is a value of [exn]; fallible code lives in the
      error monad [result].  [print] appends a [message] to the output.
    - [open]/[json.load] is an oracle [fs] from a path to the outcome of
      loading it; [datetime.now().isoformat()] is the argument [now].
    - [round(x, 2)] on a float and true division of two ints are Python
      builtins; they are Variables of the section that needs them. *)

From Stdlib Require Import ZArith QArith_base String Ascii Floats Bool Permutation Sorted.
From stdpp Require Import gmap strings list fin_maps.
From Equations Require Import Equations.
From Equations.Prop Require Import Logic.

Set Warnings "-register-all,-clear-no-such-hyp,-inexact-float".
Local Open Scope string_scope.
Local Open Scope list_scope.

(** ** Python values and exceptions *)

Inductive json : Type :=
| JNull
| JBool (b : bool)
| JInt (z : Z)
| JFloat (f : float)
| JString (s : string)
| JArray (items : list json)
| JObject (fields : list (string * json)).

Inductive exn : Type :=
| FileNotFoundError
| JSONDecodeError
| UnicodeDecodeError
| PermissionError
| AttributeError
| TypeError
| KeyError
| IndexError
| OverflowError
| ValueError
| SystemExit (code : Z).

Inductive result (A : Type) : Type :=
| Ok (a : A)
| Raise (e : exn).

Arguments Ok {A} a.
Arguments Raise {A} e.

(** [result] is a monad in the sense of stdpp: [x ← c; k] runs [c] and, when
    it returns [x], continues with [k]; an exception ends the computation. *)
#[global] Instance result_ret : MRet result := fun A a => Ok a.
#[global] Instance result_bind : MBind result := fun A B k c =>
  match c with
  | Ok a => k a
  | Raise e => Raise e
  end.

(** What the scripts print before the final report. *)
Inductive message : Type :=
| ErrorNotFound (path : string)        (* "错误: 找不到结果文件 ..." *)
| ErrorBadJson (path : string)         (* "错误: 无法解析 JSON 文件 ..." *)
| WarningNotFound (path : string)      (* "警告: 找不到结果文件 ..." *)
| WarningBadJson (path : string).      (* "警告: 无法解析 JSON 文件 ..." *)

(** ** Dictionaries, truth values, indexing, iteration *)

Fixpoint obj_lookup (k : string) (fields : list (string * json)) : option json :=
  match fields with
  | [] => None
  | (k', v) :: rest => if String.eqb k k' then Some v else obj_lookup k rest
  end.

(** [d.get(k, default)] on a dict. *)
Definition dict_get (fields : list (string * json)) (k : string) (default : json)
  : json :=
  match obj_lookup k fields with
  | Some v => v
  | None => default
  end.

(** [d.get(k, default)]: only a dict has [get]. *)
Definition py_get (d : json) (k : string) (default : json) : result json :=
  match d with
  | JObject fields => Ok (dict_get fields k default)
  | _ => Raise AttributeError
  end.

(** The truth value of [if site:]. *)
Definition py_truthy (v : json) : bool :=
  match v with
  | JNull => false
  | JBool b => b
  | JInt z => negb (z =? 0)%Z
  | JFloat f => negb (f =? 0)%float
  | JString s => negb (String.eqb s "")
  | JArray items => match items with [] => false | _ => true end
  | JObject fields => match fields with [] => false | _ => true end
  end.

(** [v[0]].  A JSON object has string keys only, so the key [0] is missing. *)
Definition py_first (v : json) : result json :=
  match v with
  | JArray (x :: _) => Ok x
  | JArray [] => Raise IndexError
  | JString (String c _) => Ok (JString (String c EmptyString))
  | JString EmptyString => Raise IndexError
  | JObject _ => Raise KeyError
  | _ => Raise TypeError
  end.

Fixpoint chars (s : string) : list json :=
  match s with
  | EmptyString => []
  | String c s' => JString (String c EmptyString) :: chars s'
  end.

(** The values visited by [for x in v]. *)
Definition py_iter (v : json) : result (list json) :=
  match v with
  | JArray items => Ok items
  | JString s => Ok (chars s)
  | JObject fields => Ok (map (fun kv => JString (fst kv)) fields)
  | _ => Raise TypeError
  end.

(** ** Numbers *)

(** The exact order between a float and an int, as Python compares them;
    [None] for NaN, which is unordered. *)
Definition float_cmp_int (f : float) (t : Z) : option comparison :=
  match Prim2SF f with
  | S754_nan => None
  | S754_infinity s => Some (if s then Lt else Gt)
  | S754_zero _ => Some (0 ?= t)%Z
  | S754_finite s m e =>
      let v := if s then Z.neg m else Z.pos m in
      Some (if (0 <=? e)%Z then (v * 2 ^ e ?= t)%Z
            else (v ?= t * 2 ^ (- e))%Z)
  end.

(** [v <= t] for an int [t]. *)
Definition py_le_int (v : json) (t : Z) : result bool :=
  match v with
  | JBool b => Ok (Z.b2z b <=? t)%Z
  | JInt z => Ok (z <=? t)%Z
  | JFloat f =>
      Ok (match float_cmp_int f t with
          | Some Lt | Some Eq => true
          | _ => false
          end)
  | _ => Raise TypeError
  end.

(** [v >= t] for an int [t]. *)
Definition py_ge_int (v : json) (t : Z) : result bool :=
  match v with
  | JBool b => Ok (Z.b2z b >=? t)%Z
  | JInt z => Ok (z >=? t)%Z
  | JFloat f =>
      Ok (match float_cmp_int f t with
          | Some Gt | Some Eq => true
          | _ => false
          end)
  | _ => Raise TypeError
  end.

Fixpoint repeat_string (n : nat) (s : string) : string :=
  match n with
  | O => EmptyString
  | S n' => s ++ repeat_string n' s
  end.

Fixpoint repeat_list {A : Type} (n : nat) (l : list A) : list A :=
  match n with
  | O => []
  | S n' => l ++ repeat_list n' l
  end.

(** [v * 100]: numbers are multiplied, sequences are repeated. *)
Definition py_mul_100 (v : json) : result json :=
  match v with
  | JBool b => Ok (JInt (Z.b2z b * 100))
  | JInt z => Ok (JInt (z * 100))
  | JFloat f => Ok (JFloat (f * 100)%float)
  | JString s => Ok (JString (repeat_string 100 s))
  | JArray items => Ok (JArray (repeat_list 100 items))
  | _ => Raise TypeError
  end.

(** ** Strings: substring test and [str.split] *)

(** [sep in s]. *)
Fixpoint py_contains (sep s : string) : bool :=
  String.prefix sep s
  || match s with
     | EmptyString => false
     | String _ s' => py_contains sep s'
     end.

Fixpoint drop_chars (n : nat) (s : string) : string :=
  match n, s with
  | O, _ => s
  | S _, EmptyString => EmptyString
  | S n', String _ s' => drop_chars n' s'
  end.

(** The text before and the text after the first (leftmost) occurrence of
    [sep] in [s]; [None] when [sep] does not occur. *)
Fixpoint find_sep (sep s : string) : option (string * string) :=
  if String.prefix sep s then Some (EmptyString, drop_chars (String.length sep) s)
  else match s with
       | EmptyString => None
       | String c s' =>
           match find_sep sep s' with
           | Some (before, after) => Some (String c before, after)
           | None => None
           end
       end.

(** The pieces of [s] between the occurrences of the non-empty separator
    [String c0 sep'], found from left to right without overlap. *)
Equations? split_pieces (c0 : ascii) (sep' : string) (s : string) : list string
  by wf (String.length s) lt :=
  split_pieces c0 sep' s with inspect (find_sep (String c0 sep') s) := {
    | exist _ None _ => [s]
    | exist _ (Some (before, after)) Hfind => before :: split_pieces c0 sep' after }.
Proof.
  clear split_pieces. revert before Hfind.
  assert (Hdrop : forall n t, String.length (drop_chars n t) <= String.length t).
  { induction n as [|n IH]; intros [|c t]; simpl; auto with arith. }
  induction s as [|c s IH]; intros before Hfind.
  - simpl in Hfind. discriminate.
  - simpl in Hfind.
    assert (Hrest : match find_sep (String c0 sep') s with
                    | Some (b1, a1) => Some (String c b1, a1)
                    | None => None
                    end = Some (before, after)
                    -> String.length after < String.length (String c s)).
    { destruct (find_sep (String c0 sep') s) as [[b1 a1]|]; [|discriminate].
      intros Heq. inversion Heq; subst.
      specialize (IH b1 eq_refl). simpl. auto with arith. }
    destruct (ascii_dec c0 c); [destruct (String.prefix sep' s)|]; auto.
    inversion Hfind; subst. simpl.
    pose proof (Hdrop (String.length sep') s). auto with arith.
Qed.

(** [s.split(sep)]; an empty separator is a [ValueError]. *)
Definition py_split (sep s : string) : result (list string) :=
  match sep with
  | EmptyString => Raise ValueError
  | String c0 sep' => Ok (split_pieces c0 sep' s)
  end.

(** [l[i]] on a list. *)
Definition py_index {A : Type} (l : list A) (i : nat) : result A :=
  match nth_error l i with
  | Some x => Ok x
  | None => Raise IndexError
  end.

(** Python's [sorted(l, key=key, reverse=True)]: the keys descend and
    elements with equal keys keep the order they have in [l].  Insertion
    from the right end computes it; [sorted_reverse_unique] below shows that
    no other list fits that description. *)
Section Sorted.
Context {A : Type} (key : A -> Z).

Fixpoint insert_desc (x : A) (l : list A) : list A :=
  match l with
  | [] => [x]
  | y :: l' =>
      if (key y <=? key x)%Z then x :: y :: l'
      else y :: insert_desc x l'
  end.

Fixpoint sorted_reverse (l : list A) : list A :=
  match l with
  | [] => []
  | x :: l' => insert_desc x (sorted_reverse l')
  end.

(** The keys of [l] never increase from left to right. *)
Definition descending (l : list A) : Prop :=
  StronglySorted (fun a b => (key b <= key a)%Z) l.

End Sorted.

(** ** The security analysis: [scripts/analyze-security.py] *)

Module Security.

Record risk_style := { priority : Z; emoji : string; color : string }.

(** The emoji are given by their code points. *)
Definition RISK_LEVELS : list (string * risk_style) :=
  [ ("High", {| priority := 4; emoji := "U+1F534"; color := "red" |});
    ("Medium", {| priority := 3; emoji := "U+1F7E1"; color := "yellow" |});
    ("Low", {| priority := 2; emoji := "U+1F7E2"; color := "green" |});
    ("Informational", {| priority := 1; emoji := "U+1F535"; color := "blue" |}) ].

Fixpoint levels_get (level : string) (table : list (string * risk_style))
  : option risk_style :=
  match table with
  | [] => None
  | (k, v) :: rest => if String.eqb level k then Some v else levels_get level rest
  end.

Record alert_info := {
  file : string;
  name : json;
  riskdesc : json;
  confidence : json;
  riskcode : json;
  desc : json;
  solution : json;
  reference : json;
  instances : json;
  risk_level : string;
  confidence_level : string
}.

Record site_entry := {
  site_name : json;   (* 'name' *)
  host : json;
  port : json;
  ssl : json
}.

(** [needle in v] *)
Definition py_in (needle : string) (v : json) : result bool :=
  match v with
  | JString s => Ok (py_contains needle s)
  | JArray items =>
      Ok (existsb (fun x => match x with
                            | JString s => String.eqb s needle
                            | _ => false
                            end) items)
  | JObject fields =>
      Ok (match obj_lookup needle fields with Some _ => true | None => false end)
  | _ => Raise TypeError
  end.

(** [v.split(sep)]: only a [str] has [split]. *)
Definition py_str_split (v : json) (sep : string) : result (list string) :=
  match v with
  | JString s => py_split sep s
  | _ => Raise AttributeError
  end.

(** Lines 59-65: the risk level and the confidence level of a [riskdesc]. *)
Definition classify (risk_desc : json) : result (string * string) :=
  found ← py_in " - " risk_desc;
  if found : bool then
    parts ← py_str_split risk_desc " - ";
    risk_level ← py_index parts 0;
    parts' ← py_str_split risk_desc " - ";
    confidence_level ← py_index parts' 1;
    mret (risk_level, confidence_level)
  else
    mret ("Unknown", "Unknown").

(** The classification as the specification words it, for comparison with
    [classify]: the text before the first separator and the whole
    remainder after it. *)
Definition classify_as_specified (risk_desc : string) : string * string :=
  match find_sep " - " risk_desc with
  | Some (before, after) => (before, after)
  | None => ("Unknown", "Unknown")
  end.

(** Lines 46-68: the record built for one entry of [alerts]. *)
Definition make_alert (file_path : string) (alert : json) : result alert_info :=
  name ← py_get alert "name" (JString "");
  riskdesc ← py_get alert "riskdesc" (JString "");
  confidence ← py_get alert "confidence" (JString "");
  riskcode ← py_get alert "riskcode" (JString "");
  desc ← py_get alert "desc" (JString "");
  solution ← py_get alert "solution" (JString "");
  reference ← py_get alert "reference" (JString "");
  instances ← py_get alert "instances" (JArray []);
  levels ← classify riskdesc;
  mret {| file := file_path; name := name; riskdesc := riskdesc;
          confidence := confidence; riskcode := riskcode; desc := desc;
          solution := solution; reference := reference;
          instances := instances;
          risk_level := fst levels; confidence_level := snd levels |}.

(** Lines 45-70: [all_alerts.append] for every entry, in order. *)
Fixpoint collect_alerts (file_path : string) (alerts : list json)
    (all_alerts : list alert_info) : result (list alert_info) :=
  match alerts with
  | [] => Ok all_alerts
  | alert :: rest =>
      alert_info ← make_alert file_path alert;
      collect_alerts file_path rest (all_alerts ++ [alert_info])
  end.

(** The two accumulators of the loop over the files. *)
Record ingest_state := {
  st_all_alerts : list alert_info;
  st_scan_info : gmap string site_entry
}.

(** Lines 33-70: what one loaded document adds. *)
Definition extract (file_path : string) (data : json) (st : ingest_state)
  : result ingest_state :=
  site ← py_get data "site" (JArray []);
  if py_truthy site then
    site_info ← py_first site;
    name ← py_get site_info "@name" (JString "");
    host ← py_get site_info "@host" (JString "");
    port ← py_get site_info "@port" (JString "");
    ssl ← py_get site_info "@ssl" (JBool false);
    let scan_info :=
      <[file_path := {| site_name := name; host := host; port := port; ssl := ssl |}]>
        (st_scan_info st) in
    alerts ← py_get site_info "alerts" (JArray []);
    items ← py_iter alerts;
    all_alerts ← collect_alerts file_path items (st_all_alerts st);
    mret {| st_all_alerts := all_alerts; st_scan_info := scan_info |}
  else
    mret st.

(** Lines 27-77: the loop over [results_files].  The [try] covers loading
    and extraction; its two handlers print a warning and go on with the
    next file, any other exception leaves the function. *)
Fixpoint ingest (fs : string -> result json) (results_files : list string)
    (st : ingest_state) (out : list message)
  : list message * result ingest_state :=
  match results_files with
  | [] => (out, Ok st)
  | file_path :: rest =>
      match (data ← fs file_path; extract file_path data st) with
      | Ok st' => ingest fs rest st' out
      | Raise FileNotFoundError =>
          ingest fs rest st (out ++ [WarningNotFound file_path])
      | Raise JSONDecodeError =>
          ingest fs rest st (out ++ [WarningBadJson file_path])
      | Raise e => (out, Raise e)
      end
  end.

(** Lines 80-81: one counter per key of [RISK_LEVELS], then ['Unknown']. *)
Definition initial_risk_counts : gmap string nat :=
  <["Unknown" := 0]>
    (foldl (fun m level => <[level := 0]> m) ∅ (map fst RISK_LEVELS)).

(** Lines 83-88. *)
Fixpoint count_risks (all_alerts : list alert_info) (risk_counts : gmap string nat)
  : gmap string nat :=
  match all_alerts with
  | [] => risk_counts
  | alert :: rest =>
      let risk_level := risk_level alert in
      count_risks rest
        (match risk_counts !! risk_level with
         | Some n => <[risk_level := n + 1]> risk_counts
         | None => <["Unknown" := (risk_counts !!! "Unknown") + 1]> risk_counts
         end)
  end.

(** The sort key of line 91. *)
Definition sort_key (x : alert_info) : Z :=
  match levels_get (risk_level x) RISK_LEVELS with
  | Some style => priority style
  | None => 0
  end.

Record summary := {
  timestamp : string;
  total_alerts : nat;
  high_risk_count : nat;
  medium_risk_count : nat;
  low_risk_count : nat;
  info_risk_count : nat;
  unknown_risk_count : nat;
  risk_counts : gmap string nat;
  scan_info : gmap string site_entry;
  alerts : list alert_info;
  overall_status : string
}.

(** Lines 79-106: counting, ranking and the verdict. *)
Definition summarize (now : string) (st : ingest_state) : summary :=
  let all_alerts := st_all_alerts st in
  let risk_counts := count_risks all_alerts initial_risk_counts in
  let sorted_alerts := sorted_reverse sort_key all_alerts in
  {| timestamp := now;
     total_alerts := length all_alerts;
     high_risk_count := risk_counts !!! "High";
     medium_risk_count := risk_counts !!! "Medium";
     low_risk_count := risk_counts !!! "Low";
     info_risk_count := risk_counts !!! "Informational";
     unknown_risk_count := risk_counts !!! "Unknown";
     risk_counts := risk_counts;
     scan_info := st_scan_info st;
     alerts := take 20 sorted_alerts;
     overall_status := if (0 <? risk_counts !!! "High")%nat then "fail" else "pass" |}.

Definition empty_state : ingest_state :=
  {| st_all_alerts := []; st_scan_info := ∅ |}.

Definition analyze_zap_results (now : string) (fs : string -> result json)
    (results_files : list string) : list message * result summary :=
  let '(out, r) := ingest fs results_files empty_state [] in
  (out, st ← r; mret (summarize now st)).

(** *** The report: [generate_security_report] *)

(** [len] and slices of a [str] count characters; in the UTF-8 bytes of a
    text the characters are the bytes that are no continuation bytes
    (those of the form 10xxxxxx). *)
Definition is_continuation (c : ascii) : bool :=
  match c with
  | Ascii _ _ _ _ _ _ b6 b7 => b7 && negb b6
  end.

Fixpoint str_len (s : string) : nat :=
  match s with
  | EmptyString => 0
  | String c s' => (if is_continuation c then 0 else 1) + str_len s'
  end.

(** [s[:n]] *)
Fixpoint str_take (n : nat) (s : string) : string :=
  match s with
  | EmptyString => EmptyString
  | String c s' =>
      if is_continuation c then String c (str_take n s')
      else match n with
           | O => EmptyString
           | S n' => String c (str_take n' s')
           end
  end.

(** [len(v)]; a dict has as many items as it has keys. *)
Definition py_len (v : json) : result nat :=
  match v with
  | JString s => Ok (str_len s)
  | JArray items => Ok (length items)
  | JObject fields => Ok (length (remove_dups fields.*1))
  | _ => Raise TypeError
  end.

(** [v[:200]]; a dict has no slices (the slice is refused as a key: a
    [TypeError] up to Python 3.11, a [KeyError] since). *)
Definition py_first_200 (v : json) : result json :=
  match v with
  | JString s => Ok (JString (str_take 200 s))
  | JArray items => Ok (JArray (take 200 items))
  | _ => Raise TypeError
  end.

(** Lines 152 and 155: the text shown for a description or a solution, with
    the mark that ["..."] follows it. *)
Definition shown_text (v : json) : result (json * bool) :=
  n ← py_len v;
  if (200 <? n)%nat then
    cut ← py_first_200 v;
    mret (cut, true)
  else
    mret (v, false).

(** One of the sections under the heading of the main issues. *)
Record issue := {
  issue_number : nat;
  issue_emoji : string;
  issue_name : json;
  issue_risk_level : string;
  issue_confidence_level : string;
  issue_desc : json * bool;
  issue_solution : option (json * bool);
  issue_instances : option nat
}.

(** Lines 148-160. *)
Definition render_issue (i : nat) (alert : alert_info) : result issue :=
  let risk_emoji :=
    match levels_get (risk_level alert) RISK_LEVELS with
    | Some style => emoji style
    | None => "U+2753"
    end in
  shown_desc ← shown_text (desc alert);
  shown_solution ←
    (if py_truthy (solution alert)
     then t ← shown_text (solution alert); mret (Some t)
     else mret None);
  shown_instances ←
    (if py_truthy (instances alert)
     then n ← py_len (instances alert); mret (Some n)
     else mret None);
  mret {| issue_number := i; issue_emoji := risk_emoji;
          issue_name := name alert;
          issue_risk_level := risk_level alert;
          issue_confidence_level := confidence_level alert;
          issue_desc := shown_desc;
          issue_solution := shown_solution;
          issue_instances := shown_instances |}.

(** Line 147: [for i, alert in enumerate(alerts, i)]. *)
Fixpoint render_issues (i : nat) (alerts : list alert_info) : result (list issue) :=
  match alerts with
  | [] => Ok []
  | alert :: rest =>
      section ← render_issue i alert;
      sections ← render_issues (S i) rest;
      mret (section :: sections)
  end.

(** A line of the list of scan targets (lines 139-142). *)
Record target := {
  target_name : json;
  target_protocol : string;
  target_host : json;
  target_port : json
}.

Definition render_target (info : site_entry) : target :=
  {| target_name := site_name info;
     target_protocol := if py_truthy (ssl info) then "https" else "http";
     target_host := host info;
     target_port := port info |}.

(** The lines of advice (lines 165-175): fix the high risks at once, fix the
    medium risks, consider fixing the low risks, nothing was found. *)
Inductive advice := FixHighNow | FixMedium | ConsiderLow | NothingFound.

(** The report, by its parts; the fixed text around them is not kept, and
    the targets are kept by file, not in the order of their lines. *)
Record report := {
  shown_timestamp : string;
  headline_fail : bool;
  shown_total : nat;
  shown_high : nat;
  shown_medium : nat;
  shown_low : nat;
  shown_info : nat;
  targets : gmap string target;
  issues : list issue;
  advices : list advice
}.

(** Lines 110-188. *)
Definition generate_security_report (s : summary) : result report :=
  sections ← render_issues 1 (take 10 (alerts s));
  mret {| shown_timestamp := timestamp s;
          headline_fail := String.eqb (overall_status s) "fail";
          shown_total := total_alerts s;
          shown_high := high_risk_count s;
          shown_medium := medium_risk_count s;
          shown_low := low_risk_count s;
          shown_info := info_risk_count s;
          targets := render_target <$> scan_info s;
          issues := sections;
          advices := (if (0 <? high_risk_count s)%nat then [FixHighNow] else [])
                     ++ (if (0 <? medium_risk_count s)%nat then [FixMedium] else [])
                     ++ (if (0 <? low_risk_count s)%nat then [ConsiderLow] else [])
                     ++ (if (total_alerts s =? 0)%nat then [NothingFound] else []) |}.

(** *** The command: [main] *)

(** The arguments, after [argparse]. *)
Record arguments := {
  arg_results_files : list string;
  arg_output : string;       (* --output, 'security-report.md' by default *)
  arg_json : string;         (* --json, 'security-summary.json' by default *)
  arg_verbose : bool;
  arg_fail_on_high : bool
}.

(** Lines 200-207: a pattern stands for the files it matches, and for
    itself when it matches none. *)
Fixpoint expand_patterns (glob : string -> list string) (patterns : list string)
    (all_files : list string) : list string :=
  match patterns with
  | [] => all_files
  | pattern :: rest =>
      match glob pattern with
      | [] => expand_patterns glob rest (all_files ++ [pattern])
      | files => expand_patterns glob rest (all_files ++ files)
      end
  end.

Inductive file_content :=
| ReportText (r : report)
| SummaryJson (s : summary).

Inductive printed :=
| Message (m : message)
| FullReport (r : report)
| ShortSummary (total high medium low info : nat) (output json : string)
| HighRiskFound (high : nat).

(** The outcome of [main]: what was printed, the files written, in order,
    and how the call ended; [SystemExit 1] is [sys.exit(1)]. *)
Record run := {
  console : list printed;
  written : list (string * file_content);
  outcome : result unit
}.

(** Lines 190-239; [glob] is [glob.glob] and [open_w] is the outcome of
    opening a file and writing it out. *)
Definition main (now : string) (glob : string -> list string)
    (fs : string -> result json) (open_w : string -> result unit)
    (args : arguments) : run :=
  let all_files := expand_patterns glob (arg_results_files args) [] in
  let '(out, analysis) := analyze_zap_results now fs all_files in
  let console := Message <$> out in
  match analysis with
  | Raise e => {| console := console; written := []; outcome := Raise e |}
  | Ok summary =>
      match generate_security_report summary with
      | Raise e => {| console := console; written := []; outcome := Raise e |}
      | Ok report =>
          match open_w (arg_output args) with
          | Raise e => {| console := console; written := []; outcome := Raise e |}
          | Ok _ =>
              let written1 := [(arg_output args, ReportText report)] in
              match open_w (arg_json args) with
              | Raise e =>
                  {| console := console; written := written1; outcome := Raise e |}
              | Ok _ =>
                  let written2 := written1 ++ [(arg_json args, SummaryJson summary)] in
                  let console :=
                    console
                    ++ [if arg_verbose args then FullReport report
                        else ShortSummary (total_alerts summary)
                               (high_risk_count summary) (medium_risk_count summary)
                               (low_risk_count summary) (info_risk_count summary)
                               (arg_output args) (arg_json args)] in
                  if arg_fail_on_high args && (0 <? high_risk_count summary)%nat
                  then {| console := console ++ [HighRiskFound (high_risk_count summary)];
                          written := written2; outcome := Raise (SystemExit 1) |}
                  else {| console := console; written := written2; outcome := Ok tt |}
              end
          end
      end
  end.

(** *** Vocabulary of the statements about the security analysis *)

(** The four levels of [RISK_LEVELS]. *)
Definition known_levels : list string := ["High"; "Medium"; "Low"; "Informational"].

(** The counter an alert with the given risk level is counted under. *)
Definition counter_of (level : string) : string :=
  if decide (level ∈ known_levels) then level else "Unknown".

Definition counters : gset string :=
  {[ "High"; "Medium"; "Low"; "Informational"; "Unknown" ]}.

(** The number of alerts of [l] counted under [k]. *)
Definition tally (k : string) (l : list alert_info) : nat :=
  length (filter (fun a => counter_of (risk_level a) = k) l).

(** The severity rank of a risk level. *)
Definition rank (level : string) : Z :=
  if decide (level = "High") then 4
  else if decide (level = "Medium") then 3
  else if decide (level = "Low") then 2
  else if decide (level = "Informational") then 1
  else 0.

(** The two exceptions the loop over the files handles. *)
Definition is_load_error (e : exn) : bool :=
  match e with
  | FileNotFoundError | JSONDecodeError => true
  | _ => false
  end.

(** The file at [p] is missing ([open] raises [FileNotFoundError]) or does
    not parse ([json.load] raises [JSONDecodeError]). *)
Definition unreadable (fs : string -> result json) (p : string) : bool :=
  match fs p with
  | Raise e => is_load_error e
  | Ok _ => false
  end.

Definition warning_for (fs : string -> result json) (p : string) : message :=
  match fs p with
  | Raise JSONDecodeError => WarningBadJson p
  | _ => WarningNotFound p
  end.

(** A scan of the expected shape: an object whose [site] entry, when
    present, is a sequence that is empty or starts with an object; the
    [alerts] entry of that object, when present, is a sequence of objects
    whose [riskdesc], when present, is a string. *)
Definition well_formed_alert (alert : json) : bool :=
  match alert with
  | JObject fields =>
      match dict_get fields "riskdesc" (JString "") with
      | JString _ => true
      | _ => false
      end
  | _ => false
  end.

Definition well_formed_scan (data : json) : bool :=
  match data with
  | JObject top =>
      match dict_get top "site" (JArray []) with
      | JArray [] => true
      | JArray (JObject site :: _) =>
          match dict_get site "alerts" (JArray []) with
          | JArray alerts => forallb well_formed_alert alerts
          | _ => false
          end
      | _ => false
      end
  | _ => false
  end.

(** *** What the report can show *)

(** A value the report shows as a description or a solution: a text or a
    sequence, or a dict of at most 200 keys. *)
Definition text_like (v : json) : bool :=
  match v with
  | JString _ | JArray _ => true
  | JObject fields => (length (remove_dups fields.*1) <=? 200)%nat
  | _ => false
  end.

(** A value that has a length. *)
Definition sized (v : json) : bool :=
  match v with
  | JString _ | JArray _ | JObject _ => true
  | _ => false
  end.

Definition renderable (a : alert_info) : bool :=
  text_like (desc a)
  && (negb (py_truthy (solution a)) || text_like (solution a))
  && (negb (py_truthy (instances a)) || sized (instances a)).

(** The emoji of a risk level in the report. *)
Definition emoji_of (level : string) : string :=
  if decide (level = "High") then "U+1F534"
  else if decide (level = "Medium") then "U+1F7E1"
  else if decide (level = "Low") then "U+1F7E2"
  else if decide (level = "Informational") then "U+1F535"
  else "U+2753".

(** *** What one file contributes *)

(** The alerts and the scan information of the file at [p], read on its
    own; nothing for a file that cannot be loaded or extracted. *)
Definition file_state (fs : string -> result json) (p : string) : ingest_state :=
  match fs p with
  | Ok data =>
      match extract p data empty_state with
      | Ok st => st
      | Raise _ => empty_state
      end
  | Raise _ => empty_state
  end.

Definition file_alerts (fs : string -> result json) (p : string) : list alert_info :=
  st_all_alerts (file_state fs p).

(** The state after [st], then [st0]: the alerts follow, the entries of
    [st0] replace those of [st] with the same path. *)
Definition state_then (st st0 : ingest_state) : ingest_state :=
  {| st_all_alerts := st_all_alerts st ++ st_all_alerts st0;
     st_scan_info := st_scan_info st0 ∪ st_scan_info st |}.

(** *** Sample scans *)

Definition sample_alert (name riskdesc : string) : json :=
  JObject [("name", JString name); ("riskdesc", JString riskdesc)].

Definition sample_site (alerts : list json) : json :=
  JObject [("@name", JString "https://api.example.test");
           ("@host", JString "api.example.test");
           ("@port", JString "443");
           ("@ssl", JString "true");
           ("alerts", JArray alerts)].

Definition sample_scan (alerts : list json) : json :=
  JObject [("site", JArray [sample_site alerts])].

(** A file system given by the outcome of loading each of its paths; any
    other path is missing. *)
Fixpoint sample_fs (files : list (string * result json)) (path : string)
  : result json :=
  match files with
  | [] => Raise FileNotFoundError
  | (p, r) :: rest => if String.eqb path p then r else sample_fs rest path
  end.

(** Two scans and a file that does not parse. *)
Definition sample_files : list (string * result json) :=
  [("a.json", Ok (sample_scan [sample_alert "a1" "Low - High";
                               sample_alert "a2" "High - Medium"]));
   ("b.json", Ok (sample_scan [sample_alert "b1" "Medium - Low"]));
   ("broken.json", Raise JSONDecodeError)].

(** What the examples read off an outcome: the names and levels of the
    detail list, the five counts, the total and the overall status. *)
Definition digest (r : list message * result summary) :=
  match snd r with
  | Ok s =>
      Ok (map (fun a => (name a, risk_level a, confidence_level a)) (alerts s),
          (high_risk_count s, medium_risk_count s, low_risk_count s,
           info_risk_count s, unknown_risk_count s),
          total_alerts s, overall_status s)
  | Raise e => Raise e
  end.

(** A scan whose only alert has a description of 201 characters. *)
Definition sample_long_alert : json :=
  JObject [("name", JString "long"); ("riskdesc", JString "High - Medium");
           ("desc", JString (repeat_string 201 "x"));
           ("solution", JString "");
           ("instances", JArray [JObject []; JObject []])].

Definition sample_long_files : list (string * result json) :=
  [("long.json", Ok (sample_scan [sample_long_alert]))].

Definition sample_long_state : ingest_state :=
  file_state (sample_fs sample_long_files) "long.json".

(** A [glob] that knows the two scans. *)
Definition sample_glob (pattern : string) : list string :=
  if String.eqb pattern "*.json" then ["a.json"; "b.json"]
  else if String.eqb pattern "a.json" then ["a.json"]
  else if String.eqb pattern "b.json" then ["b.json"]
  else [].

Definition sample_arguments (patterns : list string) (fail_on_high : bool) : arguments :=
  {| arg_results_files := patterns;
     arg_output := "security-report.md";
     arg_json := "security-summary.json";
     arg_verbose := false;
     arg_fail_on_high := fail_on_high |}.

End Security.

(** ** The performance analysis: [scripts/analyze-performance.py] *)

Module Performance.

(** One entry of the [thresholds] dict. *)
Record threshold_config := {
  value : json;
  threshold : Z;
  unit : string
}.

(** ['✅ PASS'] and ['❌ FAIL']. *)
Inductive status_mark := PASS | FAIL.

(** One entry of the [results] dict. *)
Record metric_result := {
  result_value : json;      (* 'value', rounded *)
  result_threshold : Z;     (* 'threshold' *)
  result_unit : string;     (* 'unit' *)
  passed : bool;
  status : status_mark
}.

Record summary := {
  timestamp : string;
  overall_status : string;
  total_requests : json;
  max_vus : json;
  test_duration : json;
  avg_response_time : json;
  p95_response_time : json;
  p99_response_time : json;
  error_rate : json;
  throughput : json;
  data_received : json;
  data_sent : json;
  results : gmap string metric_result
}.

Section Builtins.
(** [round(x, 2)] for a float [x], and [a / b] for two ints. *)
Variable float_round2 : float -> float.
Variable int_truediv : Z -> Z -> result float.

(** [round(v, 2)]: a bool or an int is returned as an int. *)
Definition py_round2 (v : json) : result json :=
  match v with
  | JBool b => Ok (JInt (Z.b2z b))
  | JInt z => Ok (JInt z)
  | JFloat f => Ok (JFloat (float_round2 f))
  | _ => Raise TypeError
  end.

(** [v / 1000] *)
Definition py_div_1000 (v : json) : result json :=
  match v with
  | JBool b => f ← int_truediv (Z.b2z b) 1000; mret (JFloat f)
  | JInt z => f ← int_truediv z 1000; mret (JFloat f)
  | JFloat f => Ok (JFloat (f / 1000)%float)
  | _ => Raise TypeError
  end.

(** Lines 64-68: the comparison chosen by the metric's name. *)
Definition check (metric : string) (config : threshold_config) : result bool :=
  if String.eqb metric "error_rate" then
    py_le_int (value config) (threshold config)
  else if negb (String.eqb metric "throughput") then
    py_le_int (value config) (threshold config)
  else
    py_ge_int (value config) (threshold config).

(** Lines 64-79: the loop over [thresholds.items()], with its two
    variables [results] and [overall_pass]. *)
Fixpoint evaluate (thresholds : list (string * threshold_config))
    (results : gmap string metric_result) (overall_pass : bool)
  : result (gmap string metric_result * bool) :=
  match thresholds with
  | [] => Ok (results, overall_pass)
  | (metric, config) :: rest =>
      passed ← check metric config;
      rounded ← py_round2 (value config);
      let results :=
        <[metric := {| result_value := rounded;
                       result_threshold := threshold config;
                       result_unit := unit config;
                       passed := passed;
                       status := if passed then PASS else FAIL |}]> results in
      let overall_pass := if negb passed then false else overall_pass in
      evaluate rest results overall_pass
  end.

(** What the loop stores for one entry of [thresholds]. *)
Definition entry_of (metric : string) (config : threshold_config)
    (v : metric_result) : Prop :=
  check metric config = Ok (passed v)
  /\ py_round2 (value config) = Ok (result_value v)
  /\ result_threshold v = threshold config
  /\ result_unit v = unit config
  /\ status v = (if passed v then PASS else FAIL).

(** Lines 52-58. *)
Definition make_thresholds
    (avg_response_time p95_response_time p99_response_time error_rate throughput : json)
  : list (string * threshold_config) :=
  [ ("avg_response_time",
      {| value := avg_response_time; threshold := 500; unit := "ms" |});
    ("p95_response_time",
      {| value := p95_response_time; threshold := 1000; unit := "ms" |});
    ("p99_response_time",
      {| value := p99_response_time; threshold := 2000; unit := "ms" |});
    ("error_rate",
      {| value := error_rate; threshold := 1; unit := "%" |});
    ("throughput",
      {| value := throughput; threshold := 100; unit := "req/s" |}) ].

(** Line 87: [data.get('state', {}).get('testRunDurationMs', 0) / 1000]. *)
Definition run_duration (data : json) : result json :=
  state ← py_get data "state" (JObject []);
  duration_ms ← py_get state "testRunDurationMs" (JInt 0);
  py_div_1000 duration_ms.

(** Lines 25-98: the analysis of a loaded document. *)
Definition analyze_performance_data (now : string) (data : json) : result summary :=
  metrics ← py_get data "metrics" (JObject []);
  http_req_duration ← py_get metrics "http_req_duration" (JObject []);
  avg_response_time ← py_get http_req_duration "avg" (JInt 0);
  p95_response_time ← py_get http_req_duration "p(95)" (JInt 0);
  p99_response_time ← py_get http_req_duration "p(99)" (JInt 0);
  http_req_failed ← py_get metrics "http_req_failed" (JObject []);
  rate ← py_get http_req_failed "rate" (JInt 0);
  error_rate ← py_mul_100 rate;
  http_reqs ← py_get metrics "http_reqs" (JObject []);
  total_requests ← py_get http_reqs "count" (JInt 0);
  throughput ← py_get http_reqs "rate" (JInt 0);
  vus ← py_get metrics "vus" (JObject []);
  max_vus ← py_get vus "max" (JInt 0);
  data_received ← py_get metrics "data_received" (JObject []);
  data_sent ← py_get metrics "data_sent" (JObject []);
  let thresholds :=
    make_thresholds avg_response_time p95_response_time p99_response_time
      error_rate throughput in
  verdicts ← evaluate thresholds ∅ true;
  let results := fst verdicts in
  let overall_pass := snd verdicts in
  test_duration ← run_duration data;
  avg_rounded ← py_round2 avg_response_time;
  p95_rounded ← py_round2 p95_response_time;
  p99_rounded ← py_round2 p99_response_time;
  error_rate_rounded ← py_round2 error_rate;
  throughput_rounded ← py_round2 throughput;
  received ← py_get data_received "count" (JInt 0);
  sent ← py_get data_sent "count" (JInt 0);
  mret {| timestamp := now;
          overall_status := if overall_pass : bool then "pass" else "fail";
          total_requests := total_requests;
          max_vus := max_vus;
          test_duration := test_duration;
          avg_response_time := avg_rounded;
          p95_response_time := p95_rounded;
          p99_response_time := p99_rounded;
          error_rate := error_rate_rounded;
          throughput := throughput_rounded;
          data_received := received;
          data_sent := sent;
          results := results |}.

(** Lines 13-98: loading the file; a missing or malformed file prints an
    error and ends the process with [sys.exit(1)]. *)
Definition analyze_performance_results (now : string)
    (fs : string -> result json) (results_file : string)
  : list message * result summary :=
  match fs results_file with
  | Ok data => ([], analyze_performance_data now data)
  | Raise FileNotFoundError => ([ErrorNotFound results_file], Raise (SystemExit 1))
  | Raise JSONDecodeError => ([ErrorBadJson results_file], Raise (SystemExit 1))
  | Raise e => ([], Raise e)
  end.
End Builtins.

(** *** The report: [generate_report] *)

(** [v > t] and [v < t] for an int [t]. *)
Definition py_gt_int (v : json) (t : Z) : result bool :=
  match v with
  | JBool b => Ok (Z.b2z b >? t)%Z
  | JInt z => Ok (z >? t)%Z
  | JFloat f =>
      Ok (match float_cmp_int f t with
          | Some Gt => true
          | _ => false
          end)
  | _ => Raise TypeError
  end.

Definition py_lt_int (v : json) (t : Z) : result bool :=
  match v with
  | JBool b => Ok (Z.b2z b <? t)%Z
  | JInt z => Ok (z <? t)%Z
  | JFloat f =>
      Ok (match float_cmp_int f t with
          | Some Lt => true
          | _ => false
          end)
  | _ => Raise TypeError
  end.

(** [f"{v:,}"]: a number is shown with thousands separators, a string
    refuses the format ([ValueError]), anything else has no such format
    ([TypeError]).  The value shown is kept, not its text. *)
Definition format_thousands (v : json) : result json :=
  match v with
  | JBool _ | JInt _ | JFloat _ => Ok v
  | JString _ => Raise ValueError
  | _ => Raise TypeError
  end.

(** [f"{v:.1f}"]: an int is converted to a float first, which overflows from
    [2^1024 - 2^970] on. *)
Definition format_fixed1 (v : json) : result json :=
  match v with
  | JBool _ | JFloat _ => Ok v
  | JInt z =>
      if (Z.abs z <? 2 ^ 1024 - 2 ^ 970)%Z then Ok v else Raise OverflowError
  | JString _ => Raise ValueError
  | _ => Raise TypeError
  end.

(** [summary['results'][k]] *)
Definition results_get (s : summary) (k : string) : result metric_result :=
  match results s !! k with
  | Some v => Ok v
  | None => Raise KeyError
  end.

(** The lines of advice at the end of the report (lines 131-144): the
    average response time, the error rate, the throughput, the 95th
    percentile, and the line that all metrics are within their limits. *)
Inductive advice := SlowAverage | HighErrorRate | LowThroughput | SlowP95 | AllWithinLimits.

(** One row of the table of metrics: the value shown, and the limit and the
    mark of the verdict. *)
Record report_row := {
  row_value : json;
  row_threshold : Z;
  row_status : status_mark
}.

(** The report, by its parts; the fixed text around them is not kept. *)
Record report := {
  shown_timestamp : string;
  headline_pass : bool;
  shown_total_requests : json;
  shown_max_vus : json;
  shown_test_duration : json;
  shown_data_received : json;
  shown_data_sent : json;
  rows : list (string * report_row);
  advices : list advice
}.

Definition make_row (shown : json) (v : metric_result) : report_row :=
  {| row_value := shown; row_threshold := result_threshold v;
     row_status := status v |}.

(** Lines 100-146. *)
Definition generate_report (s : summary) : result report :=
  total ← format_thousands (total_requests s);
  duration ← format_fixed1 (test_duration s);
  received ← format_thousands (data_received s);
  sent ← format_thousands (data_sent s);
  v_avg ← results_get s "avg_response_time";
  v_p95 ← results_get s "p95_response_time";
  v_p99 ← results_get s "p99_response_time";
  v_error ← results_get s "error_rate";
  v_throughput ← results_get s "throughput";
  slow ← py_gt_int (avg_response_time s) 500;
  errors ← py_gt_int (error_rate s) 1;
  low ← py_lt_int (throughput s) 100;
  slow95 ← py_gt_int (p95_response_time s) 1000;
  mret {| shown_timestamp := timestamp s;
          headline_pass := String.eqb (overall_status s) "pass";
          shown_total_requests := total;
          shown_max_vus := max_vus s;
          shown_test_duration := duration;
          shown_data_received := received;
          shown_data_sent := sent;
          rows := [("avg_response_time", make_row (avg_response_time s) v_avg);
                   ("p95_response_time", make_row (p95_response_time s) v_p95);
                   ("p99_response_time", make_row (p99_response_time s) v_p99);
                   ("error_rate", make_row (error_rate s) v_error);
                   ("throughput", make_row (throughput s) v_throughput)];
          advices := (if slow : bool then [SlowAverage] else [])
                     ++ (if errors : bool then [HighErrorRate] else [])
                     ++ (if low : bool then [LowThroughput] else [])
                     ++ (if slow95 : bool then [SlowP95] else [])
                     ++ (if String.eqb (overall_status s) "pass"
                         then [AllWithinLimits] else []) |}.

(** *** The command: [main] *)

(** The arguments, after [argparse]. *)
Record arguments := {
  arg_results_file : string;
  arg_output : string;       (* --output, 'performance-report.md' by default *)
  arg_json : string;         (* --json, 'performance-summary.json' by default *)
  arg_verbose : bool
}.

(** What [main] writes to a file and what it prints. *)
Inductive file_content :=
| ReportText (r : report)
| SummaryJson (s : summary).

Inductive printed :=
| Message (m : message)
| FullReport (r : report)
| ShortSummary (pass : bool) (avg error_rate throughput : json) (output json : string).

(** The outcome of [main]: what was printed, the files written, in order,
    and how the call ended; [SystemExit 1] is [sys.exit(1)]. *)
Record run := {
  console : list printed;
  written : list (string * file_content);
  outcome : result Datatypes.unit
}.

Section Main.
Variable float_round2 : float -> float.
Variable int_truediv : Z -> Z -> result float.
(** [open(path, 'w')]: whether the file can be opened for writing. *)
Variable open_w : string -> result Datatypes.unit.

(** Lines 148-185. *)
Definition main (now : string) (fs : string -> result json) (args : arguments) : run :=
  let '(out, analysis) :=
    analyze_performance_results float_round2 int_truediv now fs
      (arg_results_file args) in
  let console := Message <$> out in
  match analysis with
  | Raise e => {| console := console; written := []; outcome := Raise e |}
  | Ok summary =>
      match generate_report summary with
      | Raise e => {| console := console; written := []; outcome := Raise e |}
      | Ok report =>
          match open_w (arg_output args) with
          | Raise e => {| console := console; written := []; outcome := Raise e |}
          | Ok _ =>
              let written1 := [(arg_output args, ReportText report)] in
              match open_w (arg_json args) with
              | Raise e =>
                  {| console := console; written := written1; outcome := Raise e |}
              | Ok _ =>
                  let written2 := written1 ++ [(arg_json args, SummaryJson summary)] in
                  let console :=
                    console
                    ++ [if arg_verbose args then FullReport report
                        else ShortSummary (String.eqb (overall_status summary) "pass")
                               (avg_response_time summary) (error_rate summary)
                               (throughput summary) (arg_output args) (arg_json args)] in
                  {| console := console; written := written2;
                     outcome := if negb (String.eqb (overall_status summary) "pass")
                                then Raise (SystemExit 1) else Ok tt |}
              end
          end
      end
  end.
End Main.

(** *** Vocabulary of the statements about the performance analysis *)

(** A float that is at most (at least) an int stays so when it is rounded to
    two decimals. *)
Definition rounding_keeps_side (float_round2 : float -> float) : Prop :=
  forall f t,
    (py_le_int (JFloat f) t = Ok true -> py_le_int (JFloat (float_round2 f)) t = Ok true)
    /\ (py_ge_int (JFloat f) t = Ok true -> py_ge_int (JFloat (float_round2 f)) t = Ok true).

(** The number a JSON value stands for, when it is a finite number. *)
Definition float_value (f : float) : option Q :=
  match Prim2SF f with
  | S754_zero _ => Some (inject_Z 0)
  | S754_finite s m e =>
      let v := if s then Z.neg m else Z.pos m in
      Some (if (0 <=? e)%Z then inject_Z (v * 2 ^ e)
            else Qmake v (Z.to_pos (2 ^ (- e))))
  | _ => None
  end.

Definition number_value (v : json) : option Q :=
  match v with
  | JBool b => Some (inject_Z (Z.b2z b))
  | JInt z => Some (inject_Z z)
  | JFloat f => float_value f
  | _ => None
  end.

(** A document of the expected shape: an object whose [metrics] entry and
    whose six groups of metrics, where present, are objects, and whose five
    compared values, where present, are numbers. *)
Definition is_number (v : json) : bool :=
  match v with
  | JBool _ | JInt _ | JFloat _ => true
  | _ => false
  end.

Definition object_fields (v : json) : option (list (string * json)) :=
  match v with
  | JObject fields => Some fields
  | _ => None
  end.

Definition well_formed (data : json) : bool :=
  match object_fields data with
  | None => false
  | Some top =>
      match object_fields (dict_get top "metrics" (JObject [])) with
      | None => false
      | Some metrics =>
          let group k := object_fields (dict_get metrics k (JObject [])) in
          match group "http_req_duration", group "http_req_failed",
                group "http_reqs", group "vus", group "data_received",
                group "data_sent" with
          | Some duration, Some failed, Some reqs, Some _, Some _, Some _ =>
              is_number (dict_get duration "avg" (JInt 0))
              && is_number (dict_get duration "p(95)" (JInt 0))
              && is_number (dict_get duration "p(99)" (JInt 0))
              && is_number (dict_get failed "rate" (JInt 0))
              && is_number (dict_get reqs "rate" (JInt 0))
          | _, _, _, _, _, _ => false
          end
      end
  end.

(** The verdict of a metric whose value is the default 0. *)
Definition zero_verdict (limit : Z) (unit : string) (passed : bool) : metric_result :=
  {| result_value := JInt 0; result_threshold := limit; result_unit := unit;
     passed := passed; status := if passed then PASS else FAIL |}.

(** *** A sample run *)

(** The builtins on the inputs of the sample documents, which hold no float
    and no int beyond 2^53: [round] is not applied to a float, and the
    quotient of two small ints is the quotient of their floats. *)
Definition sample_round2 (f : float) : float := f.
Definition sample_truediv (a b : Z) : result float :=
  Ok (of_uint63 (Uint63.of_Z a) / of_uint63 (Uint63.of_Z b))%float.

(** Four metrics within their limits and a throughput of 50 requests per
    second. *)
Definition sample_document : json :=
  JObject
    [("metrics",
      JObject
        [("http_req_duration",
          JObject [("avg", JInt 120); ("p(95)", JInt 800); ("p(99)", JInt 1500)]);
         ("http_req_failed", JObject [("rate", JInt 0)]);
         ("http_reqs", JObject [("count", JInt 1000); ("rate", JInt 50)])])].

End Performance.
(** * Properties *)

(** ** Strings *)

Example split_ex1 : py_split " - " "High - Medium" = Ok ["High"; "Medium"].
Proof. reflexivity. Qed.
Example split_ex2 : py_split " - " "a - - b" = Ok ["a"; "- b"].
Proof. reflexivity. Qed.
Example split_ex3 : py_split " - " "a - " = Ok ["a"; ""].
Proof. reflexivity. Qed.
Example split_ex4 : py_split " - " "x" = Ok ["x"].
Proof. reflexivity. Qed.

(** ** Sorting *)

Section SortedFacts.
Context {A : Type} (key : A -> Z).

Lemma insert_desc_perm x l : Permutation (insert_desc key x l) (x :: l).
Proof.
  induction l as [|y l IH]; simpl; [reflexivity|].
  destruct (key y <=? key x)%Z; [reflexivity|].
  rewrite IH. apply perm_swap.
Qed.

Lemma sorted_reverse_perm l : Permutation (sorted_reverse key l) l.
Proof.
  induction l as [|x l IH]; simpl; [reflexivity|].
  rewrite insert_desc_perm. by constructor.
Qed.

Lemma insert_desc_descending x l :
  descending key l -> descending key (insert_desc key x l).
Proof.
  unfold descending. induction l as [|y l IH]; simpl; intros Hs.
  - repeat constructor.
  - apply StronglySorted_inv in Hs as [Hl Hy].
    destruct (key y <=? key x)%Z eqn:E.
    + apply Z.leb_le in E. constructor; [by constructor|].
      constructor; [assumption|].
      eapply Forall_impl; [exact Hy|]. intros z Hz. simpl in Hz. lia.
    + apply Z.leb_gt in E. constructor; [auto|].
      rewrite insert_desc_perm. constructor; [lia|assumption].
Qed.

Lemma sorted_reverse_descending l : descending key (sorted_reverse key l).
Proof.
  induction l as [|x l IH]; simpl; [constructor|].
  by apply insert_desc_descending.
Qed.

Lemma insert_desc_filter k x l :
  filter (fun a => key a = k) (insert_desc key x l)
  = filter (fun a => key a = k) (x :: l).
Proof.
  induction l as [|y l IH]; simpl; [reflexivity|].
  destruct (key y <=? key x)%Z eqn:E; [reflexivity|].
  apply Z.leb_gt in E.
  rewrite (filter_cons _ y), IH, !filter_cons.
  destruct (decide (key y = k)), (decide (key x = k)); try reflexivity; lia.
Qed.

(** Elements with the same key keep their relative order. *)
Lemma sorted_reverse_stable k l :
  filter (fun a => key a = k) (sorted_reverse key l)
  = filter (fun a => key a = k) l.
Proof.
  induction l as [|x l IH]; simpl; [reflexivity|].
  rewrite insert_desc_filter, !filter_cons, IH. reflexivity.
Qed.

Lemma descending_filter_above x l k :
  descending key (x :: l) -> (key x < k)%Z ->
  filter (fun a => key a = k) (x :: l) = [].
Proof.
  intros Hs Hk. apply StronglySorted_inv in Hs as [_ Hx].
  rewrite filter_cons. destruct (decide (key x = k)); [lia|].
  induction l as [|y l IH]; [reflexivity|].
  apply Forall_cons in Hx as [Hy Hx].
  rewrite filter_cons. destruct (decide (key y = k)); [lia|auto].
Qed.

(** A descending key list is determined by its sublists of equal keys. *)
Lemma descending_determined l1 l2 :
  descending key l1 -> descending key l2 ->
  (forall k, filter (fun a => key a = k) l1 = filter (fun a => key a = k) l2) ->
  l1 = l2.
Proof.
  revert l2. induction l1 as [|x l1 IH]; intros l2 H1 H2 Hf.
  - destruct l2 as [|y l2]; [reflexivity|].
    specialize (Hf (key y)). rewrite filter_cons in Hf.
    destruct (decide (key y = key y)); [discriminate|congruence].
  - destruct l2 as [|y l2].
    { specialize (Hf (key x)). rewrite filter_cons in Hf.
      destruct (decide (key x = key x)); [discriminate|congruence]. }
    assert (Hk : key x = key y).
    { destruct (Z.lt_trichotomy (key x) (key y)) as [Hlt|[Heq|Hgt]]; [|exact Heq|].
      - pose proof (Hf (key y)) as Hy.
        rewrite (descending_filter_above x l1 (key y) H1 Hlt) in Hy.
        rewrite filter_cons in Hy.
        destruct (decide (key y = key y)); [discriminate|congruence].
      - pose proof (Hf (key x)) as Hx.
        rewrite (descending_filter_above y l2 (key x) H2) in Hx by lia.
        rewrite filter_cons in Hx.
        destruct (decide (key x = key x)); [discriminate|congruence]. }
    pose proof (Hf (key x)) as Hx. rewrite !filter_cons in Hx.
    destruct (decide (key x = key x)); [|congruence].
    destruct (decide (key y = key x)); [|congruence].
    injection Hx as -> Hx. f_equal.
    apply StronglySorted_inv in H1 as [H1 _].
    apply StronglySorted_inv in H2 as [H2 _].
    apply IH; [assumption..|].
    intros k. specialize (Hf k). rewrite !filter_cons in Hf.
    destruct (decide (key y = k)); [by injection Hf|assumption].
Qed.

(** Whatever algorithm [sorted] runs, its result is this list. *)
Lemma sorted_reverse_unique l l' :
  descending key l' ->
  (forall k, filter (fun a => key a = k) l' = filter (fun a => key a = k) l) ->
  l' = sorted_reverse key l.
Proof.
  intros Hd Hf. apply descending_determined; [assumption|apply sorted_reverse_descending|].
  intros k. rewrite Hf, sorted_reverse_stable. reflexivity.
Qed.

End SortedFacts.

(** ** The security analysis *)

Module SecurityFacts.
Import Security.

Lemma py_contains_find_sep sep s :
py_contains sep s = match find_sep sep s with Some _ => true | None => false end.
Proof.
induction s as [|c s IH].
- cbn [py_contains find_sep]. destruct (String.prefix sep ""); reflexivity.
- cbn [py_contains find_sep]. destruct (String.prefix sep (String c s)); [reflexivity|].
  cbn [orb]. rewrite IH. destruct (find_sep sep s) as [[? ?]|]; reflexivity.
Qed.

Lemma split_pieces_find c0 sep' s :
split_pieces c0 sep' s =
match find_sep (String c0 sep') s with
| None => [s]
| Some (before, after) => before :: split_pieces c0 sep' after
end.
Proof.
simp split_pieces.
destruct (inspect (find_sep (String c0 sep') s)) as [[[before after]|] E];
  simp split_pieces; rewrite E; simp split_pieces; reflexivity.
Qed.

Lemma prefix_drop sep s :
String.prefix sep s = true ->
s = (sep ++ drop_chars (String.length sep) s)%string.
Proof.
revert s. induction sep as [|a sep IH]; intros s; [reflexivity|].
destruct s as [|c s]; simpl; [discriminate|].
destruct (ascii_dec a c) as [->|]; [|discriminate].
intros P. rewrite (IH s P) at 1. reflexivity.
Qed.

Lemma prefix_app sep rest : String.prefix sep (sep ++ rest)%string = true.
Proof.
induction sep as [|a sep IH]; simpl; [destruct rest; reflexivity|].
destruct (ascii_dec a a); [assumption|congruence].
Qed.

Lemma find_sep_occurrence sep s before after :
find_sep sep s = Some (before, after) -> s = (before ++ sep ++ after)%string.
Proof.
revert before. induction s as [|c s IH]; intros before; cbn [find_sep].
- destruct (String.prefix sep "") eqn:P; [|discriminate].
  intros [= <- <-]. apply (prefix_drop _ _ P).
- destruct (String.prefix sep (String c s)) eqn:P.
  + intros [= <- <-]. apply (prefix_drop _ _ P).
  + destruct (find_sep sep s) as [[b1 a1]|]; [|discriminate].
    intros [= <- <-]. rewrite (IH b1 eq_refl) at 1. reflexivity.
Qed.

Lemma find_sep_leftmost sep s before after :
find_sep sep s = Some (before, after) ->
forall before' after', s = (before' ++ sep ++ after')%string ->
String.length before <= String.length before'.
Proof.
revert before. induction s as [|c s IH]; intros before; cbn [find_sep].
- destruct (String.prefix sep ""); [|discriminate].
  intros [= <- <-] ? ? _. simpl. lia.
- destruct (String.prefix sep (String c s)) eqn:P.
  + intros [= <- <-] ? ? _. simpl. lia.
  + destruct (find_sep sep s) as [[b1 a1]|]; [|discriminate].
    intros [= <- <-] [|c' b'] a' Hs.
    * change (String c s = (sep ++ a')%string) in Hs.
      rewrite Hs, prefix_app in P. discriminate.
    * change (String c s = String c' (b' ++ sep ++ a')%string) in Hs.
      injection Hs as -> Hs. simpl.
      specialize (IH b1 eq_refl b' a' Hs). lia.
Qed.

Lemma find_sep_absent sep s :
find_sep sep s = None ->
forall before' after', s <> (before' ++ sep ++ after')%string.
Proof.
induction s as [|c s IH]; cbn [find_sep].
- destruct (String.prefix sep "") eqn:P; [discriminate|].
  intros _ [|c' b'] a' Hs; [|discriminate].
  change ("" = (sep ++ a')%string) in Hs.
  rewrite Hs, prefix_app in P. discriminate.
- destruct (String.prefix sep (String c s)) eqn:P; [discriminate|].
  destruct (find_sep sep s) as [[b1 a1]|]; [discriminate|].
  intros _ [|c' b'] a' Hs.
  + change (String c s = (sep ++ a')%string) in Hs.
    rewrite Hs, prefix_app in P. discriminate.
  + change (String c s = String c' (b' ++ sep ++ a')%string) in Hs.
    injection Hs as -> Hs. exact (IH eq_refl b' a' Hs).
Qed.

(** The two levels of a string, by its first two separators. *)
Lemma classify_JString (risk_desc : string) :
classify (JString risk_desc) =
Ok (match find_sep " - " risk_desc with
    | None => ("Unknown", "Unknown")
    | Some (before, after) =>
        (before,
         match find_sep " - " after with
         | None => after
         | Some (between, _) => between
         end)
    end).
Proof.
unfold classify. cbn [py_in mbind result_bind].
rewrite py_contains_find_sep.
destruct (find_sep " - " risk_desc) as [[before after]|] eqn:E; [|reflexivity].
cbn [py_str_split py_split mbind result_bind].
rewrite (split_pieces_find _ _ risk_desc), E.
rewrite (split_pieces_find _ _ after).
destruct (find_sep " - " after) as [[between rest]|]; reflexivity.
Qed.

(** C4, as amended: a string without the separator " - " gets the two levels
    "Unknown"; otherwise the risk level is the text before the first
    separator and the confidence level is the text between the first and the
    second separator, which is the whole remainder only when there is no
    second one.  No string is rejected. *)
Theorem classification_of_strings (risk_desc : string) :
  (exists levels, classify (JString risk_desc) = Ok levels)
  /\ (find_sep " - " risk_desc = None ->
      classify (JString risk_desc) = Ok ("Unknown", "Unknown"))
  /\ (forall before after,
        find_sep " - " risk_desc = Some (before, after) ->
        classify (JString risk_desc)
        = Ok (before,
              match find_sep " - " after with
              | None => after
              | Some (between, _) => between
              end))
  /\ (find_sep " - " risk_desc = None
      <-> forall before after, risk_desc <> (before ++ " - " ++ after)%string)
  /\ (forall before after,
        find_sep " - " risk_desc = Some (before, after) ->
        risk_desc = (before ++ " - " ++ after)%string
        /\ forall before' after',
             risk_desc = (before' ++ " - " ++ after')%string ->
             String.length before <= String.length before').
Proof.
  split; [rewrite classify_JString; eauto|].
  split; [intros H; by rewrite classify_JString, H|].
  split; [intros before after H; by rewrite classify_JString, H|].
  split.
  - split; [apply find_sep_absent|].
    intros Hno. destruct (find_sep " - " risk_desc) as [[before after]|] eqn:E;
      [|reflexivity].
    destruct (Hno before after). by apply find_sep_occurrence.
  - intros before after H. split.
    + by apply find_sep_occurrence.
    + apply (find_sep_leftmost _ _ _ _ H).
Qed.

(** C4, as stated, fails: with two separators the confidence level is the
    text between them, not the remainder after the first. *)
Lemma classify_remainder_counterexample :
classify (JString "High - Medium - Low")
<> Ok (classify_as_specified "High - Medium - Low").
Proof. vm_compute. discriminate. Qed.

(** *** Counting *)

Lemma initial_risk_counts_dom : dom initial_risk_counts = counters.
Proof.
  unfold initial_risk_counts, counters. simpl.
  rewrite !dom_insert_L, dom_empty_L. set_solver.
Qed.

Lemma initial_risk_counts_zero k :
  k ∈ counters -> initial_risk_counts !! k = Some 0.
Proof.
  unfold counters. rewrite !elem_of_union, !elem_of_singleton.
  intros [[[[->| ->]| ->]| ->]| ->]; reflexivity.
Qed.

Lemma counter_of_counters level : counter_of level ∈ counters.
Proof.
  unfold counter_of, counters, known_levels.
  destruct (decide _) as [Hin|_]; [|set_solver].
  set_solver.
Qed.

Lemma counter_of_member level : level ∈ counters -> counter_of level = level.
Proof.
  unfold counter_of, counters, known_levels. intros Hin.
  destruct (decide _) as [_|Hn]; [reflexivity|].
  set_solver.
Qed.

Lemma count_risks_lookup l (m : gmap string nat) k :
  dom m = counters ->
  count_risks l m !! k = (fun n => n + tally k l) <$> m !! k.
Proof.
  revert m. induction l as [|a l IH]; intros m Hdom.
  - simpl. unfold tally. simpl. destruct (m !! k); simpl; f_equal; lia.
  - cbn [count_risks].
    assert (Hstep : forall (m' : gmap string nat) v,
               m !! counter_of (risk_level a) = Some v ->
               m' = <[counter_of (risk_level a) := v + 1]> m ->
               count_risks l m' !! k = (fun n => n + tally k (a :: l)) <$> m !! k).
    { intros m' v Hv ->. rewrite IH.
      2:{ rewrite dom_insert_L, Hdom. pose proof (counter_of_counters (risk_level a)).
          set_solver. }
      unfold tally. rewrite filter_cons.
      destruct (decide (counter_of (risk_level a) = k)) as [<-|Hne].
      - rewrite lookup_insert_eq, Hv. simpl. f_equal. lia.
      - rewrite lookup_insert_ne by assumption. reflexivity. }
    destruct (m !! risk_level a) as [n|] eqn:E.
    + assert (Hin : risk_level a ∈ counters).
      { rewrite <- Hdom. apply elem_of_dom. eauto. }
      apply (Hstep _ n); rewrite (counter_of_member _ Hin); [assumption|reflexivity].
    + assert (Hout : risk_level a ∉ counters).
      { rewrite <- Hdom. intros [? ?]%elem_of_dom. congruence. }
      assert (Hc : counter_of (risk_level a) = "Unknown").
      { unfold counter_of. destruct (decide _) as [Hin|]; [|reflexivity].
        exfalso. apply Hout. unfold known_levels, counters in *. set_solver. }
      assert (is_Some (m !! "Unknown")) as [u Hu].
      { apply elem_of_dom. rewrite Hdom. unfold counters. set_solver. }
      apply (Hstep _ u); rewrite Hc; [assumption|].
      rewrite (lookup_total_correct _ _ _ Hu). reflexivity.
Qed.

Lemma count_risks_dom l (m : gmap string nat) :
  dom m = counters -> dom (count_risks l m) = counters.
Proof.
  intros Hdom. apply set_eq. intros k.
  rewrite elem_of_dom, (count_risks_lookup l m k Hdom), fmap_is_Some.
  rewrite <- elem_of_dom, Hdom. reflexivity.
Qed.

Lemma risk_counts_lookup now st k :
  k ∈ counters ->
  risk_counts (summarize now st) !! k = Some (tally k (st_all_alerts st)).
Proof.
  intros Hk. cbn [summarize risk_counts].
  rewrite (count_risks_lookup _ _ k initial_risk_counts_dom).
  rewrite (initial_risk_counts_zero k Hk). reflexivity.
Qed.

Lemma tally_known k l :
  k ∈ known_levels ->
  tally k l = length (filter (fun a => risk_level a = k) l).
Proof.
  intros Hk. unfold tally. f_equal. apply list_filter_iff. intros a.
  unfold counter_of. destruct (decide _) as [|Hn]; [reflexivity|].
  split; intros <-; [|contradiction].
  unfold known_levels in Hk. set_solver.
Qed.

Lemma tally_unknown l :
  tally "Unknown" l = length (filter (fun a => risk_level a ∉ known_levels) l).
Proof.
  unfold tally. f_equal. apply list_filter_iff. intros a.
  unfold counter_of. destruct (decide _) as [Hin|Hn].
  - split; [|contradiction]. intros E. rewrite E in Hin.
    unfold known_levels in Hin. set_solver.
  - split; auto.
Qed.

Lemma tally_total l :
  tally "High" l + tally "Medium" l + tally "Low" l
  + tally "Informational" l + tally "Unknown" l = length l.
Proof.
  unfold tally. induction l as [|a l IH]; [reflexivity|].
  rewrite !filter_cons. cbn [length]. rewrite <- IH.
  pose proof (counter_of_counters (risk_level a)) as Hc. unfold counters in Hc.
  rewrite !elem_of_union, !elem_of_singleton in Hc.
  destruct Hc as [[[[->| ->]| ->]| ->]| ->]; simpl; lia.
Qed.

Lemma summary_counts now st :
  let s := summarize now st in
  let all := st_all_alerts st in
  high_risk_count s = length (filter (fun a => risk_level a = "High") all)
  /\ medium_risk_count s = length (filter (fun a => risk_level a = "Medium") all)
  /\ low_risk_count s = length (filter (fun a => risk_level a = "Low") all)
  /\ info_risk_count s = length (filter (fun a => risk_level a = "Informational") all)
  /\ unknown_risk_count s = length (filter (fun a => risk_level a ∉ known_levels) all).
Proof.
  assert (Hget : forall k, k ∈ counters ->
            risk_counts (summarize now st) !!! k = tally k (st_all_alerts st)).
  { intros k Hk. apply lookup_total_correct, risk_counts_lookup, Hk. }
  cbn zeta. cbn [summarize high_risk_count medium_risk_count low_risk_count
                 info_risk_count unknown_risk_count] in *.
  cbn [summarize risk_counts] in Hget.
  rewrite !Hget by (unfold counters; set_solver).
  rewrite <- tally_unknown, <- !tally_known by (unfold known_levels; set_solver).
  repeat split.
Qed.

(** C2: the overall status of the security summary is 'fail' when the High
    count is positive and 'pass' otherwise; the High count is the number of
    alerts whose risk level is "High", so alerts of any other level (Medium,
    Low, Informational, unrecognised) never change the status. *)
Theorem overall_status_only_high now st :
  let s := summarize now st in
  overall_status s = (if (0 <? high_risk_count s)%nat then "fail" else "pass")
  /\ high_risk_count s
     = length (filter (fun a => risk_level a = "High") (st_all_alerts st))
  /\ (overall_status s = "fail"
      <-> exists a, a ∈ st_all_alerts st /\ risk_level a = "High")
  /\ (overall_status s = "pass"
      <-> forall a, a ∈ st_all_alerts st -> risk_level a <> "High")
  /\ (forall now' st',
        filter (fun a => risk_level a = "High") (st_all_alerts st')
        = filter (fun a => risk_level a = "High") (st_all_alerts st) ->
        overall_status (summarize now' st') = overall_status s).
Proof.
  assert (Hstatus : forall n t,
            overall_status (summarize n t)
            = if (0 <? length (filter (fun a => risk_level a = "High")
                                 (st_all_alerts t)))%nat
              then "fail" else "pass").
  { intros n t. destruct (summary_counts n t) as [<- _]. reflexivity. }
  cbn zeta. destruct (summary_counts now st) as [Hhigh _].
  split; [reflexivity|]. split; [exact Hhigh|].
  rewrite !Hstatus.
  set (high := filter (fun a => risk_level a = "High") (st_all_alerts st)).
  assert (Hmem : forall a, a ∈ high <-> a ∈ st_all_alerts st /\ risk_level a = "High").
  { intros a. unfold high. rewrite list_elem_of_filter. tauto. }
  split; [|split].
  - destruct high as [|a h] eqn:E; simpl.
    + split; [discriminate|]. intros [a Ha]. apply Hmem in Ha. inversion Ha.
    + split; [|reflexivity]. intros _. exists a. apply Hmem. left.
  - destruct high as [|a h] eqn:E; simpl.
    + split; [|reflexivity]. intros _ a Ha Hr.
      assert (Hin : a ∈ @nil alert_info) by (apply Hmem; auto). inversion Hin.
    + split; [discriminate|]. intros Hall. exfalso.
      assert (Hin : a ∈ a :: h) by left. apply Hmem in Hin as [Hin Hr].
      exact (Hall a Hin Hr).
  - intros now' st' Hf. rewrite Hstatus, Hf. reflexivity.
Qed.

(** *** Ranking *)

Lemma sort_key_rank a : sort_key a = rank (risk_level a).
Proof.
  unfold sort_key, rank, RISK_LEVELS. cbn [levels_get].
  generalize (risk_level a). intros level.
  destruct (String.eqb_spec level "High") as [->|H1]; [reflexivity|].
  destruct (String.eqb_spec level "Medium") as [->|H2]; [reflexivity|].
  destruct (String.eqb_spec level "Low") as [->|H3]; [reflexivity|].
  destruct (String.eqb_spec level "Informational") as [->|H4]; [reflexivity|].
  repeat (destruct (decide _) as [?|_]; [contradiction|]).
  reflexivity.
Qed.

(** C5: the detail list of the summary is the first 20 entries of the alerts
    sorted by severity rank, highest first (High 4, Medium 3, Low 2,
    Informational 1, anything else 0), alerts of equal rank keeping the order
    of the input; the counts and the total are taken over all the alerts. *)
Theorem alerts_ranked_then_truncated now st :
  let s := summarize now st in
  let all := st_all_alerts st in
  (forall a, sort_key a = rank (risk_level a))
  /\ (exists ranked,
        alerts s = take 20 ranked
        /\ Permutation ranked all
        /\ descending sort_key ranked
        /\ (forall k, filter (fun a => sort_key a = k) ranked
                      = filter (fun a => sort_key a = k) all)
        /\ (forall ranked',
              descending sort_key ranked' ->
              (forall k, filter (fun a => sort_key a = k) ranked'
                         = filter (fun a => sort_key a = k) all) ->
              ranked' = ranked))
  /\ length (alerts s) = Nat.min 20 (length all)
  /\ total_alerts s = length all
  /\ high_risk_count s = length (filter (fun a => risk_level a = "High") all)
  /\ medium_risk_count s = length (filter (fun a => risk_level a = "Medium") all)
  /\ low_risk_count s = length (filter (fun a => risk_level a = "Low") all)
  /\ info_risk_count s
     = length (filter (fun a => risk_level a = "Informational") all)
  /\ unknown_risk_count s
     = length (filter (fun a => risk_level a ∉ known_levels) all)
  /\ high_risk_count s + medium_risk_count s + low_risk_count s
     + info_risk_count s + unknown_risk_count s = length all.
Proof.
  cbn zeta.
  destruct (summary_counts now st) as (Hh & Hm & Hl & Hi & Hu).
  split; [exact sort_key_rank|]. split.
  { exists (sorted_reverse sort_key (st_all_alerts st)).
    split; [reflexivity|]. split; [apply sorted_reverse_perm|].
    split; [apply sorted_reverse_descending|].
    split; [intros k; apply sorted_reverse_stable|].
    intros ranked' Hd Hf. by apply sorted_reverse_unique. }
  split.
  { cbn [summarize alerts]. rewrite length_take.
    by rewrite (Permutation_length (sorted_reverse_perm sort_key _)). }
  split; [reflexivity|].
  repeat (split; [assumption|]).
  rewrite Hh, Hm, Hl, Hi, Hu.
  rewrite <- tally_unknown, <- !tally_known by (unfold known_levels; set_solver).
  apply tally_total.
Qed.

(** C6: there are exactly five counters, High, Medium, Low, Informational and
    Unknown, all starting at 0; an alert is counted under its risk level when
    that is literally one of the four known levels and under Unknown
    otherwise; the alert record itself keeps the risk level the classifier
    gave it, which for an unrecognised level is the original text. *)
Theorem five_risk_counters now st :
  let s := summarize now st in
  let all := st_all_alerts st in
  dom initial_risk_counts = counters
  /\ (forall k, k ∈ counters -> initial_risk_counts !! k = Some 0)
  /\ dom (risk_counts s) = counters
  /\ risk_counts s !! "High"
     = Some (length (filter (fun a => risk_level a = "High") all))
  /\ risk_counts s !! "Medium"
     = Some (length (filter (fun a => risk_level a = "Medium") all))
  /\ risk_counts s !! "Low"
     = Some (length (filter (fun a => risk_level a = "Low") all))
  /\ risk_counts s !! "Informational"
     = Some (length (filter (fun a => risk_level a = "Informational") all))
  /\ risk_counts s !! "Unknown"
     = Some (length (filter (fun a => risk_level a ∉ known_levels) all))
  /\ (forall a, a ∈ alerts s -> a ∈ all)
  /\ (forall file_path alert info,
        make_alert file_path alert = Ok info ->
        classify (riskdesc info) = Ok (risk_level info, confidence_level info))
  /\ (forall file_path alert info text before after,
        make_alert file_path alert = Ok info ->
        riskdesc info = JString text ->
        find_sep " - " text = Some (before, after) ->
        risk_level info = before).
Proof.
  cbn zeta.
  split; [exact initial_risk_counts_dom|].
  split; [exact initial_risk_counts_zero|].
  split; [apply count_risks_dom, initial_risk_counts_dom|].
  rewrite !risk_counts_lookup by (unfold counters; set_solver).
  rewrite <- tally_unknown, <- !tally_known by (unfold known_levels; set_solver).
  do 5 (split; [reflexivity|]).
  assert (Hmake : forall file_path alert info,
            make_alert file_path alert = Ok info ->
            classify (riskdesc info) = Ok (risk_level info, confidence_level info)).
  { intros file_path alert info. unfold make_alert.
    repeat (match goal with
            | |- context [py_get ?d ?k ?v] => destruct (py_get d k v); [|discriminate]
            end; cbn [mbind result_bind]).
    match goal with
    | |- context [classify ?r] =>
        destruct (classify r) as [[rl cl]|] eqn:E; [|discriminate]
    end.
    cbn [mbind result_bind mret result_ret]. intros [= <-]. exact E. }
  split.
  { intros a Ha. cbn [summarize alerts] in Ha.
    apply elem_of_take in Ha as (i & Ha & _).
    apply list_elem_of_lookup_2 in Ha.
    by rewrite sorted_reverse_perm in Ha. }
  split; [exact Hmake|].
  intros file_path alert info text before after Hinfo Htext Hfind.
  apply Hmake in Hinfo. rewrite Htext, classify_JString, Hfind in Hinfo.
  by injection Hinfo.
Qed.

(** *** Ingestion *)

Ltac step_bind :=
  match goal with
  | |- context [mbind _ ?c] =>
      let E := fresh "E" in
      destruct c eqn:E; cbn [mbind result_bind mret result_ret]
  end.

Lemma py_get_raises d k v e : py_get d k v = Raise e -> is_load_error e = false.
Proof. destruct d; simpl; intros [= <-]; reflexivity. Qed.

Lemma py_first_raises v e : py_first v = Raise e -> is_load_error e = false.
Proof.
  destruct v as [| | | |[|? ?]|[|? ?]|]; simpl; intros [= <-]; reflexivity.
Qed.

Lemma py_iter_raises v e : py_iter v = Raise e -> is_load_error e = false.
Proof. destruct v; simpl; intros [= <-]; reflexivity. Qed.

Lemma classify_raises r e : classify r = Raise e -> is_load_error e = false.
Proof.
  destruct r as [| | | |s|items|fields];
    try (unfold classify; cbn [py_in mbind result_bind];
         intros [= <-]; reflexivity).
  - rewrite classify_JString. discriminate.
  - unfold classify. cbn [py_in mbind result_bind].
    destruct (existsb _ items); cbn; intros [= <-]; reflexivity.
  - unfold classify. cbn [py_in mbind result_bind].
    destruct (obj_lookup _ fields); cbn; intros [= <-]; reflexivity.
Qed.

Lemma make_alert_raises file_path alert e :
  make_alert file_path alert = Raise e -> is_load_error e = false.
Proof.
  unfold make_alert.
  repeat (step_bind; [|intros [= <-]; eauto using py_get_raises, classify_raises]).
  discriminate.
Qed.

Lemma collect_alerts_raises file_path alerts all_alerts e :
  collect_alerts file_path alerts all_alerts = Raise e -> is_load_error e = false.
Proof.
  revert all_alerts. induction alerts as [|alert rest IH]; intros all_alerts.
  - discriminate.
  - cbn [collect_alerts]. step_bind; [apply IH|].
    intros [= <-]. eauto using make_alert_raises.
Qed.

(** Extraction raises neither of the handled exceptions: what the handlers
    of the loop catch comes from loading the file. *)
Lemma extract_raises file_path data st e :
  extract file_path data st = Raise e -> is_load_error e = false.
Proof.
  unfold extract. step_bind; [|intros [= <-]; eauto using py_get_raises].
  destruct (py_truthy _); [|discriminate].
  repeat (step_bind;
          [|intros [= <-];
            eauto using py_get_raises, py_first_raises, py_iter_raises,
              collect_alerts_raises]).
  discriminate.
Qed.

(** One step of the loop, by the outcome of loading the file. *)
Lemma ingest_cons fs p rest st out :
  ingest fs (p :: rest) st out =
  match fs p with
  | Ok data =>
      match extract p data st with
      | Ok st' => ingest fs rest st' out
      | Raise e => (out, Raise e)
      end
  | Raise e =>
      if is_load_error e then ingest fs rest st (out ++ [warning_for fs p])
      else (out, Raise e)
  end.
Proof.
  cbn [ingest]. unfold warning_for.
  destruct (fs p) as [data|e] eqn:E; cbn [mbind result_bind].
  - destruct (extract p data st) as [st'|e] eqn:Ex; [reflexivity|].
    apply extract_raises in Ex. destruct e; try reflexivity; discriminate.
  - destruct e; reflexivity.
Qed.

(** What is printed is appended to what was printed before. *)
Lemma ingest_out fs paths st out :
  ingest fs paths st out
  = (out ++ fst (ingest fs paths st []), snd (ingest fs paths st [])).
Proof.
  revert st out. induction paths as [|p rest IH]; intros st out.
  - simpl. by rewrite app_nil_r.
  - rewrite !ingest_cons. destruct (fs p) as [data|e].
    + destruct (extract p data st) as [st'|e]; [apply IH|].
      simpl. by rewrite app_nil_r.
    + destruct (is_load_error e).
      * rewrite (IH st (out ++ _)), (IH st ([] ++ _)). simpl.
        by rewrite <- app_assoc.
      * simpl. by rewrite app_nil_r.
Qed.

Lemma ingest_skip fs p rest st out :
  unreadable fs p = true ->
  ingest fs (p :: rest) st out = ingest fs rest st (out ++ [warning_for fs p]).
Proof.
  unfold unreadable. rewrite ingest_cons.
  destruct (fs p) as [data|e]; [discriminate|]. by intros ->.
Qed.

Lemma ingest_readable_only fs paths st :
  snd (ingest fs paths st [])
  = snd (ingest fs (filter (fun p => unreadable fs p = false) paths) st []).
Proof.
  revert st. induction paths as [|p rest IH]; intros st; [reflexivity|].
  rewrite filter_cons. destruct (decide (unreadable fs p = false)) as [Hr|Hu].
  - rewrite !ingest_cons. unfold unreadable in Hr.
    destruct (fs p) as [data|e].
    + destruct (extract p data st); [apply IH|reflexivity].
    + rewrite Hr. reflexivity.
  - apply not_false_is_true in Hu. rewrite (ingest_skip _ _ _ _ _ Hu).
    rewrite ingest_out. apply IH.
Qed.

Lemma ingest_warnings fs paths st st' :
  snd (ingest fs paths st []) = Ok st' ->
  fst (ingest fs paths st [])
  = map (warning_for fs) (filter (fun p => unreadable fs p = true) paths).
Proof.
  revert st. induction paths as [|p rest IH]; intros st; [reflexivity|].
  rewrite filter_cons. destruct (decide (unreadable fs p = true)) as [Hu|Hr].
  - rewrite (ingest_skip _ _ _ _ _ Hu), ingest_out. cbn [fst snd map app].
    intros H. f_equal. eauto.
  - rewrite ingest_cons. unfold unreadable in Hr. destruct (fs p) as [data|e].
    + destruct (extract p data st); [apply IH|discriminate].
    + destruct (is_load_error e); [congruence|discriminate].
Qed.

Lemma ingest_raise_origin fs paths st e :
  snd (ingest fs paths st []) = Raise e ->
  exists p, p ∈ paths /\ unreadable fs p = false
            /\ (fs p = Raise e
                \/ exists data st0, fs p = Ok data /\ extract p data st0 = Raise e).
Proof.
  revert st. induction paths as [|p rest IH]; intros st; [discriminate|].
  rewrite ingest_cons.
  assert (Hrest : forall st1 out,
            snd (ingest fs rest st1 out) = Raise e ->
            exists p0, p0 ∈ p :: rest /\ unreadable fs p0 = false
              /\ (fs p0 = Raise e
                  \/ exists data st0, fs p0 = Ok data /\ extract p0 data st0 = Raise e)).
  { intros st1 out H. rewrite ingest_out in H.
    destruct (IH _ H) as (p0 & Hin & Hp0). exists p0. split; [by right|exact Hp0]. }
  destruct (fs p) as [data|e0] eqn:E.
  - destruct (extract p data st) as [st1|e1] eqn:Ex; [apply Hrest|].
    intros [= ->]. exists p. split; [left|]. unfold unreadable. rewrite E.
    split; [reflexivity|]. right. eauto.
  - destruct (is_load_error e0) eqn:L; [apply Hrest|].
    intros [= ->]. exists p. split; [left|]. unfold unreadable. rewrite E.
    split; [exact L|]. by left.
Qed.

(** *** Scans of the expected shape are extracted *)

Lemma make_alert_returns file_path alert :
  well_formed_alert alert = true ->
  exists info, make_alert file_path alert = Ok info.
Proof.
  destruct alert as [| | | | | |fields]; try discriminate.
  unfold well_formed_alert, make_alert. cbn [py_get mbind result_bind].
  destruct (dict_get fields "riskdesc" _) as [| | | |text| |]; try discriminate.
  intros _. rewrite classify_JString. cbn [mbind result_bind]. eexists. reflexivity.
Qed.

Lemma collect_alerts_returns file_path alerts :
  forall all_alerts,
    forallb well_formed_alert alerts = true ->
    exists all_alerts', collect_alerts file_path alerts all_alerts = Ok all_alerts'.
Proof.
  induction alerts as [|alert rest IH]; intros all_alerts.
  - eexists. reflexivity.
  - cbn [forallb]. intros [Halert Hrest]%andb_true_iff.
    cbn [collect_alerts].
    destruct (make_alert_returns file_path alert Halert) as [info ->].
    cbn [mbind result_bind]. by apply IH.
Qed.

Lemma extract_returns file_path data st :
  well_formed_scan data = true ->
  exists st', extract file_path data st = Ok st'.
Proof.
  destruct data as [| | | | | |top]; try discriminate.
  unfold well_formed_scan, extract. cbn [py_get mbind result_bind].
  destruct (dict_get top "site" _) as [| | | | |[|[| | | | | |site] rest]|];
    try discriminate.
  - intros _. eexists. reflexivity.
  - cbn [py_truthy py_first py_get mbind result_bind].
    destruct (dict_get site "alerts" _) as [| | | | |alerts|]; try discriminate.
    intros Halerts. cbn [py_iter mbind result_bind].
    destruct (collect_alerts_returns file_path alerts (st_all_alerts st) Halerts)
      as [all_alerts' ->].
    eexists. reflexivity.
Qed.

(** With files that are unreadable or hold a scan of the expected shape,
    the loop returns. *)
Lemma ingest_returns fs paths :
  forall st out,
    Forall (fun p => unreadable fs p = true
                     \/ exists data, fs p = Ok data /\ well_formed_scan data = true)
           paths ->
    exists st', snd (ingest fs paths st out) = Ok st'.
Proof.
  induction paths as [|p rest IH]; intros st out Hall.
  - eexists. reflexivity.
  - apply Forall_cons in Hall as [[Hbad|(data & Hload & Hshape)] Hall].
    + rewrite (ingest_skip _ _ _ _ _ Hbad). by apply IH.
    + rewrite ingest_cons, Hload.
      destruct (extract_returns p data st Hshape) as [st' ->]. by apply IH.
Qed.

Lemma analyze_zap_results_ingest now fs paths :
  analyze_zap_results now fs paths
  = (fst (ingest fs paths empty_state []),
     st ← snd (ingest fs paths empty_state []); mret (summarize now st)).
Proof.
  unfold analyze_zap_results. by destruct (ingest fs paths empty_state []).
Qed.

(** C7: a path whose file is missing or does not parse adds no alert record
    and one warning, and the loop goes on with the paths after it: the
    outcome is that of the remaining paths, in their order.  An exception
    that leaves the ingestion never comes from such a path, and none leaves
    it when every file is unreadable or holds a scan of the expected shape.
    With one unreadable and one valid path the alerts are exactly those of
    the valid path. *)
Theorem unreadable_files_are_skipped now fs :
  (forall p rest st out,
      unreadable fs p = true ->
      ingest fs (p :: rest) st out
      = ingest fs rest st (out ++ [warning_for fs p]))
  /\ (forall paths,
        snd (analyze_zap_results now fs paths)
        = snd (analyze_zap_results now fs
                 (filter (fun p => unreadable fs p = false) paths)))
  /\ (forall paths s,
        snd (analyze_zap_results now fs paths) = Ok s ->
        fst (analyze_zap_results now fs paths)
        = map (warning_for fs) (filter (fun p => unreadable fs p = true) paths))
  /\ (forall paths e,
        snd (analyze_zap_results now fs paths) = Raise e ->
        exists p, p ∈ paths /\ unreadable fs p = false
          /\ (fs p = Raise e
              \/ exists data st, fs p = Ok data /\ extract p data st = Raise e))
  /\ (forall paths,
        Forall (fun p => unreadable fs p = true
                         \/ exists data, fs p = Ok data
                                         /\ well_formed_scan data = true) paths ->
        exists s, snd (analyze_zap_results now fs paths) = Ok s)
  /\ (forall paths,
        Forall (fun p => unreadable fs p = true) paths ->
        analyze_zap_results now fs paths
        = (map (warning_for fs) paths, Ok (summarize now empty_state)))
  /\ (forall bad good data st,
        unreadable fs bad = true ->
        fs good = Ok data ->
        extract good data empty_state = Ok st ->
        analyze_zap_results now fs [bad; good]
        = ([warning_for fs bad], Ok (summarize now st))
        /\ analyze_zap_results now fs [good; bad]
           = ([warning_for fs bad], Ok (summarize now st))
        /\ analyze_zap_results now fs [good] = ([], Ok (summarize now st))).
Proof.
  split; [apply ingest_skip|].
  split.
  { intros paths. rewrite !analyze_zap_results_ingest. cbn [snd].
    by rewrite <- ingest_readable_only. }
  split.
  { intros paths s. rewrite analyze_zap_results_ingest. cbn [fst snd].
    destruct (snd (ingest fs paths empty_state [])) as [st|e] eqn:E; [|discriminate].
    intros _. eapply ingest_warnings, E. }
  split.
  { intros paths e. rewrite analyze_zap_results_ingest. cbn [snd].
    destruct (snd (ingest fs paths empty_state [])) as [st|e0] eqn:E; [discriminate|].
    cbn. intros [= ->]. eapply ingest_raise_origin, E. }
  split.
  { intros paths Hall. rewrite analyze_zap_results_ingest. cbn [snd].
    destruct (ingest_returns fs paths empty_state [] Hall) as [st ->].
    eexists. reflexivity. }
  split.
  { intros paths Hall. unfold analyze_zap_results.
    assert (H : forall out, ingest fs paths empty_state out
                            = (out ++ map (warning_for fs) paths, Ok empty_state)).
    { induction Hall as [|p rest Hp Hrest IH]; intros out.
      - simpl. by rewrite app_nil_r.
      - rewrite (ingest_skip _ _ _ _ _ Hp), IH. cbn [map].
        by rewrite <- app_assoc. }
    rewrite H. reflexivity. }
  intros bad good data st Hbad Hgood Hex.
  assert (Hg : forall rest out, ingest fs (good :: rest) empty_state out
                                = ingest fs rest st out).
  { intros rest out. by rewrite ingest_cons, Hgood, Hex. }
  unfold analyze_zap_results.
  rewrite (ingest_skip _ _ _ _ _ Hbad), !Hg, (ingest_skip _ _ _ _ _ Hbad).
  repeat split.
Qed.

(** *** Sites *)

(** The alerts of a document are appended to those collected before. *)
Lemma collect_alerts_app file_path items acc :
  collect_alerts file_path items acc
  = (added ← collect_alerts file_path items []; mret (acc ++ added)).
Proof.
  revert acc. induction items as [|alert rest IH]; intros acc.
  - cbn. by rewrite app_nil_r.
  - cbn [collect_alerts]. destruct (make_alert file_path alert) as [info|e];
      cbn [mbind result_bind]; [|reflexivity].
    rewrite (IH (acc ++ [info])), (IH ([] ++ [info])).
    destruct (collect_alerts file_path rest []) as [added|e];
      cbn [mbind result_bind mret result_ret]; [|reflexivity].
    by rewrite <- app_assoc.
Qed.

(** C9: only the first entry of the [site] sequence of a document is read:
    the outcome of the extraction is the same whatever follows the first
    entry, so the alerts of later entries are ignored; an empty (or absent)
    [site] sequence leaves the alerts and the scan information as they were. *)
Theorem only_first_site_is_read file_path st :
  (forall fields first rest,
      obj_lookup "site" fields = Some (JArray (first :: rest)) ->
      extract file_path (JObject fields) st
      = extract file_path (JObject [("site", JArray [first])]) st)
  /\ (forall fields first rest st',
        obj_lookup "site" fields = Some (JArray (first :: rest)) ->
        extract file_path (JObject fields) st = Ok st' ->
        exists name host port ssl alerts items added,
          py_get first "@name" (JString "") = Ok name
          /\ py_get first "@host" (JString "") = Ok host
          /\ py_get first "@port" (JString "") = Ok port
          /\ py_get first "@ssl" (JBool false) = Ok ssl
          /\ py_get first "alerts" (JArray []) = Ok alerts
          /\ py_iter alerts = Ok items
          /\ collect_alerts file_path items [] = Ok added
          /\ st_all_alerts st' = st_all_alerts st ++ added
          /\ st_scan_info st'
             = <[file_path := {| site_name := name; host := host;
                                 port := port; ssl := ssl |}]> (st_scan_info st))
  /\ (forall fields,
        obj_lookup "site" fields = Some (JArray []) ->
        extract file_path (JObject fields) st = Ok st)
  /\ (forall fields,
        obj_lookup "site" fields = None ->
        extract file_path (JObject fields) st = Ok st).
Proof.
  split; [|split; [|split]].
  - intros fields first rest Hsite. unfold extract.
    cbn [py_get]. unfold dict_get at 1. rewrite Hsite. reflexivity.
  - intros fields first rest st' Hsite. unfold extract.
    cbn [py_get]. unfold dict_get at 1. rewrite Hsite.
    cbn [mbind result_bind mret result_ret py_truthy py_first].
    destruct (py_get first "@name" _) as [name|]; [|discriminate].
    destruct (py_get first "@host" _) as [host|]; [|discriminate].
    destruct (py_get first "@port" _) as [port|]; [|discriminate].
    destruct (py_get first "@ssl" _) as [ssl|]; [|discriminate].
    destruct (py_get first "alerts" _) as [alerts|]; [|discriminate].
    cbn [mbind result_bind mret result_ret].
    destruct (py_iter alerts) as [items|] eqn:Hitems; [|discriminate].
    cbn [mbind result_bind mret result_ret].
    rewrite collect_alerts_app.
    destruct (collect_alerts file_path items []) as [added|] eqn:Hadded;
      [|discriminate].
    cbn [mbind result_bind mret result_ret]. intros [= <-].
    exists name, host, port, ssl, alerts, items, added. repeat split; assumption.
  - intros fields Hsite. unfold extract. cbn [py_get]. unfold dict_get.
    rewrite Hsite. reflexivity.
  - intros fields Hsite. unfold extract. cbn [py_get]. unfold dict_get.
    rewrite Hsite. reflexivity.
Qed.

(** *** The cases of the specification, run *)

Example counts_example :
  digest (analyze_zap_results "2024-05-01T10:00:00"
            (sample_fs [("scan.json",
                         Ok (sample_scan [sample_alert "a" "High - Medium";
                                          sample_alert "b" "High - Low";
                                          sample_alert "c" "Medium - Medium";
                                          sample_alert "d" "Critical - High"]))])
            ["scan.json"])
  = Ok ([(JString "a", "High", "Medium"); (JString "b", "High", "Low");
         (JString "c", "Medium", "Medium"); (JString "d", "Critical", "High")],
        (2, 1, 0, 0, 1), 4, "fail").
Proof. vm_compute. reflexivity. Qed.

Example no_high_example :
  digest (analyze_zap_results "2024-05-01T10:00:00"
            (sample_fs [("scan.json",
                         Ok (sample_scan [sample_alert "a" "Medium - High";
                                          sample_alert "b" "Low - High";
                                          sample_alert "c" "high - High"]))])
            ["scan.json"])
  = Ok ([(JString "a", "Medium", "High"); (JString "b", "Low", "High");
         (JString "c", "high", "High")],
        (0, 1, 1, 0, 1), 3, "pass").
Proof. vm_compute. reflexivity. Qed.

Example rank_sort_example :
  digest (analyze_zap_results "2024-05-01T10:00:00"
            (sample_fs [("scan.json",
                         Ok (sample_scan [sample_alert "a" "Low - x";
                                          sample_alert "b" "High - x";
                                          sample_alert "c" "Informational - x";
                                          sample_alert "d" "Medium - x";
                                          sample_alert "e" "High - x"]))])
            ["scan.json"])
  = Ok ([(JString "b", "High", "x"); (JString "e", "High", "x");
         (JString "d", "Medium", "x"); (JString "a", "Low", "x");
         (JString "c", "Informational", "x")],
        (2, 1, 1, 1, 0), 5, "fail").
Proof. vm_compute. reflexivity. Qed.

Example truncation_example :
  match snd (analyze_zap_results "2024-05-01T10:00:00"
               (sample_fs [("scan.json",
                            Ok (sample_scan
                                  (replicate 25 (sample_alert "a" "Low - High"))))])
               ["scan.json"]) with
  | Ok s => length (alerts s) = 20 /\ total_alerts s = 25 /\ low_risk_count s = 25
  | Raise _ => False
  end.
Proof. vm_compute. repeat split. Qed.

Example skip_example :
  let fs := sample_fs [("broken.json", Raise JSONDecodeError);
                       ("scan.json", Ok (sample_scan [sample_alert "a" "High - Low"]))] in
  fst (analyze_zap_results "2024-05-01T10:00:00" fs
         ["missing.json"; "scan.json"; "broken.json"])
  = [WarningNotFound "missing.json"; WarningBadJson "broken.json"]
  /\ digest (analyze_zap_results "2024-05-01T10:00:00" fs
               ["missing.json"; "scan.json"; "broken.json"])
     = Ok ([(JString "a", "High", "Low")], (1, 0, 0, 0, 0), 1, "fail").
Proof. vm_compute. split; reflexivity. Qed.

Example later_sites_example :
  digest (analyze_zap_results "2024-05-01T10:00:00"
            (sample_fs [("scan.json",
                         Ok (JObject
                               [("site",
                                 JArray [sample_site [sample_alert "a" "Low - High"];
                                         sample_site [sample_alert "b" "High - High"]])]))])
            ["scan.json"])
  = Ok ([(JString "a", "Low", "High")], (0, 0, 1, 0, 0), 1, "pass").
Proof. vm_compute. reflexivity. Qed.

(** A file that loads but is not an object is no case of the handlers: the
    [AttributeError] of [data.get] leaves the analysis. *)
Example not_an_object_example :
  analyze_zap_results "2024-05-01T10:00:00"
    (sample_fs [("list.json", Ok (JArray []))]) ["missing.json"; "list.json"]
  = ([WarningNotFound "missing.json"], Raise AttributeError).
Proof. reflexivity. Qed.

End SecurityFacts.

(** ** The performance analysis *)

Module PerformanceFacts.
Import Performance.

Lemma Qcompare_inject_Z a b : (inject_Z a ?= inject_Z b)%Q = (a ?= b)%Z.
Proof. unfold Qcompare. simpl. by rewrite !Z.mul_1_r. Qed.

Lemma float_cmp_int_value f t q :
  float_value f = Some q -> float_cmp_int f t = Some (q ?= inject_Z t)%Q.
Proof.
  unfold float_value, float_cmp_int.
  destruct (Prim2SF f) as [s|s| |s m e]; try discriminate.
  - intros [= <-]. by rewrite Qcompare_inject_Z.
  - intros [= <-]. f_equal. destruct (0 <=? e)%Z eqn:E.
    + by rewrite Qcompare_inject_Z.
    + apply Z.leb_gt in E. unfold Qcompare. cbn [Qnum Qden inject_Z].
      rewrite Z.mul_1_r, Z2Pos.id; [reflexivity|].
      apply Z.pow_pos_nonneg; lia.
Qed.

Lemma py_le_int_value v t q :
  number_value v = Some q ->
  py_le_int v t = Ok (match (q ?= inject_Z t)%Q with Gt => false | _ => true end).
Proof.
  destruct v as [|b|z|f| | |]; try discriminate; cbn [number_value py_le_int].
  - intros [= <-]. by rewrite Qcompare_inject_Z.
  - intros [= <-]. by rewrite Qcompare_inject_Z.
  - intros Hq. rewrite (float_cmp_int_value f t q Hq).
    by destruct (q ?= inject_Z t)%Q.
Qed.

Lemma py_ge_int_value v t q :
  number_value v = Some q ->
  py_ge_int v t = Ok (match (q ?= inject_Z t)%Q with Lt => false | _ => true end).
Proof.
  destruct v as [|b|z|f| | |]; try discriminate; cbn [number_value py_ge_int].
  - intros [= <-]. by rewrite Qcompare_inject_Z.
  - intros [= <-]. by rewrite Qcompare_inject_Z.
  - intros Hq. rewrite (float_cmp_int_value f t q Hq).
    by destruct (q ?= inject_Z t)%Q.
Qed.

Section Builtins.
Variable float_round2 : float -> float.
Variable int_truediv : Z -> Z -> result float.

Local Abbreviation py_round2 := (py_round2 float_round2).
Local Abbreviation evaluate := (evaluate float_round2).
Local Abbreviation run_duration := (run_duration int_truediv).
Local Abbreviation analyze_performance_data :=
  (analyze_performance_data float_round2 int_truediv).
Local Abbreviation entry_of := (entry_of float_round2).

Lemma evaluate_spec thresholds :
  forall results overall_pass r overall_pass',
    NoDup thresholds.*1 ->
    evaluate thresholds results overall_pass = Ok (r, overall_pass') ->
    (forall k, k ∉ thresholds.*1 -> r !! k = results !! k)
    /\ (forall k config, (k, config) ∈ thresholds ->
          exists v, r !! k = Some v /\ entry_of k config v)
    /\ (overall_pass' = true
        <-> overall_pass = true
            /\ forall k config, (k, config) ∈ thresholds ->
                                check k config = Ok true)
    /\ (overall_pass' = false
        <-> overall_pass = false
            \/ exists k config, (k, config) ∈ thresholds
                                /\ check k config = Ok false).
Proof.
  induction thresholds as [|[metric config] rest IH];
    intros results overall_pass r overall_pass' Hnd.
  - cbn. intros [= <- <-]. split; [done|]. split; [|split].
    + intros k config Hin. inversion Hin.
    + split; [intros ->; split; [done|]; intros k config Hin; inversion Hin|tauto].
    + split; [tauto|]. intros [H|(k & config & Hin & _)]; [done|inversion Hin].
  - cbn [evaluate]. apply NoDup_cons in Hnd as [Hfresh Hnd].
    destruct (check metric config) as [p|] eqn:Hcheck;
      cbn [mbind result_bind]; [|discriminate].
    destruct (py_round2 (value config)) as [rounded|] eqn:Hround;
      cbn [mbind result_bind]; [|discriminate].
    intros Hrest. destruct (IH _ _ _ _ Hnd Hrest) as (Hout & Hin & Hpass & Hfail).
    split; [|split; [|split]].
    + intros k Hk. cbn [fmap list_fmap fst] in Hk.
      rewrite not_elem_of_cons in Hk. destruct Hk as [Hne Hk].
      rewrite (Hout k Hk). by rewrite lookup_insert_ne.
    + intros k config' [[= -> ->]|Hk]%elem_of_cons; [|eauto].
      eexists. split.
      * rewrite (Hout metric Hfresh). apply lookup_insert_eq.
      * repeat split; assumption.
    + rewrite Hpass. split.
      * intros [Hop Hall]. destruct p; [|discriminate]. cbn in Hop.
        split; [assumption|].
        intros k config' [[= -> ->]|Hk]%elem_of_cons; eauto.
      * intros [-> Hall]. split.
        -- rewrite (Hall metric config) in Hcheck by left.
           by injection Hcheck as <-.
        -- intros k config' Hk. apply Hall. by right.
    + rewrite Hfail. split.
      * intros [Hop|(k & config' & Hk & Hc)].
        -- destruct p; cbn in Hop; [by left|].
           right. exists metric, config. split; [left|assumption].
        -- right. exists k, config'. split; [by right|assumption].
      * intros [->|(k & config' & [[= -> ->]|Hk]%elem_of_cons & Hc)].
        -- left. by destruct p.
        -- left. rewrite Hc in Hcheck. by injection Hcheck as <-.
        -- right. eauto.
Qed.

Lemma make_thresholds_keys avg p95 p99 er thr :
  (make_thresholds avg p95 p99 er thr).*1
  = ["avg_response_time"; "p95_response_time"; "p99_response_time";
     "error_rate"; "throughput"].
Proof. reflexivity. Qed.

Lemma make_thresholds_NoDup avg p95 p99 er thr :
  NoDup (make_thresholds avg p95 p99 er thr).*1.
Proof. rewrite make_thresholds_keys. compute_done. Qed.

Ltac step_perf :=
  match goal with
  | |- Raise _ = Ok _ -> _ => discriminate
  | |- mbind _ (Raise _) = Ok _ -> _ => discriminate
  | |- context [mbind _ ?c] =>
      destruct c; cbn [mbind result_bind mret result_ret]
  end.

(** The values the analysis reads from the document and the verdicts of the
    loop over them. *)
Lemma analyze_performance_data_inv now data s :
  analyze_performance_data now data = Ok s ->
  exists metrics duration failed reqs avg p95 p99 rate er thr,
    py_get data "metrics" (JObject []) = Ok metrics
    /\ py_get metrics "http_req_duration" (JObject []) = Ok duration
    /\ py_get duration "avg" (JInt 0) = Ok avg
    /\ py_get duration "p(95)" (JInt 0) = Ok p95
    /\ py_get duration "p(99)" (JInt 0) = Ok p99
    /\ py_get metrics "http_req_failed" (JObject []) = Ok failed
    /\ py_get failed "rate" (JInt 0) = Ok rate
    /\ py_mul_100 rate = Ok er
    /\ py_get metrics "http_reqs" (JObject []) = Ok reqs
    /\ py_get reqs "rate" (JInt 0) = Ok thr
    /\ evaluate (make_thresholds avg p95 p99 er thr) ∅ true
       = Ok (results s, bool_decide (overall_status s = "pass"))
    /\ (overall_status s = "pass" \/ overall_status s = "fail").
Proof.
  unfold analyze_performance_data.
  destruct (py_get data "metrics" _) as [metrics|] eqn:Hmetrics; [|discriminate].
  cbn [mbind result_bind].
  destruct (py_get metrics "http_req_duration" _) as [duration|] eqn:Hduration;
    [|discriminate]; cbn [mbind result_bind].
  destruct (py_get duration "avg" _) as [avg|] eqn:Havg;
    [|discriminate]; cbn [mbind result_bind].
  destruct (py_get duration "p(95)" _) as [p95|] eqn:Hp95;
    [|discriminate]; cbn [mbind result_bind].
  destruct (py_get duration "p(99)" _) as [p99|] eqn:Hp99;
    [|discriminate]; cbn [mbind result_bind].
  destruct (py_get metrics "http_req_failed" _) as [failed|] eqn:Hfailed;
    [|discriminate]; cbn [mbind result_bind].
  destruct (py_get failed "rate" _) as [rate|] eqn:Hrate;
    [|discriminate]; cbn [mbind result_bind].
  destruct (py_mul_100 rate) as [er|] eqn:Her;
    [|discriminate]; cbn [mbind result_bind].
  destruct (py_get metrics "http_reqs" _) as [reqs|] eqn:Hreqs;
    [|discriminate]; cbn [mbind result_bind].
  destruct (py_get reqs "count" _) as [count|] eqn:Hcount;
    [|discriminate]; cbn [mbind result_bind].
  destruct (py_get reqs "rate" _) as [thr|] eqn:Hthr;
    [|discriminate]; cbn [mbind result_bind].
  destruct (Performance.evaluate _ _ _ _) as [[r overall_pass]|] eqn:Hev.
  2:{ repeat step_perf. }
  repeat step_perf.
  intros [= <-]. cbn [results overall_status fst snd].
  exists metrics, duration, failed, reqs, avg, p95, p99, rate, er, thr.
  destruct overall_pass;
    repeat (split; [first [assumption | reflexivity]|]); auto.
Qed.

(** C1: the overall status of the performance summary is 'pass' exactly when
    the passed flag of every verdict is true; one failing verdict makes it
    'fail'. *)
Theorem overall_pass_iff_all_pass now data s :
  analyze_performance_data now data = Ok s ->
  (overall_status s = "pass"
   <-> forall k v, results s !! k = Some v -> passed v = true)
  /\ (overall_status s = "fail"
      <-> exists k v, results s !! k = Some v /\ passed v = false)
  /\ (overall_status s = "pass" \/ overall_status s = "fail").
Proof.
  intros Hs.
  destruct (analyze_performance_data_inv now data s Hs)
    as (metrics & duration & failed & reqs & avg & p95 & p99 & rate & er & thr
        & _ & _ & _ & _ & _ & _ & _ & _ & _ & _ & Hev & Hstatus).
  destruct (evaluate_spec _ _ _ _ _ (make_thresholds_NoDup _ _ _ _ _) Hev)
    as (Hout & Hin & Hpass & Hfail).
  assert (Hentry : forall k v, results s !! k = Some v ->
            exists config, (k, config) ∈ make_thresholds avg p95 p99 er thr
                           /\ check k config = Ok (passed v)).
  { intros k v Hk.
    destruct (decide (k ∈ (make_thresholds avg p95 p99 er thr).*1)) as [Hmem|Hnot].
    - apply list_elem_of_fmap in Hmem as ([k' config] & -> & Hmem).
      destruct (Hin _ _ Hmem) as (v' & Hv' & Hc & _). cbn [fst] in *.
      exists config. split; [assumption|]. congruence.
    - rewrite (Hout k Hnot), lookup_empty in Hk. discriminate. }
  split; [|split; [|exact Hstatus]].
  - rewrite <- (bool_decide_eq_true (overall_status s = "pass")), Hpass. split.
    + intros [_ Hall] k v Hk. destruct (Hentry k v Hk) as (config & Hmem & Hc).
      rewrite (Hall _ _ Hmem) in Hc. by injection Hc as <-.
    + intros Hall. split; [reflexivity|]. intros k config Hmem.
      destruct (Hin _ _ Hmem) as (v & Hv & Hc & _). by rewrite Hc, (Hall k v Hv).
  - assert (Hf : overall_status s = "fail"
                 <-> bool_decide (overall_status s = "pass") = false).
    { rewrite bool_decide_eq_false. destruct Hstatus as [-> | ->]; split; done. }
    rewrite Hf, Hfail. split.
    + intros [?|(k & config & Hmem & Hc)]; [discriminate|].
      destruct (Hin _ _ Hmem) as (v & Hv & Hc' & _).
      exists k, v. split; [assumption|]. rewrite Hc in Hc'. by injection Hc' as <-.
    + intros (k & v & Hk & Hp). right.
      destruct (Hentry k v Hk) as (config & Hmem & Hc).
      exists k, config. split; [assumption|]. by rewrite Hc, Hp.
Qed.

Lemma check_direction metric config :
  check metric config
  = if decide (metric = "throughput")
    then py_ge_int (value config) (threshold config)
    else py_le_int (value config) (threshold config).
Proof.
  unfold check. destruct (decide (metric = "throughput")) as [->|Hne].
  - reflexivity.
  - destruct (String.eqb_spec metric "throughput"); [contradiction|].
    by destruct (String.eqb metric "error_rate").
Qed.

(** C3: a metric other than throughput passes exactly when its value is at
    most the limit, throughput passes exactly when its value is at least the
    limit, and a value equal to the limit passes either way; the passed flag
    of every verdict of the analysis is this comparison of the metric's
    value, as read from the document, with the limit of the verdict. *)
Theorem threshold_direction :
  (forall metric config q,
      number_value (value config) = Some q ->
      exists p,
        check metric config = Ok p
        /\ (metric <> "throughput" ->
            (p = true <-> (q <= inject_Z (threshold config))%Q))
        /\ (metric = "throughput" ->
            (p = true <-> (inject_Z (threshold config) <= q)%Q))
        /\ ((q == inject_Z (threshold config))%Q -> p = true))
  /\ (forall now data s k v,
        analyze_performance_data now data = Ok s ->
        results s !! k = Some v ->
        exists avg p95 p99 er thr config,
          (k, config) ∈ make_thresholds avg p95 p99 er thr
          /\ threshold config = result_threshold v
          /\ check k config = Ok (passed v)).
Proof.
  split.
  - intros metric config q Hq. rewrite check_direction.
    destruct (decide (metric = "throughput")) as [Hm|Hm].
    + rewrite (py_ge_int_value _ _ _ Hq). eexists. split; [reflexivity|].
      split; [done|]. split.
      * intros _. rewrite Qge_alt.
        destruct (q ?= inject_Z (threshold config))%Q; split; done.
      * rewrite Qeq_alt. by intros ->.
    + rewrite (py_le_int_value _ _ _ Hq). eexists. split; [reflexivity|].
      split; [|split; [done|]].
      * intros _. rewrite Qle_alt.
        destruct (q ?= inject_Z (threshold config))%Q; split; done.
      * rewrite Qeq_alt. by intros ->.
  - intros now data s k v Hs Hk.
    destruct (analyze_performance_data_inv now data s Hs)
      as (metrics & duration & failed & reqs & avg & p95 & p99 & rate & er & thr
          & _ & _ & _ & _ & _ & _ & _ & _ & _ & _ & Hev & _).
    destruct (evaluate_spec _ _ _ _ _ (make_thresholds_NoDup _ _ _ _ _) Hev)
      as (Hout & Hin & _).
    destruct (decide (k ∈ (make_thresholds avg p95 p99 er thr).*1)) as [Hmem|Hnot].
    + apply list_elem_of_fmap in Hmem as ([k' config] & -> & Hmem).
      destruct (Hin _ _ Hmem) as (v' & Hv' & Hc & _ & Ht & _). cbn [fst] in *.
      assert (v' = v) as -> by congruence.
      exists avg, p95, p99, er, thr, config. by repeat split.
    + rewrite (Hout k Hnot), lookup_empty in Hk. discriminate.
Qed.

(** C8: when the document has no [metrics] entry, every metric value is 0;
    the analysis still returns a verdict for each of the five entries of the
    policy: the four at-most metrics pass, throughput (limit 100) fails, and
    the overall status is 'fail'. *)
Theorem absent_metrics_default_to_zero now fields d :
  obj_lookup "metrics" fields = None ->
  run_duration (JObject fields) = Ok d ->
  exists s,
    analyze_performance_data now (JObject fields) = Ok s
    /\ results s !! "avg_response_time" = Some (zero_verdict 500 "ms" true)
    /\ results s !! "p95_response_time" = Some (zero_verdict 1000 "ms" true)
    /\ results s !! "p99_response_time" = Some (zero_verdict 2000 "ms" true)
    /\ results s !! "error_rate" = Some (zero_verdict 1 "%" true)
    /\ results s !! "throughput" = Some (zero_verdict 100 "req/s" false)
    /\ dom (results s)
       = {[ "avg_response_time"; "p95_response_time"; "p99_response_time";
            "error_rate"; "throughput" ]}
    /\ overall_status s = "fail"
    /\ avg_response_time s = JInt 0
    /\ p95_response_time s = JInt 0
    /\ p99_response_time s = JInt 0
    /\ error_rate s = JInt 0
    /\ throughput s = JInt 0
    /\ total_requests s = JInt 0
    /\ max_vus s = JInt 0.
Proof.
  intros Hmetrics Hd. eexists. split.
  { unfold analyze_performance_data. cbn [py_get]. unfold dict_get at 1.
    rewrite Hmetrics, Hd. reflexivity. }
  cbn [results overall_status avg_response_time p95_response_time
       p99_response_time error_rate throughput total_requests max_vus fst snd].
  repeat split; compute_done.
Qed.

(** C10: the value compared with the limit 1 of the error rate is the
    [rate] of [http_req_failed] times 100, and every other metric is compared
    as it is read; a rate of 0.01 gives exactly 1 and passes, a rate of 0.011
    fails. *)
Theorem error_rate_is_a_percentage :
  (forall now data s,
      analyze_performance_data now data = Ok s ->
      exists metrics duration failed reqs avg p95 p99 rate er thr
             v_avg v_p95 v_p99 v_er v_thr,
        py_get data "metrics" (JObject []) = Ok metrics
        /\ py_get metrics "http_req_failed" (JObject []) = Ok failed
        /\ py_get failed "rate" (JInt 0) = Ok rate
        /\ py_mul_100 rate = Ok er
        /\ results s !! "error_rate" = Some v_er
        /\ result_threshold v_er = 1%Z
        /\ py_le_int er 1 = Ok (passed v_er)
        /\ py_get metrics "http_req_duration" (JObject []) = Ok duration
        /\ py_get duration "avg" (JInt 0) = Ok avg
        /\ results s !! "avg_response_time" = Some v_avg
        /\ py_le_int avg 500 = Ok (passed v_avg)
        /\ py_get duration "p(95)" (JInt 0) = Ok p95
        /\ results s !! "p95_response_time" = Some v_p95
        /\ py_le_int p95 1000 = Ok (passed v_p95)
        /\ py_get duration "p(99)" (JInt 0) = Ok p99
        /\ results s !! "p99_response_time" = Some v_p99
        /\ py_le_int p99 2000 = Ok (passed v_p99)
        /\ py_get metrics "http_reqs" (JObject []) = Ok reqs
        /\ py_get reqs "rate" (JInt 0) = Ok thr
        /\ results s !! "throughput" = Some v_thr
        /\ py_ge_int thr 100 = Ok (passed v_thr))
  /\ py_mul_100 (JFloat 0.01) = Ok (JFloat 1)
  /\ (er ← py_mul_100 (JFloat 0.01); py_le_int er 1) = Ok true
  /\ (er ← py_mul_100 (JFloat 0.011); py_le_int er 1) = Ok false
  /\ (er ← py_mul_100 (JInt 1); py_le_int er 1) = Ok false.
Proof.
  split; [|repeat split; vm_compute; reflexivity].
  intros now data s Hs.
  destruct (analyze_performance_data_inv now data s Hs)
    as (metrics & duration & failed & reqs & avg & p95 & p99 & rate & er & thr
        & Hmetrics & Hduration & Havg & Hp95 & Hp99 & Hfailed & Hrate & Her
        & Hreqs & Hthr & Hev & _).
  destruct (evaluate_spec _ _ _ _ _ (make_thresholds_NoDup _ _ _ _ _) Hev)
    as (_ & Hin & _).
  unfold make_thresholds in Hin.
  edestruct (Hin "avg_response_time") as (v_avg & Hv_avg & Hc_avg & _);
    [repeat constructor|].
  edestruct (Hin "p95_response_time") as (v_p95 & Hv_p95 & Hc_p95 & _);
    [do 1 right; left|].
  edestruct (Hin "p99_response_time") as (v_p99 & Hv_p99 & Hc_p99 & _);
    [do 2 right; left|].
  edestruct (Hin "error_rate") as (v_er & Hv_er & Hc_er & _ & Ht_er & _);
    [do 3 right; left|].
  edestruct (Hin "throughput") as (v_thr & Hv_thr & Hc_thr & _);
    [do 4 right; left|].
  exists metrics, duration, failed, reqs, avg, p95, p99, rate, er, thr,
    v_avg, v_p95, v_p99, v_er, v_thr.
  repeat split; assumption.
Qed.

(** *** The analysis returns on documents of the expected shape *)

Lemma is_number_compared v t :
  is_number v = true ->
  (exists b, py_le_int v t = Ok b) /\ (exists b, py_ge_int v t = Ok b).
Proof. destruct v; try discriminate; intros _; split; eexists; reflexivity. Qed.

Lemma is_number_rounded v : is_number v = true -> exists r, py_round2 v = Ok r.
Proof. destruct v; try discriminate; intros _; eexists; reflexivity. Qed.

Lemma is_number_times_100 v :
  is_number v = true -> exists er, py_mul_100 v = Ok er /\ is_number er = true.
Proof. destruct v; try discriminate; intros _; eexists; split; reflexivity. Qed.

Lemma evaluate_returns thresholds :
  forall results overall_pass,
    Forall (fun kc => is_number (value kc.2) = true) thresholds ->
    exists r, evaluate thresholds results overall_pass = Ok r.
Proof.
  induction thresholds as [|[metric config] rest IH];
    intros results overall_pass Hall.
  - eexists. reflexivity.
  - apply Forall_cons in Hall as [Hnum Hall]. cbn [snd] in Hnum.
    cbn [Performance.evaluate]. rewrite check_direction.
    destruct (is_number_compared _ (threshold config) Hnum) as [[b1 H1] [b2 H2]].
    destruct (is_number_rounded _ Hnum) as [r Hr].
    destruct (decide (metric = "throughput")); rewrite ?H1, ?H2;
      cbn [mbind result_bind]; rewrite Hr; cbn [mbind result_bind]; apply IH, Hall.
Qed.

Lemma analyze_performance_data_returns now data d :
  well_formed data = true ->
  run_duration data = Ok d ->
  exists s, analyze_performance_data now data = Ok s.
Proof.
  unfold well_formed. destruct data as [| | | | | |top]; try discriminate.
  cbn [object_fields].
  destruct (dict_get top "metrics" _) as [| | | | | |metrics] eqn:Hmetrics;
    try discriminate.
  cbn [object_fields]. cbn zeta.
  destruct (dict_get metrics "http_req_duration" _) as [| | | | | |duration]
    eqn:Hduration; try discriminate.
  destruct (dict_get metrics "http_req_failed" _) as [| | | | | |failed]
    eqn:Hfailed; try discriminate.
  destruct (dict_get metrics "http_reqs" _) as [| | | | | |reqs]
    eqn:Hreqs; try discriminate.
  destruct (dict_get metrics "vus" _) as [| | | | | |vus]
    eqn:Hvus; try discriminate.
  destruct (dict_get metrics "data_received" _) as [| | | | | |received]
    eqn:Hreceived; try discriminate.
  destruct (dict_get metrics "data_sent" _) as [| | | | | |sent]
    eqn:Hsent; try discriminate.
  cbn [object_fields]. rewrite !andb_true_iff.
  intros ((((Havg & Hp95) & Hp99) & Hrate) & Hthr) Hd.
  unfold analyze_performance_data.
  cbn [py_get mbind result_bind].
  rewrite Hmetrics. cbn [py_get mbind result_bind].
  rewrite Hduration, Hfailed, Hreqs, Hvus, Hreceived, Hsent.
  cbn [py_get mbind result_bind].
  destruct (is_number_times_100 _ Hrate) as (er & -> & Her).
  cbn [mbind result_bind].
  edestruct (evaluate_returns
               (make_thresholds (dict_get duration "avg" (JInt 0))
                  (dict_get duration "p(95)" (JInt 0))
                  (dict_get duration "p(99)" (JInt 0)) er
                  (dict_get reqs "rate" (JInt 0))) ∅ true) as [r ->].
  { unfold make_thresholds. repeat constructor; assumption. }
  cbn [mbind result_bind]. rewrite Hd. cbn [mbind result_bind].
  destruct (is_number_rounded _ Havg) as [? ->].
  destruct (is_number_rounded _ Hp95) as [? ->].
  destruct (is_number_rounded _ Hp99) as [? ->].
  destruct (is_number_rounded _ Her) as [? ->].
  destruct (is_number_rounded _ Hthr) as [? ->].
  cbn [mbind result_bind]. eexists. reflexivity.
Qed.

End Builtins.

(** *** A sample run *)

(** C1 on the sample document: the analysis returns, the throughput verdict
    fails and the overall status is 'fail'. *)
Lemma overall_pass_iff_all_pass_witness :
  exists s,
    analyze_performance_data sample_round2 sample_truediv "2024-05-01T10:00:00"
      sample_document = Ok s
    /\ overall_status s = "fail"
    /\ exists k v, results s !! k = Some v /\ passed v = false.
Proof.
  eexists. split; [reflexivity|]. split; [reflexivity|].
  apply (proj1 (proj1 (proj2
    (overall_pass_iff_all_pass sample_round2 sample_truediv
       "2024-05-01T10:00:00" sample_document _ eq_refl)))).
  reflexivity.
Defined.

(** C8 on a document that has a run duration and no [metrics] entry. *)
Lemma absent_metrics_default_to_zero_witness :
  exists s,
    analyze_performance_data sample_round2 sample_truediv "2024-05-01T10:00:00"
      (JObject [("state", JObject [("testRunDurationMs", JInt 30000)])]) = Ok s
    /\ results s !! "throughput" = Some (zero_verdict 100 "req/s" false)
    /\ overall_status s = "fail".
Proof.
  destruct (absent_metrics_default_to_zero sample_round2 sample_truediv
              "2024-05-01T10:00:00"
              [("state", JObject [("testRunDurationMs", JInt 30000)])]
              (JFloat 30) eq_refl eq_refl)
    as (s & Hs & _ & _ & _ & _ & Hthr & _ & Hstatus & _).
  exists s. repeat split; assumption.
Defined.

End PerformanceFacts.

(** * Further properties *)

(** ** The security analysis: order, repetition, provenance *)

Module SecurityExtras.
Import Security SecurityFacts.

Lemma state_then_empty_r st : state_then st empty_state = st.
Proof.
  destruct st as [all info]. unfold state_then. cbn.
  by rewrite app_nil_r, (left_id_L ∅ (∪)).
Qed.

Lemma state_then_empty_l st : state_then empty_state st = st.
Proof.
  destruct st as [all info]. unfold state_then. cbn.
  by rewrite (right_id_L ∅ (∪)).
Qed.

Lemma state_then_assoc st1 st2 st3 :
  state_then (state_then st1 st2) st3 = state_then st1 (state_then st2 st3).
Proof.
  unfold state_then. cbn. by rewrite app_assoc, (assoc_L (∪)).
Qed.

(** Extraction does not look at what was collected before. *)
Lemma extract_frame file_path data st :
  extract file_path data st
  = (st0 ← extract file_path data empty_state; mret (state_then st st0)).
Proof.
  unfold extract.
  destruct (py_get data "site" _) as [site|]; cbn [mbind result_bind]; [|done].
  destruct (py_truthy site).
  2:{ cbn. by rewrite state_then_empty_r. }
  destruct (py_first site) as [site_info|]; cbn [mbind result_bind]; [|done].
  destruct (py_get site_info "@name" _) as [name|]; cbn [mbind result_bind]; [|done].
  destruct (py_get site_info "@host" _) as [host|]; cbn [mbind result_bind]; [|done].
  destruct (py_get site_info "@port" _) as [port|]; cbn [mbind result_bind]; [|done].
  destruct (py_get site_info "@ssl" _) as [ssl|]; cbn [mbind result_bind]; [|done].
  destruct (py_get site_info "alerts" _) as [alerts|]; cbn [mbind result_bind]; [|done].
  destruct (py_iter alerts) as [items|]; cbn [mbind result_bind]; [|done].
  rewrite (collect_alerts_app _ _ (st_all_alerts st)).
  cbn [empty_state st_all_alerts st_scan_info].
  destruct (collect_alerts file_path items []) as [added|];
    cbn [mbind result_bind mret result_ret]; [|done].
  unfold state_then. cbn [st_all_alerts st_scan_info]. f_equal. f_equal.
  by rewrite <- insert_union_l, (left_id_L ∅ (∪)).
Qed.

(** The loop neither: its state is what it was, then what the files add. *)
Lemma ingest_frame fs paths st :
  snd (ingest fs paths st [])
  = (st0 ← snd (ingest fs paths empty_state []); mret (state_then st st0)).
Proof.
  revert st. induction paths as [|p rest IH]; intros st.
  - cbn. by rewrite state_then_empty_r.
  - rewrite !ingest_cons. destruct (fs p) as [data|e].
    + rewrite (extract_frame p data st).
      destruct (extract p data empty_state) as [st0|e];
        cbn [mbind result_bind mret result_ret]; [|done].
      rewrite (IH (state_then st st0)), (IH st0).
      destruct (snd (ingest fs rest empty_state [])) as [st1|e];
        cbn [mbind result_bind mret result_ret]; [|done].
      by rewrite state_then_assoc.
    + destruct (is_load_error e); [|done].
      rewrite !(ingest_out _ _ _ (_ ++ _)). cbn [snd]. apply IH.
Qed.

(** The state the loop reaches is the one the files contribute, one after
    the other. *)
Lemma ingest_file_states fs paths st :
  snd (ingest fs paths empty_state []) = Ok st ->
  st = foldl state_then empty_state (file_state fs <$> paths).
Proof.
  assert (H : forall st0 st',
             snd (ingest fs paths st0 []) = Ok st' ->
             st' = foldl state_then st0 (file_state fs <$> paths)).
  2:{ apply H. }
  induction paths as [|p rest IH]; intros st0 st'.
  - cbn. by intros [= ->].
  - rewrite ingest_cons. cbn [fmap list_fmap foldl]. unfold file_state at 1.
    destruct (fs p) as [data|e].
    + rewrite (extract_frame p data st0).
      destruct (extract p data empty_state) as [st1|e];
        cbn [mbind result_bind mret result_ret]; [|discriminate].
      apply IH.
    + destruct (is_load_error e); [|discriminate].
      rewrite ingest_out. cbn [snd]. rewrite state_then_empty_r. apply IH.
Qed.

Lemma foldl_state_then_alerts st l :
  st_all_alerts (foldl state_then st l)
  = st_all_alerts st ++ concat (st_all_alerts <$> l).
Proof.
  revert st. induction l as [|st0 l IH]; intros st; cbn.
  - by rewrite app_nil_r.
  - rewrite IH. cbn. by rewrite app_assoc.
Qed.

Lemma elem_of_concat {A : Type} (x : A) (ls : list (list A)) :
  x ∈ concat ls <-> exists l, x ∈ l /\ l ∈ ls.
Proof.
  induction ls as [|l0 ls IH]; cbn [concat].
  - split; [intros H; inversion H|intros (l & _ & H); inversion H].
  - rewrite elem_of_app, IH. split.
    + intros [H|(l & Hx & Hl)]; [exists l0; split; [done|left]|].
      exists l. split; [done|by right].
    + intros (l & Hx & [->|Hl]%elem_of_cons); [by left|right; eauto].
Qed.

Lemma foldl_state_then_scan_info st l q :
  is_Some (st_scan_info (foldl state_then st l) !! q)
  <-> is_Some (st_scan_info st !! q)
      \/ exists st0, st0 ∈ l /\ is_Some (st_scan_info st0 !! q).
Proof.
  revert st. induction l as [|st0 l IH]; intros st; cbn [foldl].
  - split; [by left|]. intros [H|(st0 & Hin & _)]; [done|inversion Hin].
  - rewrite IH. unfold state_then at 1. cbn [st_scan_info].
    rewrite lookup_union_is_Some. split.
    + intros [[H|H]|(st1 & Hin & H)].
      * right. exists st0. split; [left|done].
      * by left.
      * right. exists st1. split; [by right|done].
    + intros [H|(st1 & [->|Hin]%elem_of_cons & H)].
      * left. by right.
      * left. by left.
      * right. eauto.
Qed.

Lemma ingest_app fs paths1 paths2 st :
  snd (ingest fs (paths1 ++ paths2) st [])
  = (st1 ← snd (ingest fs paths1 st []); snd (ingest fs paths2 st1 [])).
Proof.
  revert st. induction paths1 as [|p rest IH]; intros st; [reflexivity|].
  cbn [app]. rewrite !ingest_cons. destruct (fs p) as [data|e].
  - destruct (extract p data st) as [st'|e]; [apply IH|reflexivity].
  - destruct (is_load_error e); [|reflexivity].
    rewrite !(ingest_out _ _ _ (_ ++ _)). cbn [snd]. apply IH.
Qed.

(** The records of one file, in the order of its [alerts] entry. *)
Lemma collect_alerts_mapM file_path items acc :
  collect_alerts file_path items acc
  = (added ← mapM (make_alert file_path) items; mret (acc ++ added)).
Proof.
  revert acc. induction items as [|alert rest IH]; intros acc.
  - cbn. by rewrite app_nil_r.
  - cbn [collect_alerts mapM].
    destruct (make_alert file_path alert) as [info|e];
      cbn [mbind result_bind]; [|reflexivity].
    rewrite IH.
    destruct (mapM (make_alert file_path) rest) as [added|e];
      cbn [mbind result_bind mret result_ret]; [|reflexivity].
    by rewrite <- app_assoc.
Qed.

Lemma make_alert_file file_path alert info :
  make_alert file_path alert = Ok info -> file info = file_path.
Proof.
  unfold make_alert.
  repeat (step_bind; [|discriminate]).
  by intros [= <-].
Qed.

Lemma collect_alerts_file file_path items :
  forall acc all_alerts,
    collect_alerts file_path items acc = Ok all_alerts ->
    (forall a, a ∈ acc -> file a = file_path) ->
    forall a, a ∈ all_alerts -> file a = file_path.
Proof.
  induction items as [|alert rest IH]; intros acc all_alerts.
  - cbn. by intros [= <-].
  - cbn [collect_alerts].
    destruct (make_alert file_path alert) as [info|e] eqn:E;
      cbn [mbind result_bind]; [|discriminate].
    intros Hrest Hacc. apply (IH _ _ Hrest).
    intros a [Ha|Ha]%elem_of_app; [by apply Hacc|].
    apply list_elem_of_singleton in Ha as ->. by eapply make_alert_file.
Qed.

(** What a file contributes: records that name the file, and at most one
    entry of scan information, under the path of the file; a file with
    records has the entry. *)
Lemma file_state_spec fs p :
  (forall a, a ∈ st_all_alerts (file_state fs p) ->
             file a = p /\ unreadable fs p = false
             /\ is_Some (st_scan_info (file_state fs p) !! p))
  /\ (forall q, is_Some (st_scan_info (file_state fs p) !! q) ->
                q = p /\ unreadable fs p = false).
Proof.
  unfold file_state, unreadable.
  destruct (fs p) as [data|e];
    [|split; [intros a Ha; inversion Ha
             |intros q [? Hq]; cbn [empty_state st_scan_info] in Hq;
              by rewrite lookup_empty in Hq]].
  destruct (extract p data empty_state) as [st|e] eqn:E;
    [|split; [intros a Ha; inversion Ha
             |intros q [? Hq]; cbn [empty_state st_scan_info] in Hq;
              by rewrite lookup_empty in Hq]].
  revert E. unfold extract.
  destruct (py_get data "site" _) as [site|]; cbn [mbind result_bind]; [|done].
  destruct (py_truthy site).
  2:{ intros [= <-]. split; [intros a Ha; inversion Ha|].
      intros q [? Hq]. cbn [empty_state st_scan_info] in Hq.
      by rewrite lookup_empty in Hq. }
  destruct (py_first site) as [site_info|]; cbn [mbind result_bind]; [|done].
  destruct (py_get site_info "@name" _) as [name|]; cbn [mbind result_bind]; [|done].
  destruct (py_get site_info "@host" _) as [host|]; cbn [mbind result_bind]; [|done].
  destruct (py_get site_info "@port" _) as [port|]; cbn [mbind result_bind]; [|done].
  destruct (py_get site_info "@ssl" _) as [ssl|]; cbn [mbind result_bind]; [|done].
  destruct (py_get site_info "alerts" _) as [alerts|]; cbn [mbind result_bind]; [|done].
  destruct (py_iter alerts) as [items|]; cbn [mbind result_bind]; [|done].
  destruct (collect_alerts p items _) as [added|] eqn:Hadded;
    cbn [mbind result_bind mret result_ret]; [|done].
  intros [= <-]. cbn [st_all_alerts st_scan_info]. split.
  - intros a Ha. split; [|split; [done|]].
    + eapply (collect_alerts_file _ _ _ _ Hadded); [|exact Ha].
      intros a' Ha'. inversion Ha'.
    + rewrite lookup_insert_eq. eauto.
  - intros q [e Hq]. split; [|done].
    destruct (decide (p = q)) as [|Hne]; [done|].
    by rewrite lookup_insert_ne, lookup_empty in Hq.
Qed.

Lemma analyze_zap_results_inv now fs paths s :
  snd (analyze_zap_results now fs paths) = Ok s ->
  exists st, snd (ingest fs paths empty_state []) = Ok st /\ s = summarize now st.
Proof.
  rewrite analyze_zap_results_ingest. cbn [snd].
  destruct (snd (ingest fs paths empty_state [])) as [st|e]; [|discriminate].
  cbn. intros [= <-]. eauto.
Qed.

Lemma ingest_success_each fs paths :
  forall st st',
    snd (ingest fs paths st []) = Ok st' ->
    forall p, p ∈ paths ->
      unreadable fs p = true
      \/ exists data, fs p = Ok data
                      /\ extract p data empty_state = Ok (file_state fs p).
Proof.
  induction paths as [|p rest IH]; intros st st' Hok q Hq; [inversion Hq|].
  rewrite ingest_cons in Hok.
  apply elem_of_cons in Hq as [->|Hq].
  - unfold unreadable, file_state. destruct (fs p) as [data|e].
    + right. exists data. split; [done|].
      rewrite (extract_frame p data st) in Hok.
      destruct (extract p data empty_state); [done|discriminate].
    + left. by destruct (is_load_error e).
  - destruct (fs p) as [data|e].
    + destruct (extract p data st); [eauto|discriminate].
    + destruct (is_load_error e); [|discriminate].
      rewrite ingest_out in Hok. eauto.
Qed.

(** X1: the alerts the summary is computed from are those of the files, file
    after file in the order of the paths, and within a file in the order of
    its [alerts] entry. *)
Theorem alerts_follow_file_order now fs paths s :
  snd (analyze_zap_results now fs paths) = Ok s ->
  exists st,
    s = summarize now st
    /\ st_all_alerts st = concat (file_alerts fs <$> paths)
    /\ (forall p, p ∈ paths -> unreadable fs p = true -> file_alerts fs p = [])
    /\ (forall p fields site_fields rest items,
          p ∈ paths ->
          fs p = Ok (JObject fields) ->
          dict_get fields "site" (JArray []) = JArray (JObject site_fields :: rest) ->
          dict_get site_fields "alerts" (JArray []) = JArray items ->
          mapM (make_alert p) items = Ok (file_alerts fs p)).
Proof.
  intros (st & Hst & ->)%analyze_zap_results_inv.
  exists st. split; [reflexivity|]. split; [|split].
  - rewrite (ingest_file_states _ _ _ Hst), foldl_state_then_alerts.
    cbn [empty_state st_all_alerts app]. unfold file_alerts.
    by rewrite <- list_fmap_compose.
  - intros p _. unfold unreadable, file_alerts, file_state.
    by destruct (fs p).
  - intros p fields site_fields rest items Hp Hload Hsite Halerts.
    destruct (ingest_success_each _ _ _ _ Hst p Hp) as [Hbad|(data & Hdata & Hex)].
    { unfold unreadable in Hbad. by rewrite Hload in Hbad. }
    rewrite Hload in Hdata. injection Hdata as <-.
    unfold file_alerts. revert Hex. generalize (file_state fs p). intros st0.
    unfold extract. cbn [py_get mbind result_bind]. rewrite Hsite.
    cbn [py_truthy py_first py_get mbind result_bind]. rewrite Halerts.
    cbn [py_iter mbind result_bind]. rewrite collect_alerts_mapM.
    cbn [empty_state st_all_alerts app].
    destruct (mapM (make_alert p) items) as [added|];
      cbn [mbind result_bind mret result_ret]; [|discriminate].
    by intros [= <-].
Qed.

Lemma tally_app k l1 l2 : tally k (l1 ++ l2) = tally k l1 + tally k l2.
Proof. unfold tally. by rewrite filter_app, length_app. Qed.

Lemma summarize_counts_then now st1 st2 :
  let s1 := summarize now st1 in
  let s2 := summarize now st2 in
  let s := summarize now (state_then st1 st2) in
  total_alerts s = total_alerts s1 + total_alerts s2
  /\ high_risk_count s = high_risk_count s1 + high_risk_count s2
  /\ medium_risk_count s = medium_risk_count s1 + medium_risk_count s2
  /\ low_risk_count s = low_risk_count s1 + low_risk_count s2
  /\ info_risk_count s = info_risk_count s1 + info_risk_count s2
  /\ unknown_risk_count s = unknown_risk_count s1 + unknown_risk_count s2.
Proof.
  cbn zeta.
  destruct (summary_counts now st1) as (H1 & M1 & L1 & I1 & U1).
  destruct (summary_counts now st2) as (H2 & M2 & L2 & I2 & U2).
  destruct (summary_counts now (state_then st1 st2)) as (H & M & L & I & U).
  rewrite H, M, L, I, U, H1, M1, L1, I1, U1, H2, M2, L2, I2, U2.
  cbn [summarize total_alerts state_then st_all_alerts].
  rewrite !filter_app, !length_app. repeat split.
Qed.

(** X2: analysing two lists of paths in one run adds up: every count of the
    joint summary is the sum of the counts of the two summaries, the scan
    information is that of both, and the status is 'fail' exactly when one of
    the two is.  A path given twice is counted twice. *)
Theorem analysis_of_joined_paths now fs paths1 paths2 s1 s2 :
  snd (analyze_zap_results now fs paths1) = Ok s1 ->
  snd (analyze_zap_results now fs paths2) = Ok s2 ->
  exists s,
    snd (analyze_zap_results now fs (paths1 ++ paths2)) = Ok s
    /\ total_alerts s = total_alerts s1 + total_alerts s2
    /\ high_risk_count s = high_risk_count s1 + high_risk_count s2
    /\ medium_risk_count s = medium_risk_count s1 + medium_risk_count s2
    /\ low_risk_count s = low_risk_count s1 + low_risk_count s2
    /\ info_risk_count s = info_risk_count s1 + info_risk_count s2
    /\ unknown_risk_count s = unknown_risk_count s1 + unknown_risk_count s2
    /\ scan_info s = scan_info s2 ∪ scan_info s1
    /\ (overall_status s = "fail"
        <-> overall_status s1 = "fail" \/ overall_status s2 = "fail").
Proof.
  intros (st1 & Hst1 & ->)%analyze_zap_results_inv
         (st2 & Hst2 & ->)%analyze_zap_results_inv.
  exists (summarize now (state_then st1 st2)).
  split.
  { rewrite analyze_zap_results_ingest. cbn [snd].
    rewrite ingest_app, Hst1. cbn [mbind result_bind].
    rewrite ingest_frame, Hst2. reflexivity. }
  destruct (summarize_counts_then now st1 st2) as (T & H & M & L & I & U).
  do 6 (split; [assumption|]). split; [reflexivity|].
  change (overall_status (summarize now (state_then st1 st2)))
    with (if (0 <? high_risk_count (summarize now (state_then st1 st2)))%nat
          then "fail" else "pass").
  change (overall_status (summarize now st1))
    with (if (0 <? high_risk_count (summarize now st1))%nat then "fail" else "pass").
  change (overall_status (summarize now st2))
    with (if (0 <? high_risk_count (summarize now st2))%nat then "fail" else "pass").
  rewrite H.
  destruct (high_risk_count (summarize now st1)) as [|n1],
           (high_risk_count (summarize now st2)) as [|n2]; cbn;
    split; try tauto; try (intros [?|?]; done); intros; discriminate.
Qed.

(** X3: every alert of the detail list names one of the given paths, a file
    that could be read, and the summary has the scan information of that
    file; scan information exists only for given paths that could be read. *)
Theorem alerts_come_with_scan_info now fs paths s :
  snd (analyze_zap_results now fs paths) = Ok s ->
  (forall a, a ∈ alerts s ->
             file a ∈ paths /\ unreadable fs (file a) = false
             /\ is_Some (scan_info s !! file a))
  /\ (forall p, is_Some (scan_info s !! p) ->
                p ∈ paths /\ unreadable fs p = false).
Proof.
  intros (st & Hst & ->)%analyze_zap_results_inv.
  pose proof (ingest_file_states _ _ _ Hst) as Hfold.
  assert (Hinfo : forall q,
             is_Some (st_scan_info st !! q)
             <-> exists p, p ∈ paths /\ is_Some (st_scan_info (file_state fs p) !! q)).
  { intros q. rewrite Hfold, foldl_state_then_scan_info.
    cbn [empty_state st_scan_info]. split.
    - intros [[? H]|(st0 & Hin & H)]; [by rewrite lookup_empty in H|].
      apply list_elem_of_fmap in Hin as (p & -> & Hp). eauto.
    - intros (p & Hp & H). right. exists (file_state fs p).
      split; [|done]. apply list_elem_of_fmap. eauto. }
  split.
  - intros a Ha. cbn [summarize alerts] in Ha.
    apply elem_of_take in Ha as (i & Ha & _).
    apply list_elem_of_lookup_2 in Ha.
    rewrite sorted_reverse_perm in Ha.
    rewrite Hfold, foldl_state_then_alerts in Ha.
    cbn [empty_state st_all_alerts app] in Ha.
    apply elem_of_concat in Ha as (l & Ha & Hl).
    apply list_elem_of_fmap in Hl as (st0 & -> & Hst0).
    apply list_elem_of_fmap in Hst0 as (p & -> & Hp).
    destruct (file_state_spec fs p) as [Halerts _].
    destruct (Halerts a Ha) as (-> & Hread & Hentry).
    split; [done|]. split; [done|].
    cbn [summarize scan_info]. apply Hinfo. eauto.
  - intros q Hq. cbn [summarize scan_info] in Hq.
    apply Hinfo in Hq as (p & Hp & Hq).
    destruct (file_state_spec fs p) as [_ Hscan].
    destruct (Hscan q Hq) as [-> Hread]. done.
Qed.

(** X1 on the sample files: the alerts of [a.json], then those of [b.json]. *)
Lemma alerts_follow_file_order_witness :
  exists st,
    snd (analyze_zap_results "2024-05-01T10:00:00" (sample_fs sample_files)
           ["a.json"; "broken.json"; "b.json"])
    = Ok (summarize "2024-05-01T10:00:00" st)
    /\ name <$> st_all_alerts st = [JString "a1"; JString "a2"; JString "b1"].
Proof.
  destruct (alerts_follow_file_order "2024-05-01T10:00:00" (sample_fs sample_files)
              ["a.json"; "broken.json"; "b.json"] _ eq_refl)
    as (st & Hs & Hall & _).
  exists st. split; [by rewrite <- Hs|]. rewrite Hall. reflexivity.
Defined.

(** X2 on the sample files: [a.json] given twice. *)
Lemma analysis_of_joined_paths_witness :
  exists s,
    snd (analyze_zap_results "2024-05-01T10:00:00" (sample_fs sample_files)
           (["a.json"] ++ ["a.json"])) = Ok s
    /\ total_alerts s = 4 /\ high_risk_count s = 2.
Proof.
  destruct (analysis_of_joined_paths "2024-05-01T10:00:00" (sample_fs sample_files)
              ["a.json"] ["a.json"] _ _ eq_refl eq_refl)
    as (s & Hs & Htotal & Hhigh & _).
  exists s. split; [exact Hs|]. split; [exact Htotal|exact Hhigh].
Defined.

(** X3 on the sample files: [a.json] has scan information, so it is one of
    the paths and could be read. *)
Lemma alerts_come_with_scan_info_witness :
  "a.json" ∈ ["a.json"; "broken.json"; "b.json"]
  /\ unreadable (sample_fs sample_files) "a.json" = false.
Proof.
  refine (proj2 (alerts_come_with_scan_info "2024-05-01T10:00:00"
                   (sample_fs sample_files) ["a.json"; "broken.json"; "b.json"]
                   _ eq_refl) "a.json" _).
  eexists. vm_compute. reflexivity.
Defined.

(** *** The report *)

Lemma str_len_take n s : str_len (str_take n s) = n `min` str_len s.
Proof.
  revert n. induction s as [|c s IH]; intros n; cbn [str_take str_len].
  - by rewrite Nat.min_0_r.
  - destruct (is_continuation c) eqn:E.
    + cbn [str_len]. by rewrite E, IH.
    + destruct n as [|n]; [reflexivity|]. cbn [str_len]. rewrite E, IH. lia.
Qed.

Lemma str_take_prefix n s : exists rest, s = (str_take n s ++ rest)%string.
Proof.
  revert n. induction s as [|c s IH]; intros n; cbn [str_take].
  - by exists "".
  - destruct (is_continuation c).
    + destruct (IH n) as [rest Hrest]. exists rest.
      change (String c s = String c (str_take n s ++ rest)%string). by rewrite <- Hrest.
    + destruct n as [|n]; [by exists (String c s)|].
      destruct (IH n) as [rest Hrest]. exists rest.
      change (String c s = String c (str_take n s ++ rest)%string). by rewrite <- Hrest.
Qed.

Lemma str_take_all n s : str_len s <= n -> str_take n s = s.
Proof.
  revert n. induction s as [|c s IH]; intros n; cbn [str_take str_len]; [done|].
  destruct (is_continuation c); intros Hn.
  - by rewrite IH.
  - destruct n as [|n]; [lia|]. rewrite IH; [done|lia].
Qed.

Lemma shown_text_JString s :
  shown_text (JString s) = Ok (JString (str_take 200 s), bool_decide (200 < str_len s)).
Proof.
  unfold shown_text. cbn [py_len mbind result_bind].
  destruct (Nat.ltb_spec 200 (str_len s)) as [H|H].
  - cbn. by rewrite bool_decide_eq_true_2.
  - cbn. rewrite bool_decide_eq_false_2 by lia. by rewrite str_take_all.
Qed.

Lemma shown_text_JArray items :
  shown_text (JArray items) = Ok (JArray (take 200 items), bool_decide (200 < length items)).
Proof.
  unfold shown_text. cbn [py_len mbind result_bind].
  destruct (Nat.ltb_spec 200 (length items)) as [H|H].
  - cbn. by rewrite bool_decide_eq_true_2.
  - cbn. rewrite bool_decide_eq_false_2 by lia. by rewrite take_ge.
Qed.

Lemma shown_text_returns v : (exists t, shown_text v = Ok t) <-> text_like v = true.
Proof.
  destruct v as [| | | | |items|fields]; cbn [text_like];
    try (split; [intros [? ?]; discriminate|discriminate]).
  - rewrite shown_text_JString. split; eauto.
  - rewrite shown_text_JArray. split; eauto.
  - unfold shown_text. cbn [py_len mbind result_bind].
    destruct (Nat.ltb_spec 200 (length (remove_dups fields.*1))) as [H|H]; cbn.
    + split; [intros [? ?]; discriminate|]. intros H'%Nat.leb_le. lia.
    + split; [intros _; by apply Nat.leb_le|eauto].
Qed.

Lemma py_len_returns v : (exists n, py_len v = Ok n) <-> sized v = true.
Proof.
  destruct v; cbn; split; eauto; try discriminate; intros [? ?]; discriminate.
Qed.

Lemma emoji_of_level level :
  match levels_get level RISK_LEVELS with
  | Some style => emoji style
  | None => "U+2753"
  end = emoji_of level.
Proof.
  unfold emoji_of, RISK_LEVELS. cbn [levels_get].
  destruct (String.eqb_spec level "High") as [->|H1]; [reflexivity|].
  destruct (String.eqb_spec level "Medium") as [->|H2]; [reflexivity|].
  destruct (String.eqb_spec level "Low") as [->|H3]; [reflexivity|].
  destruct (String.eqb_spec level "Informational") as [->|H4]; [reflexivity|].
  repeat (destruct (decide _) as [?|_]; [contradiction|]).
  reflexivity.
Qed.

Lemma render_issue_inv i a x :
  render_issue i a = Ok x ->
  issue_number x = i
  /\ issue_emoji x = emoji_of (risk_level a)
  /\ issue_name x = name a
  /\ issue_risk_level x = risk_level a
  /\ issue_confidence_level x = confidence_level a
  /\ shown_text (desc a) = Ok (issue_desc x)
  /\ (if py_truthy (solution a)
      then exists t, shown_text (solution a) = Ok t /\ issue_solution x = Some t
      else issue_solution x = None)
  /\ (if py_truthy (instances a)
      then exists n, py_len (instances a) = Ok n /\ issue_instances x = Some n
      else issue_instances x = None).
Proof.
  unfold render_issue. rewrite emoji_of_level.
  destruct (shown_text (desc a)) as [d|e]; [|discriminate]. cbn [mbind result_bind].
  destruct (py_truthy (solution a)).
  - destruct (shown_text (solution a)) as [t|e]; [|discriminate]. cbn [mbind result_bind mret result_ret].
    destruct (py_truthy (instances a)).
    + destruct (py_len (instances a)) as [n|e]; [|discriminate]. cbn.
      intros [= <-]. cbn. repeat split; eauto.
    + cbn. intros [= <-]. cbn. repeat split; eauto.
  - cbn [mbind result_bind mret result_ret].
    destruct (py_truthy (instances a)).
    + destruct (py_len (instances a)) as [n|e]; [|discriminate]. cbn.
      intros [= <-]. cbn. repeat split; eauto.
    + cbn. intros [= <-]. cbn. repeat split; eauto.
Qed.

Lemma render_issue_returns i a :
  (exists x, render_issue i a = Ok x) <-> renderable a = true.
Proof.
  unfold renderable. rewrite !andb_true_iff, !orb_true_iff, !negb_true_iff.
  rewrite <- !shown_text_returns, <- py_len_returns.
  unfold render_issue.
  destruct (shown_text (desc a)) as [d|e]; cbn [mbind result_bind].
  2:{ split; [intros [? ?]; discriminate|]. intros [[[? ?] _] _]. discriminate. }
  destruct (py_truthy (solution a)).
  - destruct (shown_text (solution a)) as [t|e]; cbn [mbind result_bind mret result_ret].
    2:{ split; [intros [? ?]; discriminate|]. intros [[_ [?|[? ?]]] _]; discriminate. }
    destruct (py_truthy (instances a)).
    + destruct (py_len (instances a)) as [n|e]; cbn.
      * split; eauto 10.
      * split; [intros [? ?]; discriminate|]. intros [_ [?|[? ?]]]; discriminate.
    + cbn. split; eauto 10.
  - cbn [mbind result_bind mret result_ret].
    destruct (py_truthy (instances a)).
    + destruct (py_len (instances a)) as [n|e]; cbn.
      * split; eauto 10.
      * split; [intros [? ?]; discriminate|]. intros [_ [?|[? ?]]]; discriminate.
    + cbn. split; eauto 10.
Qed.

Lemma render_issues_lookup l :
  forall i xs,
    render_issues i l = Ok xs ->
    length xs = length l
    /\ forall k x, xs !! k = Some x ->
         exists a, l !! k = Some a /\ render_issue (i + k) a = Ok x.
Proof.
  induction l as [|a l IH]; intros i xs; cbn [render_issues].
  - intros [= <-]. split; [done|]. intros k x. by rewrite lookup_nil.
  - destruct (render_issue i a) as [x0|e] eqn:Hx; [|discriminate]. cbn [mbind result_bind].
    destruct (render_issues (S i) l) as [xs0|e] eqn:Hxs; [|discriminate]. cbn.
    intros [= <-]. destruct (IH _ _ Hxs) as [Hlen Hk]. split; [cbn; by rewrite Hlen|].
    intros [|k] x; cbn.
    + intros [= <-]. exists a. by rewrite Nat.add_0_r.
    + intros Hl. destruct (Hk _ _ Hl) as (b & Hb & Hr). exists b. split; [done|].
      by rewrite <- Nat.add_succ_comm.
Qed.

Lemma render_issues_returns l :
  forall i, (exists xs, render_issues i l = Ok xs) <-> Forall (fun a => renderable a = true) l.
Proof.
  induction l as [|a l IH]; intros i; cbn [render_issues].
  - split; eauto.
  - rewrite Forall_cons, <- (IH (S i)), <- (render_issue_returns i).
    destruct (render_issue i a) as [x0|e]; cbn [mbind result_bind].
    + destruct (render_issues (S i) l) as [xs0|e]; cbn.
      * split; eauto.
      * split; [intros [? ?]; discriminate|]. intros [_ [? ?]]. discriminate.
    + split; [intros [? ?]; discriminate|]. intros [[? ?] _]. discriminate.
Qed.

Lemma generate_security_report_inv s r :
  generate_security_report s = Ok r ->
  render_issues 1 (take 10 (alerts s)) = Ok (issues r)
  /\ headline_fail r = String.eqb (overall_status s) "fail"
  /\ targets r = render_target <$> scan_info s
  /\ advices r = (if (0 <? high_risk_count s)%nat then [FixHighNow] else [])
                 ++ (if (0 <? medium_risk_count s)%nat then [FixMedium] else [])
                 ++ (if (0 <? low_risk_count s)%nat then [ConsiderLow] else [])
                 ++ (if (total_alerts s =? 0)%nat then [NothingFound] else [])
  /\ (shown_total r, shown_high r, shown_medium r, shown_low r, shown_info r)
     = (total_alerts s, high_risk_count s, medium_risk_count s, low_risk_count s,
        info_risk_count s).
Proof.
  unfold generate_security_report.
  destruct (render_issues 1 (take 10 (alerts s))) as [xs|e]; [|discriminate].
  cbn. intros [= <-]. by cbn.
Qed.


Lemma filter_nonempty {A : Type} (P : A -> Prop) `{!forall x, Decision (P x)} (l : list A) :
  (0 <? length (filter P l))%nat = true <-> exists a, a ∈ l /\ P a.
Proof.
  rewrite Nat.ltb_lt. split.
  - destruct (filter P l) as [|a f] eqn:E; cbn; [lia|]. intros _. exists a.
    assert (Hin : a ∈ filter P l) by (rewrite E; left).
    apply list_elem_of_filter in Hin. tauto.
  - intros (a & Ha & HP).
    assert (Hin : a ∈ filter P l) by (by apply list_elem_of_filter).
    destruct (filter P l); [inversion Hin|cbn; lia].
Qed.


(** X11: a description is shown whole when it has at most 200 characters
    and otherwise as its first 200 characters followed by the ellipsis; a
    solution is treated alike but left out when it is empty, and the number
    of instances is shown only for a non-empty sequence. *)
Theorem long_texts_are_cut s r :
  generate_security_report s = Ok r ->
  forall k x,
    issues r !! k = Some x ->
    exists a,
      alerts s !! k = Some a
      /\ (forall text,
            desc a = JString text ->
            exists shown rest,
              issue_desc x = (JString shown, bool_decide (200 < str_len text))
              /\ text = (shown ++ rest)%string
              /\ str_len shown = 200 `min` str_len text
              /\ (str_len text <= 200 -> shown = text))
      /\ (forall text,
            solution a = JString text ->
            issue_solution x
            = if decide (text = "") then None
              else Some (JString (str_take 200 text), bool_decide (200 < str_len text)))
      /\ (forall items,
            instances a = JArray items ->
            issue_instances x
            = if decide (items = []) then None else Some (length items)).
Proof.
  intros Hr k x Hx.
  destruct (generate_security_report_inv _ _ Hr) as (Hissues & _).
  destruct (render_issues_lookup _ _ _ Hissues) as [_ Hk].
  destruct (Hk _ _ Hx) as (a & Ha & Hrender).
  apply lookup_take_Some in Ha as [Ha _]. exists a. split; [exact Ha|].
  destruct (render_issue_inv _ _ _ Hrender)
    as (_ & _ & _ & _ & _ & Hdesc & Hsol & Hinst).
  split; [|split].
  - intros text Htext. rewrite Htext, shown_text_JString in Hdesc.
    injection Hdesc as <-. destruct (str_take_prefix 200 text) as [rest Hrest].
    exists (str_take 200 text), rest. split; [reflexivity|]. split; [exact Hrest|].
    split; [apply str_len_take|apply str_take_all].
  - intros text Htext. rewrite Htext in Hsol. cbn [py_truthy] in Hsol.
    destruct (String.eqb_spec text "") as [Hnil|Hne]; cbn [negb] in Hsol.
    + by rewrite decide_True.
    + rewrite decide_False by done. destruct Hsol as (t & Ht & ->).
      rewrite shown_text_JString in Ht. by injection Ht as <-.
  - intros items Hitems. rewrite Hitems in Hinst. cbn [py_truthy] in Hinst.
    destruct items as [|i items].
    + by rewrite decide_True.
    + rewrite decide_False by done. destruct Hinst as (n & Hn & ->).
      cbn [py_len] in Hn. by injection Hn as <-.
Qed.

Lemma advice_list (b1 b2 b3 b4 : bool) :
  let l := (if b1 then [FixHighNow] else [])
           ++ (if b2 then [FixMedium] else [])
           ++ (if b3 then [ConsiderLow] else [])
           ++ (if b4 then [NothingFound] else []) in
  (FixHighNow ∈ l <-> b1 = true)
  /\ (FixMedium ∈ l <-> b2 = true)
  /\ (ConsiderLow ∈ l <-> b3 = true)
  /\ (NothingFound ∈ l <-> b4 = true)
  /\ (l = [] <-> b1 = false /\ b2 = false /\ b3 = false /\ b4 = false).
Proof.
  destruct b1, b2, b3, b4; cbn; repeat split; try done; try set_solver.
Qed.

(** X12: each line of advice follows one count of the whole analysis: the
    advice to fix high risks at once is given exactly when some alert is
    High, which is also when the headline reports a failure; likewise for
    Medium and Low; "nothing found" is given exactly when there is no alert
    at all.  A scan with alerts that are all informational or unrecognised
    gets no advice. *)
Theorem security_advice_follows_counts now st r :
  generate_security_report (summarize now st) = Ok r ->
  let all := st_all_alerts st in
  (FixHighNow ∈ advices r <-> exists a, a ∈ all /\ risk_level a = "High")
  /\ (FixMedium ∈ advices r <-> exists a, a ∈ all /\ risk_level a = "Medium")
  /\ (ConsiderLow ∈ advices r <-> exists a, a ∈ all /\ risk_level a = "Low")
  /\ (NothingFound ∈ advices r <-> all = [])
  /\ (headline_fail r = true <-> FixHighNow ∈ advices r)
  /\ (advices r = []
      <-> all <> []
          /\ forall a, a ∈ all -> risk_level a ∉ ["High"; "Medium"; "Low"]).
Proof.
  intros Hr. cbn zeta.
  destruct (generate_security_report_inv _ _ Hr) as (_ & Hhead & _ & Hadv & _).
  destruct (summary_counts now st) as (Hhigh & Hmedium & Hlow & _).
  rewrite Hhigh, Hmedium, Hlow in Hadv. cbn [summarize total_alerts] in Hadv.
  change (overall_status (summarize now st))
    with (if (0 <? high_risk_count (summarize now st))%nat then "fail" else "pass")%string
    in Hhead.
  rewrite Hhigh in Hhead.
  pose proof (filter_nonempty (fun a => risk_level a = "High") (st_all_alerts st)) as H1.
  pose proof (filter_nonempty (fun a => risk_level a = "Medium") (st_all_alerts st)) as H2.
  pose proof (filter_nonempty (fun a => risk_level a = "Low") (st_all_alerts st)) as H3.
  assert (H4 : (length (st_all_alerts st) =? 0)%nat = true <-> st_all_alerts st = []).
  { rewrite Nat.eqb_eq. by destruct (st_all_alerts st). }
  rewrite Hadv, Hhead.
  match goal with
  | |- context [ (if ?b1 then [FixHighNow] else []) ++ (if ?b2 then _ else _)
                 ++ (if ?b3 then _ else _) ++ (if ?b4 then _ else _) ] =>
      destruct (advice_list b1 b2 b3 b4) as (A1 & A2 & A3 & A4 & A5)
  end.
  cbv zeta in A1, A2, A3, A4, A5.
  rewrite A1, A2, A3, A4, A5, H1, H2, H3, H4.
  split; [done|]. split; [done|]. split; [done|]. split; [done|]. split.
  - rewrite <- H1.
    by destruct (0 <? length (filter (fun a => risk_level a = "High") _))%nat.
  - rewrite <- !not_true_iff_false, H1, H2, H3, H4. split.
    + intros (N1 & N2 & N3 & N4). split; [exact N4|].
      intros a Ha Hl. rewrite !elem_of_cons in Hl.
      destruct Hl as [Hl|[Hl|[Hl|Hl]]]; [| | |inversion Hl]; eauto.
    + intros [N4 Hnone].
      repeat split; [| | |exact N4]; intros (a & Ha & Hl);
        apply (Hnone a Ha); rewrite Hl; set_solver.
Qed.

(** X13: the report is produced exactly when each of the (at most ten)
    alerts it details can be shown: its description is a text or a sequence
    (or a dict of at most 200 keys), and so is its solution unless that is
    falsy, and its instances have a length unless they are falsy.  So the
    report of alerts whose descriptions and solutions are texts and whose
    instances are sequences is always produced, while a null description in
    the first alert is a [TypeError]; what lies beyond the tenth alert is
    never looked at. *)
Theorem report_renders_iff_details_can_be_shown s :
  ((exists r, generate_security_report s = Ok r)
   <-> Forall (fun a => renderable a = true) (take 10 (alerts s)))
  /\ ((forall a, a ∈ take 10 (alerts s) ->
         exists d sol inst,
           desc a = JString d /\ solution a = JString sol /\ instances a = JArray inst) ->
      exists r, generate_security_report s = Ok r)
  /\ (forall a rest,
        alerts s = a :: rest -> desc a = JNull ->
        generate_security_report s = Raise TypeError)
  /\ (forall s' r,
        take 10 (alerts s') = take 10 (alerts s) ->
        generate_security_report s = Ok r ->
        exists r', generate_security_report s' = Ok r' /\ issues r' = issues r).
Proof.
  assert (Hiff : (exists r, generate_security_report s = Ok r)
                 <-> Forall (fun a => renderable a = true) (take 10 (alerts s))).
  { rewrite <- (render_issues_returns _ 1). unfold generate_security_report.
    destruct (render_issues 1 (take 10 (alerts s))) as [xs|e]; cbn.
    - split; eauto.
    - split; intros [? ?]; discriminate. }
  split; [exact Hiff|]. split; [|split].
  - intros Htexts. apply Hiff, Forall_forall. intros a Ha.
    destruct (Htexts a Ha) as (d & sol & inst & Hd & Hsol & Hinst).
    unfold renderable. rewrite Hd, Hsol, Hinst. cbn [text_like sized andb].
    by rewrite !orb_true_r.
  - intros a rest Hs Hd. unfold generate_security_report. rewrite Hs.
    cbn [take render_issues]. unfold render_issue. by rewrite Hd.
  - intros s' r Hs'. unfold generate_security_report. rewrite Hs'.
    destruct (render_issues 1 (take 10 (alerts s))) as [xs|e]; [|discriminate].
    cbn. intros [= <-]. eauto.
Qed.

(** *** The command *)

Lemma ingest_all_unreadable fs paths :
  (forall p, p ∈ paths -> unreadable fs p = true) ->
  forall st out,
    ingest fs paths st out = (out ++ (warning_for fs <$> paths), Ok st).
Proof.
  induction paths as [|p rest IH]; intros Hall st out.
  - cbn. by rewrite app_nil_r.
  - rewrite ingest_skip by (apply Hall; left).
    rewrite IH by (intros q Hq; apply Hall; by right).
    cbn [fmap list_fmap]. by rewrite <- app_assoc.
Qed.

Lemma expand_patterns_concat glob patterns :
  forall all_files,
    expand_patterns glob patterns all_files
    = all_files
      ++ concat ((fun pattern => match glob pattern with
                                 | [] => [pattern]
                                 | files => files
                                 end) <$> patterns).
Proof.
  induction patterns as [|pattern rest IH]; intros all_files; cbn [expand_patterns].
  - cbn. by rewrite app_nil_r.
  - cbn [fmap list_fmap concat].
    destruct (glob pattern) as [|f files]; rewrite IH; by rewrite <- app_assoc.
Qed.

Lemma main_steps now glob fs open_w args :
  let paths := expand_patterns glob (arg_results_files args) [] in
  main now glob fs open_w args
  = let out := fst (analyze_zap_results now fs paths) in
    let console := Message <$> out in
    match snd (analyze_zap_results now fs paths) with
    | Raise e => {| console := console; written := []; outcome := Raise e |}
    | Ok summary =>
        match generate_security_report summary with
        | Raise e => {| console := console; written := []; outcome := Raise e |}
        | Ok report =>
            match open_w (arg_output args) with
            | Raise e => {| console := console; written := []; outcome := Raise e |}
            | Ok _ =>
                match open_w (arg_json args) with
                | Raise e =>
                    {| console := console;
                       written := [(arg_output args, ReportText report)];
                       outcome := Raise e |}
                | Ok _ =>
                    let last :=
                      if arg_verbose args then FullReport report
                      else ShortSummary (total_alerts summary)
                             (high_risk_count summary) (medium_risk_count summary)
                             (low_risk_count summary) (info_risk_count summary)
                             (arg_output args) (arg_json args) in
                    let exits := arg_fail_on_high args && (0 <? high_risk_count summary)%nat in
                    {| console := console ++ [last]
                                  ++ (if exits then [HighRiskFound (high_risk_count summary)]
                                      else []);
                       written := [(arg_output args, ReportText report);
                                   (arg_json args, SummaryJson summary)];
                       outcome := if exits then Raise (SystemExit 1) else Ok tt |}
                end
            end
        end
    end.
Proof.
  cbn zeta. unfold main.
  destruct (analyze_zap_results now fs _) as [out [summary|e]]; cbn [fst snd]; [|done].
  destruct (generate_security_report summary) as [report|e]; [|done].
  destruct (open_w (arg_output args)) as [[]|e]; [|done].
  destruct (open_w (arg_json args)) as [[]|e]; [|done].
  destruct (arg_fail_on_high args && (0 <? high_risk_count summary)%nat); cbn [app].
  - by rewrite <- app_assoc.
  - reflexivity.
Qed.

(** X14: [main] writes the report and then the JSON summary before it
    decides how to end, and it ends with status 1 only on request: with
    [--fail-on-high] exactly when the status of the summary is 'fail', that
    is when some alert of the scans is High; without it a run that wrote
    both files returns normally whatever was found.  Nothing is written
    unless the analysis returned and the report was produced. *)
Theorem security_main_exit_status now glob fs open_w args :
  let r := main now glob fs open_w args in
  let paths := expand_patterns glob (arg_results_files args) [] in
  let both s rep :=
    [(arg_output args, ReportText rep); (arg_json args, SummaryJson s)] in
  (forall st rep,
      snd (ingest fs paths empty_state []) = Ok st ->
      generate_security_report (summarize now st) = Ok rep ->
      open_w (arg_output args) = Ok tt ->
      open_w (arg_json args) = Ok tt ->
      written r = both (summarize now st) rep
      /\ outcome r = (if arg_fail_on_high args
                         && String.eqb (overall_status (summarize now st)) "fail"
                      then Raise (SystemExit 1) else Ok tt)
      /\ (outcome r = Raise (SystemExit 1)
          <-> arg_fail_on_high args = true
              /\ exists a, a ∈ st_all_alerts st /\ risk_level a = "High")
      /\ (HighRiskFound (high_risk_count (summarize now st)) ∈ console r
          <-> outcome r = Raise (SystemExit 1)))
  /\ (outcome r = Ok tt ->
      exists s rep,
        snd (analyze_zap_results now fs paths) = Ok s
        /\ generate_security_report s = Ok rep
        /\ written r = both s rep)
  /\ (written r <> [] ->
      exists s rep,
        snd (analyze_zap_results now fs paths) = Ok s
        /\ generate_security_report s = Ok rep
        /\ open_w (arg_output args) = Ok tt).
Proof.
  cbn zeta. rewrite main_steps. cbn zeta.
  rewrite analyze_zap_results_ingest. cbn [fst snd].
  destruct (snd (ingest fs _ empty_state [])) as [st|e] eqn:Hst;
    cbn [mbind result_bind mret result_ret].
  2:{ cbn [written outcome console]. split; [intros ? ? [=]|]. split; [discriminate|done]. }
  destruct (generate_security_report (summarize now st)) as [rep|e] eqn:Hrep.
  2:{ cbn [written outcome console]. split; [intros ? ? [= <-]; by rewrite Hrep|]. split; [discriminate|done]. }
  destruct (open_w (arg_output args)) as [[]|e] eqn:Hout.
  2:{ cbn [written outcome console]. split; [intros ? ? _ _ [=]|]. split; [discriminate|done]. }
  destruct (open_w (arg_json args)) as [[]|e] eqn:Hjson.
  2:{ cbn [written outcome console]. split; [intros ? ? _ _ _ [=]|]. split; [discriminate|].
      intros _. by exists (summarize now st), rep. }
  cbn [written outcome console]. split; [|split].
  - intros ? ? [= <-]. rewrite Hrep. intros [= <-] _ _.
    split; [reflexivity|].
    change (overall_status (summarize now st))
      with (if (0 <? high_risk_count (summarize now st))%nat then "fail" else "pass")%string.
    destruct (summary_counts now st) as [Hhigh _].
    pose proof (filter_nonempty (fun a => risk_level a = "High") (st_all_alerts st)) as H1.
    rewrite <- Hhigh in H1.
    destruct (0 <? high_risk_count (summarize now st))%nat eqn:E;
      destruct (arg_fail_on_high args); cbn [andb String.eqb Ascii.eqb Bool.eqb app].
    + split; [reflexivity|]. split.
      * split; [intros _; split; [done|by apply H1]|done].
      * split; [done|]. intros _. apply elem_of_app. right. right. left.
    + split; [reflexivity|]. split.
      * split; [discriminate|]. intros [? _]. discriminate.
      * split; [|discriminate]. rewrite elem_of_app, list_elem_of_singleton.
        intros [Hin|Hin]; [|by destruct (arg_verbose args)].
        apply list_elem_of_fmap in Hin as (m & Hm & _). discriminate.
    + split; [reflexivity|]. split.
      * split; [discriminate|]. intros [_ Hex]. apply H1 in Hex. discriminate.
      * split; [|discriminate]. rewrite elem_of_app, list_elem_of_singleton.
        intros [Hin|Hin]; [|by destruct (arg_verbose args)].
        apply list_elem_of_fmap in Hin as (m & Hm & _). discriminate.
    + split; [reflexivity|]. split.
      * split; [discriminate|]. intros [? _]. discriminate.
      * split; [|discriminate]. rewrite elem_of_app, list_elem_of_singleton.
        intros [Hin|Hin]; [|by destruct (arg_verbose args)].
        apply list_elem_of_fmap in Hin as (m & Hm & _). discriminate.
  - intros _. by exists (summarize now st), rep.
  - intros _. by exists (summarize now st), rep.
Qed.

(** X15: scans that cannot be read do not fail the run.  When every path is
    a file that is missing or does not parse, [main] prints one warning per
    path, in order, writes a report of zero alerts with status 'pass' and
    the advice that nothing was found, and returns normally, also with
    [--fail-on-high]. *)
Theorem unreadable_scans_pass_the_gate now glob fs open_w args :
  let r := main now glob fs open_w args in
  let paths := expand_patterns glob (arg_results_files args) [] in
  (forall p, p ∈ paths -> unreadable fs p = true) ->
  open_w (arg_output args) = Ok tt ->
  open_w (arg_json args) = Ok tt ->
  outcome r = Ok tt
  /\ (exists last, console r = (Message <$> (warning_for fs <$> paths)) ++ [last])
  /\ exists s rep,
       written r = [(arg_output args, ReportText rep); (arg_json args, SummaryJson s)]
       /\ total_alerts s = 0
       /\ high_risk_count s = 0
       /\ overall_status s = "pass"
       /\ alerts s = []
       /\ scan_info s = ∅
       /\ issues rep = []
       /\ headline_fail rep = false
       /\ advices rep = [NothingFound].
Proof.
  cbn zeta. intros Hall Hout Hjson. rewrite main_steps. cbn zeta.
  rewrite analyze_zap_results_ingest, (ingest_all_unreadable _ _ Hall).
  cbn [fst snd app mbind result_bind mret result_ret].
  change (generate_security_report (summarize now empty_state))
    with (Ok {| shown_timestamp := now; headline_fail := false;
                shown_total := 0; shown_high := 0; shown_medium := 0;
                shown_low := 0; shown_info := 0;
                targets := render_target <$> (∅ : gmap string site_entry);
                issues := []; advices := [NothingFound] |}).
  rewrite Hout, Hjson. rewrite andb_false_r. cbn [outcome console written].
  split; [reflexivity|]. split.
  - eexists. reflexivity.
  - eexists _, _. split; [reflexivity|]. by repeat split.
Qed.

(** X16: a pattern stands for the files it matches, in the order of the
    patterns, and for itself when it matches none; so a pattern that matches
    nothing and names no readable file is not dropped silently: when the
    analysis returns, [main] has printed the warning for it. *)
Theorem unmatched_pattern_is_reported glob patterns :
  let paths := expand_patterns glob patterns [] in
  paths = concat ((fun pattern => match glob pattern with
                                  | [] => [pattern]
                                  | files => files
                                  end) <$> patterns)
  /\ (forall p, p ∈ paths
                <-> exists pattern,
                      pattern ∈ patterns
                      /\ (p ∈ glob pattern \/ (glob pattern = [] /\ p = pattern)))
  /\ length patterns <= length paths
  /\ (forall now fs open_w args pattern,
        arg_results_files args = patterns ->
        pattern ∈ patterns ->
        glob pattern = [] ->
        unreadable fs pattern = true ->
        (exists s, snd (analyze_zap_results now fs paths) = Ok s) ->
        Message (warning_for fs pattern) ∈ console (main now glob fs open_w args)).
Proof.
  cbn zeta. rewrite expand_patterns_concat. cbn [app].
  assert (Hmem : forall p,
            p ∈ concat ((fun pattern => match glob pattern with
                                        | [] => [pattern]
                                        | files => files
                                        end) <$> patterns)
            <-> exists pattern,
                  pattern ∈ patterns
                  /\ (p ∈ glob pattern \/ (glob pattern = [] /\ p = pattern))).
  { intros p. rewrite elem_of_concat. split.
    - intros (l & Hp & Hl). apply list_elem_of_fmap in Hl as (pattern & -> & Hin).
      exists pattern. split; [exact Hin|].
      destruct (glob pattern) as [|f files]; [|by left].
      right. split; [done|]. by apply list_elem_of_singleton in Hp.
    - intros (pattern & Hin & Hp). eexists. split; [|apply list_elem_of_fmap; eauto].
      cbn beta. destruct Hp as [Hp|[Hnil ->]].
      + destruct (glob pattern); [inversion Hp|exact Hp].
      + rewrite Hnil. left. }
  split; [reflexivity|]. split; [exact Hmem|]. split.
  - clear Hmem. induction patterns as [|pattern rest IH]; [done|].
    cbn [fmap list_fmap concat length] in *. rewrite length_app.
    destruct (glob pattern); cbn [length]; lia.
  - intros now fs open_w args pattern Hargs Hin Hnil Hbad [s Hs].
    rewrite main_steps. cbn zeta. rewrite Hargs, expand_patterns_concat. cbn [app].
    rewrite Hs.
    assert (Hwarn : Message (warning_for fs pattern)
                    ∈ Message <$> fst (analyze_zap_results now fs
                        (concat ((fun pattern => match glob pattern with
                                        | [] => [pattern]
                                        | files => files
                                        end) <$> patterns)))).
    { apply list_elem_of_fmap. exists (warning_for fs pattern). split; [done|].
      rewrite analyze_zap_results_ingest in Hs |- *. cbn [fst snd] in Hs |- *.
      destruct (snd (ingest fs _ empty_state [])) as [st|e] eqn:Hst; [|discriminate].
      rewrite (ingest_warnings _ _ _ _ Hst).
      apply list_elem_of_fmap. exists pattern. split; [done|].
      apply list_elem_of_filter. split; [exact Hbad|].
      apply Hmem. exists pattern. split; [exact Hin|]. by right. }
    destruct (generate_security_report s); [|exact Hwarn].
    destruct (open_w (arg_output args)) as [[]|]; [|exact Hwarn].
    destruct (open_w (arg_json args)) as [[]|]; [|exact Hwarn].
    cbn [console]. apply elem_of_app. by left.
Qed.

(** *** The targets *)

Lemma foldl_state_then_lookup l :
  forall st q e,
    st_scan_info (foldl state_then st l) !! q = Some e ->
    st_scan_info st !! q = Some e
    \/ exists st0, st0 ∈ l /\ st_scan_info st0 !! q = Some e.
Proof.
  induction l as [|st0 l IH]; intros st q e; cbn [foldl]; [by left|].
  intros [H|(st1 & Hin & H)]%IH.
  - unfold state_then in H. cbn [st_scan_info] in H.
    apply lookup_union_Some_raw in H as [H|[_ H]].
    + right. exists st0. split; [left|done].
    + by left.
  - right. exists st1. split; [by right|done].
Qed.

Lemma file_state_entry fs p q info :
  st_scan_info (file_state fs p) !! q = Some info ->
  q = p
  /\ exists top site rest,
       fs p = Ok (JObject top)
       /\ dict_get top "site" (JArray []) = JArray (JObject site :: rest)
       /\ info = {| site_name := dict_get site "@name" (JString "");
                    host := dict_get site "@host" (JString "");
                    port := dict_get site "@port" (JString "");
                    ssl := dict_get site "@ssl" (JBool false) |}.
Proof.
  unfold file_state.
  destruct (fs p) as [data|e];
    [|cbn [empty_state st_scan_info]; by rewrite lookup_empty].
  destruct (extract p data empty_state) as [st|e] eqn:E;
    [|cbn [empty_state st_scan_info]; by rewrite lookup_empty].
  revert E. unfold extract.
  destruct data as [| | | | | |top]; try discriminate. cbn [py_get mbind result_bind].
  destruct (py_truthy (dict_get top "site" (JArray []))) eqn:Htruthy.
  2:{ intros [= <-]. cbn [empty_state st_scan_info]. by rewrite lookup_empty. }
  clear Htruthy.
  destruct (dict_get top "site" (JArray [])) as [| | | |[|c text]|[|first rest]|] eqn:Hsite;
    try discriminate; cbn [py_first mbind result_bind]; try discriminate.
  destruct first as [| | | | | |site]; try discriminate. cbn [py_get mbind result_bind].
  destruct (py_iter _) as [items|]; cbn [mbind result_bind]; [|done].
  destruct (collect_alerts p items _) as [added|];
    cbn [mbind result_bind mret result_ret]; [|done].
  intros [= <-]. cbn [st_scan_info empty_state].
  destruct (decide (p = q)) as [<-|Hne].
  - rewrite lookup_insert_eq. intros [= <-]. split; [done|]. by exists top, site, rest.
  - by rewrite lookup_insert_ne, lookup_empty.
Qed.

(** X17: the report lists a target for exactly the files that have scan
    information, and the line of a file shows the name, host and port of
    the first site of its document; the protocol is https exactly when the
    [@ssl] value of that site is truthy, so for a text exactly when the text
    is not empty, whatever it says. *)
Theorem targets_follow_first_site now fs paths s r :
  snd (analyze_zap_results now fs paths) = Ok s ->
  generate_security_report s = Ok r ->
  dom (targets r) = dom (scan_info s)
  /\ forall p t,
       targets r !! p = Some t ->
       p ∈ paths
       /\ exists top site rest,
            fs p = Ok (JObject top)
            /\ dict_get top "site" (JArray []) = JArray (JObject site :: rest)
            /\ target_name t = dict_get site "@name" (JString "")
            /\ target_host t = dict_get site "@host" (JString "")
            /\ target_port t = dict_get site "@port" (JString "")
            /\ target_protocol t
               = (if py_truthy (dict_get site "@ssl" (JBool false))
                  then "https" else "http")
            /\ (forall text,
                  dict_get site "@ssl" (JBool false) = JString text ->
                  target_protocol t = "https" <-> text <> "").
Proof.
  intros Hs Hr.
  destruct (generate_security_report_inv _ _ Hr) as (_ & _ & Htargets & _).
  rewrite Htargets. split; [apply dom_fmap_L|].
  intros p t Ht. apply lookup_fmap_Some in Ht as (info & <- & Hinfo).
  destruct (analyze_zap_results_inv _ _ _ _ Hs) as (st & Hst & ->).
  cbn [summarize scan_info] in Hinfo.
  rewrite (ingest_file_states _ _ _ Hst) in Hinfo.
  apply foldl_state_then_lookup in Hinfo as [Hinfo|(st0 & Hin & Hinfo)].
  { cbn [empty_state st_scan_info] in Hinfo. by rewrite lookup_empty in Hinfo. }
  apply list_elem_of_fmap in Hin as (q & -> & Hq).
  apply file_state_entry in Hinfo as (-> & top & site & rest & Hload & Hsite & ->).
  split; [exact Hq|]. exists top, site, rest.
  cbn [render_target site_name host port ssl target_name target_host target_port
       target_protocol].
  repeat (split; [done|]). intros text ->. cbn [py_truthy].
  destruct (String.eqb_spec text "") as [->|Hne]; cbn [negb]; split; done.
Qed.


(** X11 on the scan with one long alert: its section is that of the first
    alert of the summary. *)
Lemma long_texts_are_cut_witness :
  exists a, alerts (summarize "2024-05-01T10:00:00" sample_long_state) !! 0 = Some a.
Proof.
  destruct (long_texts_are_cut (summarize "2024-05-01T10:00:00" sample_long_state)
              _ eq_refl 0 _ eq_refl) as (a & Ha & _).
  exists a. exact Ha.
Defined.

(** X12 on the scan with one long alert, which is High. *)
Lemma security_advice_follows_counts_witness :
  exists r,
    generate_security_report (summarize "2024-05-01T10:00:00" sample_long_state) = Ok r
    /\ (headline_fail r = true <-> FixHighNow ∈ advices r).
Proof.
  eexists. split; [vm_compute; reflexivity|].
  exact (proj1 (proj2 (proj2 (proj2 (proj2
           (security_advice_follows_counts "2024-05-01T10:00:00" sample_long_state
              _ eq_refl)))))).
Defined.

(** X15 on a missing file and a file that does not parse, with
    [--fail-on-high]. *)
Lemma unreadable_scans_pass_the_gate_witness :
  outcome (main "2024-05-01T10:00:00" sample_glob (sample_fs sample_files)
             (fun _ => Ok tt)
             (sample_arguments ["missing.json"; "broken.json"] true))
  = Ok tt.
Proof.
  refine (proj1 (unreadable_scans_pass_the_gate "2024-05-01T10:00:00" sample_glob
                   (sample_fs sample_files) (fun _ => Ok tt)
                   (sample_arguments ["missing.json"; "broken.json"] true)
                   _ eq_refl eq_refl)).
  intros p Hp.
  change (p ∈ ["missing.json"; "broken.json"]) in Hp.
  apply elem_of_cons in Hp as [->|Hp]; [reflexivity|].
  apply elem_of_cons in Hp as [->|Hp]; [reflexivity|].
  inversion Hp.
Defined.

(** X17 on the sample files: the target of [a.json]. *)
Lemma targets_follow_first_site_witness :
  exists s r,
    snd (analyze_zap_results "2024-05-01T10:00:00" (sample_fs sample_files) ["a.json"])
    = Ok s
    /\ generate_security_report s = Ok r
    /\ dom (targets r) = dom (scan_info s).
Proof.
  eexists _, _. split; [vm_compute; reflexivity|]. split; [vm_compute; reflexivity|].
  exact (proj1 (targets_follow_first_site "2024-05-01T10:00:00" (sample_fs sample_files)
                  ["a.json"] _ _ eq_refl eq_refl)).
Defined.

End SecurityExtras.

(** ** The performance analysis: verdicts, failures *)

Module PerformanceExtras.
Import Performance PerformanceFacts.

Section Builtins.
Variable float_round2 : float -> float.
Variable int_truediv : Z -> Z -> result float.

Local Abbreviation py_round2 := (py_round2 float_round2).
Local Abbreviation evaluate := (evaluate float_round2).
Local Abbreviation run_duration := (run_duration int_truediv).
Local Abbreviation analyze_performance_data :=
  (analyze_performance_data float_round2 int_truediv).
Local Abbreviation analyze_performance_results :=
  (analyze_performance_results float_round2 int_truediv).
Local Abbreviation entry_of := (entry_of float_round2).

(** Every step of a run that returns. *)
Lemma analyze_performance_data_steps now data s :
  analyze_performance_data now data = Ok s ->
  exists top metrics duration failed reqs vus received sent rate er,
    data = JObject top
    /\ dict_get top "metrics" (JObject []) = JObject metrics
    /\ dict_get metrics "http_req_duration" (JObject []) = JObject duration
    /\ dict_get metrics "http_req_failed" (JObject []) = JObject failed
    /\ dict_get metrics "http_reqs" (JObject []) = JObject reqs
    /\ dict_get metrics "vus" (JObject []) = JObject vus
    /\ dict_get metrics "data_received" (JObject []) = JObject received
    /\ dict_get metrics "data_sent" (JObject []) = JObject sent
    /\ rate = dict_get failed "rate" (JInt 0)
    /\ py_mul_100 rate = Ok er
    /\ evaluate (make_thresholds (dict_get duration "avg" (JInt 0))
                   (dict_get duration "p(95)" (JInt 0))
                   (dict_get duration "p(99)" (JInt 0)) er
                   (dict_get reqs "rate" (JInt 0))) ∅ true
       = Ok (results s, bool_decide (overall_status s = "pass"))
    /\ run_duration data = Ok (test_duration s)
    /\ py_round2 (dict_get duration "avg" (JInt 0)) = Ok (avg_response_time s)
    /\ py_round2 (dict_get duration "p(95)" (JInt 0)) = Ok (p95_response_time s)
    /\ py_round2 (dict_get duration "p(99)" (JInt 0)) = Ok (p99_response_time s)
    /\ py_round2 er = Ok (error_rate s)
    /\ py_round2 (dict_get reqs "rate" (JInt 0)) = Ok (throughput s)
    /\ total_requests s = dict_get reqs "count" (JInt 0)
    /\ max_vus s = dict_get vus "max" (JInt 0)
    /\ data_received s = dict_get received "count" (JInt 0)
    /\ data_sent s = dict_get sent "count" (JInt 0)
    /\ timestamp s = now.
Proof.
  unfold analyze_performance_data.
  destruct data as [| | | | | |top]; try discriminate.
  cbn [py_get mbind result_bind].
  destruct (dict_get top "metrics" _) as [| | | | | |metrics] eqn:Hmetrics;
    try discriminate.
  cbn [py_get mbind result_bind].
  destruct (dict_get metrics "http_req_duration" _) as [| | | | | |duration]
    eqn:Hduration; try discriminate.
  cbn [py_get mbind result_bind].
  destruct (dict_get metrics "http_req_failed" _) as [| | | | | |failed]
    eqn:Hfailed; try discriminate.
  cbn [py_get mbind result_bind].
  destruct (py_mul_100 _) as [er|] eqn:Her; [|discriminate].
  cbn [py_get mbind result_bind].
  destruct (dict_get metrics "http_reqs" _) as [| | | | | |reqs]
    eqn:Hreqs; try discriminate.
  cbn [py_get mbind result_bind].
  destruct (dict_get metrics "vus" _) as [| | | | | |vus]
    eqn:Hvus; try discriminate.
  cbn [py_get mbind result_bind].
  destruct (Performance.evaluate _ _ _ _) as [[r overall_pass]|] eqn:Hev;
    [|discriminate]; cbn [mbind result_bind fst snd].
  destruct (Performance.run_duration _ _) as [d|] eqn:Hd; [|discriminate];
    cbn [mbind result_bind].
  destruct (Performance.py_round2 _ (dict_get duration "avg" _)) as [r1|]
    eqn:Hr1; [|discriminate]; cbn [mbind result_bind].
  destruct (Performance.py_round2 _ (dict_get duration "p(95)" _)) as [r2|]
    eqn:Hr2; [|discriminate]; cbn [mbind result_bind].
  destruct (Performance.py_round2 _ (dict_get duration "p(99)" _)) as [r3|]
    eqn:Hr3; [|discriminate]; cbn [mbind result_bind].
  destruct (Performance.py_round2 _ er) as [r4|]
    eqn:Hr4; [|discriminate]; cbn [mbind result_bind].
  destruct (Performance.py_round2 _ (dict_get reqs "rate" _)) as [r5|]
    eqn:Hr5; [|discriminate]; cbn [mbind result_bind].
  destruct (dict_get metrics "data_received" _) as [| | | | | |received]
    eqn:Hreceived; try discriminate.
  cbn [py_get mbind result_bind].
  destruct (dict_get metrics "data_sent" _) as [| | | | | |sent]
    eqn:Hsent; try discriminate.
  cbn [py_get mbind result_bind].
  cbn [mret result_ret]. intros [= <-].
  exists top, metrics, duration, failed, reqs, vus, received, sent,
    (dict_get failed "rate" (JInt 0)), er.
  cbn [results overall_status test_duration avg_response_time p95_response_time
       p99_response_time error_rate throughput total_requests max_vus
       data_received data_sent timestamp].
  repeat (split; [first [assumption | reflexivity]|]).
  split; [|repeat split; first [assumption | reflexivity]].
  rewrite Hev. by destruct overall_pass.
Qed.

Lemma compared_is_number v t b :
  py_le_int v t = Ok b \/ py_ge_int v t = Ok b -> is_number v = true.
Proof. destruct v; cbn; intros [H|H]; done. Qed.

Lemma check_is_number metric config b :
  check metric config = Ok b -> is_number (value config) = true.
Proof.
  rewrite check_direction. destruct (decide _); intros H;
    eapply compared_is_number; eauto.
Qed.

(** X4: a run that returns has exactly one verdict for each of the five
    entries of the policy.  The verdict carries the limit and the unit of the
    policy, its value is the rounded value shown at the top of the summary,
    and its mark is PASS exactly when it passed. *)
Theorem one_verdict_per_policy_entry now data s :
  analyze_performance_data now data = Ok s ->
  dom (results s)
  = {[ "avg_response_time"; "p95_response_time"; "p99_response_time";
       "error_rate"; "throughput" ]}
  /\ (forall k v, results s !! k = Some v ->
         status v = (if passed v then PASS else FAIL)
         /\ (k, (result_value v, result_threshold v, result_unit v))
            ∈ [("avg_response_time", (avg_response_time s, 500%Z, "ms"));
               ("p95_response_time", (p95_response_time s, 1000%Z, "ms"));
               ("p99_response_time", (p99_response_time s, 2000%Z, "ms"));
               ("error_rate", (error_rate s, 1%Z, "%"));
               ("throughput", (throughput s, 100%Z, "req/s"))]).
Proof.
  intros Hs.
  destruct (analyze_performance_data_steps now data s Hs)
    as (top & metrics & duration & failed & reqs & vus & received & sent & rate
        & er & _ & _ & _ & _ & _ & _ & _ & _ & _ & _ & Hev & _
        & Hr1 & Hr2 & Hr3 & Hr4 & Hr5 & _).
  destruct (evaluate_spec _ _ _ _ _ _ (make_thresholds_NoDup _ _ _ _ _) Hev)
    as (Hout & Hin & _).
  assert (Hkeys : forall k, is_Some (results s !! k)
            <-> k ∈ ["avg_response_time"; "p95_response_time";
                     "p99_response_time"; "error_rate"; "throughput"]).
  { intros k. rewrite <- (make_thresholds_keys (dict_get duration "avg" (JInt 0))
                           (dict_get duration "p(95)" (JInt 0))
                           (dict_get duration "p(99)" (JInt 0)) er
                           (dict_get reqs "rate" (JInt 0))).
    split.
    - intros [v Hv].
      destruct (decide (k ∈ (make_thresholds (dict_get duration "avg" (JInt 0))
                               (dict_get duration "p(95)" (JInt 0))
                               (dict_get duration "p(99)" (JInt 0)) er
                               (dict_get reqs "rate" (JInt 0))).*1))
        as [|Hnot]; [done|].
      by rewrite (Hout k Hnot), lookup_empty in Hv.
    - intros ([k' config] & -> & Hmem)%list_elem_of_fmap.
      destruct (Hin _ _ Hmem) as (v & Hv & _). eauto. }
  split.
  - apply set_eq. intros k. rewrite elem_of_dom, Hkeys. set_solver.
  - intros k v Hv.
    assert (Hk : is_Some (results s !! k)) by eauto.
    apply Hkeys in Hk.
    unfold make_thresholds in Hin.
    repeat (apply elem_of_cons in Hk as [->|Hk];
      [match type of Hv with
       | _ !! ?key = _ =>
           edestruct (Hin key) as (v' & Hv' & _ & Hround & Ht & Hu & Hstatus);
           [repeat first [left; reflexivity | right]|]
       end;
       rewrite Hv in Hv'; injection Hv' as <-;
       cbn [value threshold unit] in *;
       split; [exact Hstatus|];
       rewrite Ht, Hu;
       first [rewrite Hr1 in Hround | rewrite Hr2 in Hround
             | rewrite Hr3 in Hround | rewrite Hr4 in Hround
             | rewrite Hr5 in Hround];
       injection Hround as <-;
       repeat first [left | right]|]).
    inversion Hk.
Qed.

Lemma analyze_performance_data_well_formed now data s :
  analyze_performance_data now data = Ok s -> well_formed data = true.
Proof.
  intros Hs.
  destruct (analyze_performance_data_steps now data s Hs)
    as (top & metrics & duration & failed & reqs & vus & received & sent & rate
        & er & -> & Hmetrics & Hduration & Hfailed & Hreqs & Hvus & Hreceived
        & Hsent & -> & Her & Hev & Hd & _).
  destruct (evaluate_spec _ _ _ _ _ _ (make_thresholds_NoDup _ _ _ _ _) Hev)
    as (_ & Hin & _).
  unfold make_thresholds in Hin.
  assert (Hnum : forall k config,
             (k, config) ∈ make_thresholds (dict_get duration "avg" (JInt 0))
               (dict_get duration "p(95)" (JInt 0))
               (dict_get duration "p(99)" (JInt 0)) er
               (dict_get reqs "rate" (JInt 0)) ->
             is_number (value config) = true).
  { intros k config Hmem. destruct (Hin _ _ Hmem) as (v & _ & Hc & _).
    by eapply check_is_number. }
  unfold well_formed. cbn [object_fields]. rewrite Hmetrics.
  cbn [object_fields]. cbn zeta.
  rewrite Hduration, Hfailed, Hreqs, Hvus, Hreceived, Hsent.
  cbn [object_fields].
  pose proof (Hnum "avg_response_time" _ ltac:(left)) as H1.
  pose proof (Hnum "p95_response_time" _ ltac:(right; left)) as H2.
  pose proof (Hnum "p99_response_time" _ ltac:(do 2 right; left)) as H3.
  pose proof (Hnum "throughput" _ ltac:(do 4 right; left)) as H5.
  pose proof (Hnum "error_rate" _ ltac:(do 3 right; left)) as H4.
  cbn [value] in H1, H2, H3, H4, H5. rewrite H1, H2, H3, H5.
  cbn [andb]. rewrite andb_true_r.
  destruct (dict_get failed "rate" (JInt 0)); try discriminate; try reflexivity;
    injection Her as <-; discriminate.
Qed.

(** X5: the analysis of a loaded document returns a summary exactly when the
    document has the expected shape (an object whose [metrics] and whose six
    groups, where present, are objects and whose five compared values, where
    present, are numbers) and its run duration can be computed. *)
Theorem analysis_returns_iff_well_formed now data :
  (exists s, analyze_performance_data now data = Ok s)
  <-> well_formed data = true /\ exists d, run_duration data = Ok d.
Proof.
  split.
  - intros [s Hs]. split; [by eapply analyze_performance_data_well_formed|].
    destruct (analyze_performance_data_steps now data s Hs)
      as (? & ? & ? & ? & ? & ? & ? & ? & ? & ? & _ & _ & _ & _ & _ & _ & _ & _
          & _ & _ & _ & Hd & _).
    eauto.
  - intros [Hwf [d Hd]]. by eapply analyze_performance_data_returns.
Qed.

Lemma py_get_raise d k v e : py_get d k v = Raise e -> e = AttributeError.
Proof. destruct d; cbn; by intros [= <-]. Qed.

Lemma py_mul_100_raise v e : py_mul_100 v = Raise e -> e = TypeError.
Proof. destruct v; cbn; by intros [= <-]. Qed.

Lemma py_round2_raise v e : py_round2 v = Raise e -> e = TypeError.
Proof. destruct v; cbn; by intros [= <-]. Qed.

Lemma check_raise metric config e : check metric config = Raise e -> e = TypeError.
Proof.
  rewrite check_direction.
  destruct (decide _), (value config); cbn; by intros [= <-].
Qed.

Lemma evaluate_raise thresholds :
  forall results overall_pass e,
    evaluate thresholds results overall_pass = Raise e -> e = TypeError.
Proof.
  induction thresholds as [|[metric config] rest IH]; intros results overall_pass e.
  - discriminate.
  - cbn [Performance.evaluate].
    destruct (check metric config) eqn:Hc; cbn [mbind result_bind];
      [|intros [= <-]; by eapply check_raise].
    destruct (py_round2 (value config)) eqn:Hr; cbn [mbind result_bind];
      [|intros [= <-]; by eapply py_round2_raise].
    apply IH.
Qed.

Ltac failing_step :=
  match goal with
  | |- context [mbind _ ?c] =>
      let E := fresh "E" in
      destruct c eqn:E; cbn [mbind result_bind mret result_ret];
      [|intros [= <-];
        first [ left; eapply py_get_raise; eassumption
              | right; left;
                first [ eapply py_mul_100_raise; eassumption
                      | eapply py_round2_raise; eassumption
                      | eapply evaluate_raise; eassumption ]
              | right; right; first [assumption | reflexivity] ]]
  end.

Lemma analyze_performance_data_raise now data e :
  analyze_performance_data now data = Raise e ->
  e = AttributeError \/ e = TypeError \/ run_duration data = Raise e.
Proof.
  unfold analyze_performance_data. repeat failing_step. discriminate.
Qed.

(** X6: how the analysis of a results file ends.  A missing or unparseable
    file is never passed on as such: one error line is printed and the
    process is left with status 1.  Any other failure to load is raised as
    it is.  A loaded document prints nothing, and fails only with an
    AttributeError, a TypeError or the failure of the run duration. *)
Theorem how_the_performance_analysis_ends now fs results_file :
  let run := analyze_performance_results now fs results_file in
  (fs results_file = Raise FileNotFoundError ->
   run = ([ErrorNotFound results_file], Raise (SystemExit 1)))
  /\ (fs results_file = Raise JSONDecodeError ->
      run = ([ErrorBadJson results_file], Raise (SystemExit 1)))
  /\ (forall e, fs results_file = Raise e ->
                Security.is_load_error e = false -> run = ([], Raise e))
  /\ (forall data, fs results_file = Ok data ->
         run = ([], analyze_performance_data now data)
         /\ forall e, snd run = Raise e ->
               e = AttributeError \/ e = TypeError
               \/ run_duration data = Raise e)
  /\ (forall s, snd run = Ok s ->
         exists data, fs results_file = Ok data
                      /\ well_formed data = true /\ fst run = []).
Proof.
  cbn zeta. unfold Performance.analyze_performance_results.
  split; [by intros ->|]. split; [by intros ->|].
  split; [intros e -> He; by destruct e|].
  split.
  - intros data ->. split; [reflexivity|]. cbn [snd].
    apply analyze_performance_data_raise.
  - intros s. destruct (fs results_file) as [data|e].
    + cbn [snd fst]. intros Hs. exists data. split; [done|]. split; [|done].
      by eapply analyze_performance_data_well_formed.
    + by destruct e.
Qed.

(** *** The report *)

Lemma py_round2_is_number v r : py_round2 v = Ok r -> is_number r = true.
Proof. destruct v; cbn; intros [= <-]; reflexivity. Qed.

Lemma is_number_ordered v t :
  is_number v = true ->
  (exists b, py_gt_int v t = Ok b) /\ (exists b, py_lt_int v t = Ok b).
Proof. destruct v; try discriminate; intros _; split; eexists; reflexivity. Qed.

Lemma run_duration_is_float data d :
  run_duration data = Ok d -> exists f, d = JFloat f.
Proof.
  unfold Performance.run_duration.
  destruct (py_get data "state" _) as [state|]; cbn [mbind result_bind]; [|done].
  destruct (py_get state "testRunDurationMs" _) as [ms|];
    cbn [mbind result_bind]; [|done].
  destruct ms; cbn; try discriminate;
    try (destruct (int_truediv _ _); cbn; [|discriminate]);
    intros [= <-]; eauto.
Qed.

(** The verdicts of a run that returns, by their keys. *)
Lemma analysis_verdicts now data s :
  analyze_performance_data now data = Ok s ->
  exists v1 v2 v3 v4 v5,
    results s !! "avg_response_time" = Some v1
    /\ results s !! "p95_response_time" = Some v2
    /\ results s !! "p99_response_time" = Some v3
    /\ results s !! "error_rate" = Some v4
    /\ results s !! "throughput" = Some v5.
Proof.
  intros Hs.
  destruct (analyze_performance_data_steps now data s Hs)
    as (top & metrics & duration & failed & reqs & vus & received & sent & rate
        & er & _ & _ & _ & _ & _ & _ & _ & _ & _ & _ & Hev & _).
  destruct (evaluate_spec _ _ _ _ _ _ (make_thresholds_NoDup _ _ _ _ _) Hev)
    as (_ & Hin & _).
  unfold make_thresholds in Hin.
  edestruct (Hin "avg_response_time") as (v1 & H1 & _); [left|].
  edestruct (Hin "p95_response_time") as (v2 & H2 & _); [right; left|].
  edestruct (Hin "p99_response_time") as (v3 & H3 & _); [do 2 right; left|].
  edestruct (Hin "error_rate") as (v4 & H4 & _); [do 3 right; left|].
  edestruct (Hin "throughput") as (v5 & H5 & _); [do 4 right; left|].
  by exists v1, v2, v3, v4, v5.
Qed.

Lemma format_thousands_spec v :
  (is_number v = true /\ format_thousands v = Ok v)
  \/ (is_number v = false
      /\ exists e, format_thousands v = Raise e /\ (e = ValueError \/ e = TypeError)).
Proof. destruct v; cbn; eauto 6. Qed.

(** X7: the report of a summary the analysis returned can be written exactly
    when the three counts the summary took over from the document (the
    requests, the bytes received and the bytes sent) are numbers; otherwise
    [generate_report] raises a ValueError (a string) or a TypeError. *)
Theorem report_needs_numeric_counts now data s :
  analyze_performance_data now data = Ok s ->
  ((exists r, generate_report s = Ok r)
   <-> is_number (total_requests s) = true
       /\ is_number (data_received s) = true
       /\ is_number (data_sent s) = true)
  /\ (forall e, generate_report s = Raise e -> e = ValueError \/ e = TypeError).
Proof.
  intros Hs.
  destruct (analysis_verdicts now data s Hs)
    as (v1 & v2 & v3 & v4 & v5 & H1 & H2 & H3 & H4 & H5).
  destruct (analyze_performance_data_steps now data s Hs)
    as (top & metrics & duration & failed & reqs & vus & received & sent & rate
        & er & _ & _ & _ & _ & _ & _ & _ & _ & _ & _ & _ & Hd
        & Hr1 & Hr2 & _ & Hr4 & Hr5 & _).
  destruct (run_duration_is_float _ _ Hd) as [f Hf].
  apply py_round2_is_number in Hr1, Hr2, Hr4, Hr5.
  destruct (is_number_ordered _ 500 Hr1) as [[b1 Hb1] _].
  destruct (is_number_ordered _ 1 Hr4) as [[b4 Hb4] _].
  destruct (is_number_ordered _ 100 Hr5) as [_ [b5 Hb5]].
  destruct (is_number_ordered _ 1000 Hr2) as [[b2 Hb2] _].
  unfold generate_report, results_get.
  rewrite Hf, H1, H2, H3, H4, H5, Hb1, Hb4, Hb5, Hb2.
  cbn [format_fixed1].
  destruct (format_thousands_spec (total_requests s)) as [[-> ->]|(-> & e1 & -> & He1)];
    cbn [mbind result_bind];
    [|split; [split; [intros [? ?]; discriminate|intros (? & _); discriminate]
             |by intros e [= <-]]].
  destruct (format_thousands_spec (data_received s)) as [[-> ->]|(-> & e2 & -> & He2)];
    cbn [mbind result_bind];
    [|split; [split; [intros [? ?]; discriminate|intros (_ & ? & _); discriminate]
             |by intros e [= <-]]].
  destruct (format_thousands_spec (data_sent s)) as [[-> ->]|(-> & e3 & -> & He3)];
    cbn [mbind result_bind mret result_ret];
    [|split; [split; [intros [? ?]; discriminate|intros (_ & _ & ?); discriminate]
             |by intros e [= <-]]].
  split; [split; eauto|discriminate].
Qed.

(** *** The advice of the report *)

Lemma generate_report_inv s r :
  generate_report s = Ok r ->
  exists slow errors low slow95,
    py_gt_int (avg_response_time s) 500 = Ok slow
    /\ py_gt_int (error_rate s) 1 = Ok errors
    /\ py_lt_int (throughput s) 100 = Ok low
    /\ py_gt_int (p95_response_time s) 1000 = Ok slow95
    /\ advices r
       = (if slow then [SlowAverage] else [])
         ++ (if errors then [HighErrorRate] else [])
         ++ (if low then [LowThroughput] else [])
         ++ (if slow95 then [SlowP95] else [])
         ++ (if String.eqb (overall_status s) "pass" then [AllWithinLimits] else []).
Proof.
  unfold generate_report.
  repeat (match goal with
          | |- context [mbind _ ?c] =>
              destruct c; cbn [mbind result_bind mret result_ret];
              [|discriminate]
          end).
  intros [= <-]. cbn [advices]. by eexists _, _, _, _.
Qed.

Section Rounding.
Hypothesis rounding : rounding_keeps_side float_round2.

Lemma rounded_above_fails raw rounded t :
  py_round2 raw = Ok rounded ->
  py_gt_int rounded t = Ok true ->
  py_le_int raw t = Ok false.
Proof using rounding.
  destruct raw as [|b|z|f| | |]; cbn; try discriminate.
  - intros [= <-]. cbn. intros [= H]. f_equal. lia.
  - intros [= <-]. cbn. intros [= H]. f_equal. lia.
  - intros [= <-]. cbn. intros [= H].
    destruct (rounding f t) as [Hle _]. cbn in Hle.
    destruct (float_cmp_int f t) as [[| |]|]; try reflexivity;
      specialize (Hle eq_refl);
      destruct (float_cmp_int (float_round2 f) t) as [[| |]|]; discriminate.
Qed.

Lemma rounded_below_fails raw rounded t :
  py_round2 raw = Ok rounded ->
  py_lt_int rounded t = Ok true ->
  py_ge_int raw t = Ok false.
Proof using rounding.
  destruct raw as [|b|z|f| | |]; cbn; try discriminate.
  - intros [= <-]. cbn. intros [= H]. f_equal. lia.
  - intros [= <-]. cbn. intros [= H]. f_equal. lia.
  - intros [= <-]. cbn. intros [= H].
    destruct (rounding f t) as [_ Hge]. cbn in Hge.
    destruct (float_cmp_int f t) as [[| |]|]; try reflexivity;
      specialize (Hge eq_refl);
      destruct (float_cmp_int (float_round2 f) t) as [[| |]|]; discriminate.
Qed.

(** X8: provided that rounding to two decimals does not carry a float across
    an integer limit, every warning of the report is backed by a failed
    verdict (the average, the error rate, the throughput, the 95th
    percentile), the closing line that all metrics are within their limits
    is there exactly when the status is 'pass', and a passing run gets that
    line and no warning. *)
Theorem advice_reflects_verdicts now data s r :
  analyze_performance_data now data = Ok s ->
  generate_report s = Ok r ->
  (SlowAverage ∈ advices r ->
   exists v, results s !! "avg_response_time" = Some v /\ passed v = false)
  /\ (HighErrorRate ∈ advices r ->
      exists v, results s !! "error_rate" = Some v /\ passed v = false)
  /\ (LowThroughput ∈ advices r ->
      exists v, results s !! "throughput" = Some v /\ passed v = false)
  /\ (SlowP95 ∈ advices r ->
      exists v, results s !! "p95_response_time" = Some v /\ passed v = false)
  /\ (AllWithinLimits ∈ advices r <-> overall_status s = "pass")
  /\ (overall_status s = "pass" -> advices r = [AllWithinLimits]).
Proof using rounding.
  intros Hs Hr.
  destruct (analyze_performance_data_steps now data s Hs)
    as (top & metrics & duration & failed & reqs & vus & received & sent & rate
        & er & _ & _ & _ & _ & _ & _ & _ & _ & _ & _ & Hev & _
        & Hr1 & Hr2 & _ & Hr4 & Hr5 & _).
  destruct (evaluate_spec _ _ _ _ _ _ (make_thresholds_NoDup _ _ _ _ _) Hev)
    as (_ & Hin & Hpass & _).
  unfold make_thresholds in Hin, Hpass.
  edestruct (Hin "avg_response_time") as (v1 & H1 & C1 & _); [left|].
  edestruct (Hin "p95_response_time") as (v2 & H2 & C2 & _); [right; left|].
  edestruct (Hin "error_rate") as (v4 & H4 & C4 & _); [do 3 right; left|].
  edestruct (Hin "throughput") as (v5 & H5 & C5 & _); [do 4 right; left|].
  rewrite check_direction in C1, C2, C4, C5. cbn in C1, C2, C4, C5.
  destruct (generate_report_inv s r Hr)
    as (slow & errors & low & slow95 & Hslow & Herrors & Hlow & Hslow95 & ->).
  assert (F1 : slow = true -> passed v1 = false).
  { intros ->. pose proof (rounded_above_fails _ _ _ Hr1 Hslow) as H.
    rewrite H in C1. by injection C1. }
  assert (F4 : errors = true -> passed v4 = false).
  { intros ->. pose proof (rounded_above_fails _ _ _ Hr4 Herrors) as H.
    rewrite H in C4. by injection C4. }
  assert (F5 : low = true -> passed v5 = false).
  { intros ->. pose proof (rounded_below_fails _ _ _ Hr5 Hlow) as H.
    rewrite H in C5. by injection C5. }
  assert (F2 : slow95 = true -> passed v2 = false).
  { intros ->. pose proof (rounded_above_fails _ _ _ Hr2 Hslow95) as H.
    rewrite H in C2. by injection C2. }
  assert (Hall : overall_status s = "pass" ->
                 slow = false /\ errors = false /\ low = false /\ slow95 = false).
  { intros Hstatus.
    apply (bool_decide_eq_true_2 (overall_status s = "pass")) in Hstatus.
    apply Hpass in Hstatus as [_ Hall].
    pose proof (Hall "avg_response_time" _ ltac:(left)) as P1.
    pose proof (Hall "p95_response_time" _ ltac:(right; left)) as P2.
    pose proof (Hall "error_rate" _ ltac:(do 3 right; left)) as P4.
    pose proof (Hall "throughput" _ ltac:(do 4 right; left)) as P5.
    rewrite check_direction in P1, P2, P4, P5. cbn in P1, P2, P4, P5.
    rewrite P1 in C1. rewrite P2 in C2. rewrite P4 in C4. rewrite P5 in C5.
    injection C1 as C1. injection C2 as C2. injection C4 as C4. injection C5 as C5.
    repeat split.
    - destruct slow; [|done]. rewrite F1 in C1; done.
    - destruct errors; [|done]. rewrite F4 in C4; done.
    - destruct low; [|done]. rewrite F5 in C5; done.
    - destruct slow95; [|done]. rewrite F2 in C2; done. }
  split; [|split; [|split; [|split; [|split]]]].
  - intros Hmem. exists v1. split; [done|]. apply F1.
    destruct slow; [done|]. destruct errors, low, slow95, (String.eqb _ _);
      cbn in Hmem; repeat (apply elem_of_cons in Hmem as [Hmem|Hmem]; [discriminate|]);
      inversion Hmem.
  - intros Hmem. exists v4. split; [done|]. apply F4.
    destruct errors; [done|]. destruct slow, low, slow95, (String.eqb _ _);
      cbn in Hmem; repeat (apply elem_of_cons in Hmem as [Hmem|Hmem]; [discriminate|]);
      inversion Hmem.
  - intros Hmem. exists v5. split; [done|]. apply F5.
    destruct low; [done|]. destruct slow, errors, slow95, (String.eqb _ _);
      cbn in Hmem; repeat (apply elem_of_cons in Hmem as [Hmem|Hmem]; [discriminate|]);
      inversion Hmem.
  - intros Hmem. exists v2. split; [done|]. apply F2.
    destruct slow95; [done|]. destruct slow, errors, low, (String.eqb _ _);
      cbn in Hmem; repeat (apply elem_of_cons in Hmem as [Hmem|Hmem]; [discriminate|]);
      inversion Hmem.
  - destruct (String.eqb_spec (overall_status s) "pass") as [Hp|Hp].
    + split; [done|]. intros _. rewrite !elem_of_app. do 4 right. left.
    + split; [|done]. intros Hmem.
      destruct slow, errors, low, slow95;
        cbn in Hmem; repeat (apply elem_of_cons in Hmem as [Hmem|Hmem]; [discriminate|]);
        inversion Hmem.
  - intros Hstatus. destruct (Hall Hstatus) as (-> & -> & -> & ->).
    rewrite Hstatus. reflexivity.
Qed.

End Rounding.

(** *** The command *)

Section Main.
Variable open_w : string -> result Datatypes.unit.

Local Abbreviation main := (main float_round2 int_truediv open_w).

(** X9: [main] writes the report and then the JSON summary, and only then
    decides how to end.  It returns normally only when a document was loaded
    and analysed with status 'pass' and both files were written; a run whose
    status is not 'pass' still writes both files before it exits with
    status 1; and no file is written unless the document was loaded, the
    analysis returned and the report could be written out. *)
Theorem main_writes_before_it_ends now fs args :
  let r := main now fs args in
  let both s rep :=
    [(arg_output args, ReportText rep); (arg_json args, SummaryJson s)] in
  (outcome r = Ok tt ->
   exists data s rep,
     fs (arg_results_file args) = Ok data
     /\ analyze_performance_data now data = Ok s
     /\ generate_report s = Ok rep
     /\ overall_status s = "pass"
     /\ written r = both s rep)
  /\ (forall data s rep,
        fs (arg_results_file args) = Ok data ->
        analyze_performance_data now data = Ok s ->
        generate_report s = Ok rep ->
        open_w (arg_output args) = Ok tt ->
        open_w (arg_json args) = Ok tt ->
        written r = both s rep
        /\ outcome r = (if String.eqb (overall_status s) "pass"
                        then Ok tt else Raise (SystemExit 1)))
  /\ (written r <> [] ->
      exists data s rep,
        fs (arg_results_file args) = Ok data
        /\ analyze_performance_data now data = Ok s
        /\ generate_report s = Ok rep
        /\ open_w (arg_output args) = Ok tt).
Proof.
  cbn zeta. unfold Performance.main, Performance.analyze_performance_results.
  destruct (fs (arg_results_file args)) as [data|e] eqn:Hload.
  2:{ split; [|split]; [|discriminate|].
      - destruct e; cbn; discriminate.
      - destruct e; cbn; done. }
  destruct (analyze_performance_data now data) as [s|e] eqn:Hs.
  2:{ cbn. split; [discriminate|]. split; [|done].
      intros ? ? ? [= <-]. rewrite Hs. discriminate. }
  destruct (generate_report s) as [rep|e] eqn:Hrep.
  2:{ cbn. split; [discriminate|]. split; [|done].
      intros ? ? ? [= <-]. rewrite Hs. intros [= <-]. rewrite Hrep. discriminate. }
  destruct (open_w (arg_output args)) as [[]|e] eqn:Hout.
  2:{ cbn. split; [discriminate|]. split; [|done].
      intros ? ? ? _ _ _ ?. discriminate. }
  destruct (open_w (arg_json args)) as [[]|e] eqn:Hjson.
  2:{ cbn. split; [discriminate|]. split; [intros ? ? ? _ _ _ _ ?; discriminate|].
      intros _. by exists data, s, rep. }
  cbn [written outcome app]. split; [|split].
  - destruct (String.eqb_spec (overall_status s) "pass") as [Hp|Hp]; cbn;
      [|discriminate].
    intros _. by exists data, s, rep.
  - intros ? ? ? [= <-]. rewrite Hs. intros [= <-]. rewrite Hrep. intros [= <-] _ _.
    split; [reflexivity|]. by destruct (String.eqb _ _).
  - intros _. by exists data, s, rep.
Qed.

End Main.

End Builtins.

(** *** The sample run *)

(** X4 on the sample document: the throughput verdict. *)
Lemma one_verdict_per_policy_entry_witness :
  exists s v,
    analyze_performance_data sample_round2 sample_truediv "2024-05-01T10:00:00"
      sample_document = Ok s
    /\ results s !! "throughput" = Some v
    /\ status v = FAIL
    /\ ("throughput", (result_value v, result_threshold v, result_unit v))
       ∈ [("avg_response_time", (avg_response_time s, 500%Z, "ms"));
          ("p95_response_time", (p95_response_time s, 1000%Z, "ms"));
          ("p99_response_time", (p99_response_time s, 2000%Z, "ms"));
          ("error_rate", (error_rate s, 1%Z, "%"));
          ("throughput", (throughput s, 100%Z, "req/s"))].
Proof.
  eexists _, _. split; [reflexivity|]. split; [reflexivity|]. split; [reflexivity|].
  refine (proj2 (proj2 (one_verdict_per_policy_entry sample_round2 sample_truediv
                          "2024-05-01T10:00:00" sample_document _ eq_refl)
                   "throughput" _ eq_refl)).
Defined.

(** X7 on the sample document, whose counts are numbers. *)
Lemma report_needs_numeric_counts_witness :
  exists r s,
    analyze_performance_data sample_round2 sample_truediv "2024-05-01T10:00:00"
      sample_document = Ok s
    /\ generate_report s = Ok r.
Proof.
  destruct (proj2 (proj1 (report_needs_numeric_counts sample_round2 sample_truediv
                            "2024-05-01T10:00:00" sample_document _ eq_refl))
              (conj eq_refl (conj eq_refl eq_refl))) as [r Hr].
  eexists r, _. split; [reflexivity|exact Hr].
Defined.

(** X8 on the sample document: the one warning is that of the throughput. *)
Lemma advice_reflects_verdicts_witness :
  exists s r,
    analyze_performance_data sample_round2 sample_truediv "2024-05-01T10:00:00"
      sample_document = Ok s
    /\ generate_report s = Ok r
    /\ advices r = [LowThroughput]
    /\ exists v, results s !! "throughput" = Some v /\ passed v = false.
Proof.
  eexists _, _. split; [reflexivity|]. split; [reflexivity|]. split; [reflexivity|].
  apply (proj1 (proj2 (proj2
    (advice_reflects_verdicts sample_round2 sample_truediv
       (fun f t => conj (fun H => H) (fun H => H))
       "2024-05-01T10:00:00" sample_document _ _ eq_refl eq_refl)))).
  left.
Defined.

End PerformanceExtras.
